(** * UPI dashboard: table extraction (scraper.py) and history merge
      (update_data.py)

    A shallow embedding of the two Python scripts.

    - Strings are sequences of 8-bit code points ([string]); the Python
      built-ins the scripts call ([str.strip], [str.replace], [in],
      [float], [str] of a list, [datetime.strptime]/[strftime] with the
      format [%b-%y] in the C locale) are modelled on that range.
    - A parsed page is a tree of elements and text nodes; BeautifulSoup's
      [find_all] and [get_text] are the usual pre-order traversals.
    - Python exceptions are an error monad [exc]; [try]/[except] clauses are
      written out with the exception classes they catch.
    - A Python [dict] is an association list in insertion order with
      distinct keys.
    - [float] values are kept as the decimal literal that was read (sign,
      digits, exponent); the rounding to binary64 is not modelled. *)

From Stdlib Require Import List String Ascii ZArith NArith Bool Lia Arith.
From Stdlib Require Import Sorting.Permutation Sorting.Sorted.
Import ListNotations.

Set Warnings "-register-all".

Local Open Scope string_scope.
Local Open Scope list_scope.
Local Open Scope nat_scope.

(** ** Exceptions *)

Inductive exn : Type :=
| ValueError
| IndexError
| KeyError
| TypeError
| AttributeError.

Inductive exc (A : Type) : Type :=
| Ok (a : A)
| Raise (e : exn).
Arguments Ok {A} a.
Arguments Raise {A} e.

Definition bind {A B : Type} (m : exc A) (k : A -> exc B) : exc B :=
  match m with
  | Ok a => k a
  | Raise e => Raise e
  end.

Notation "x <- m ;; k" := (bind m (fun x => k))
  (at level 61, m at next level, right associativity).

(** [for x in xs: acc = step acc x], where the body may raise. *)
Fixpoint for_each {A S : Type} (step : S -> A -> exc S) (xs : list A) (acc : S)
  : exc S :=
  match xs with
  | [] => Ok acc
  | x :: rest => acc' <- step acc x ;; for_each step rest acc'
  end.

Fixpoint mapM {A B : Type} (f : A -> exc B) (xs : list A) : exc (list B) :=
  match xs with
  | [] => Ok []
  | x :: rest => y <- f x ;; ys <- mapM f rest ;; Ok (y :: ys)
  end.

(** [except (ValueError, IndexError): continue] around a loop body: the two
    classes are swallowed and the loop state stays as it was; every other
    exception goes on to the enclosing handler. *)
Definition except_value_index {S : Type} (body : exc S) (unchanged : S) : exc S :=
  match body with
  | Ok s => Ok s
  | Raise ValueError => Ok unchanged
  | Raise IndexError => Ok unchanged
  | Raise e => Raise e
  end.

(** [except Exception as e: return default]. *)
Definition except_exception {A : Type} (body : exc A) (default : A) : A :=
  match body with
  | Ok a => a
  | Raise _ => default
  end.

(** ** Strings *)

Definition code (c : ascii) : nat := nat_of_ascii c.

(** [str.isspace] on code points below 256. *)
Definition is_space (c : ascii) : bool :=
  let n := code c in
  ((9 <=? n) && (n <=? 13)) || ((28 <=? n) && (n <=? 32))
  || (n =? 133) || (n =? 160).

Definition is_digit (c : ascii) : bool :=
  let n := code c in (48 <=? n) && (n <=? 57).

Fixpoint lstrip (s : string) : string :=
  match s with
  | EmptyString => EmptyString
  | String c s' => if is_space c then lstrip s' else s
  end.

Fixpoint rstrip (s : string) : string :=
  match s with
  | EmptyString => EmptyString
  | String c s' =>
      match rstrip s' with
      | EmptyString => if is_space c then EmptyString else String c EmptyString
      | r => String c r
      end
  end.

(** [s.strip()] *)
Definition strip (s : string) : string := lstrip (rstrip s).

(** [s.replace(old, new)] for a one-character [old]. *)
Fixpoint replace (old : ascii) (new : string) (s : string) : string :=
  match s with
  | EmptyString => EmptyString
  | String c s' =>
      if Ascii.eqb c old then (new ++ replace old new s')%string
      else String c (replace old new s')
  end.

(** [needle in hay] on strings. *)
Fixpoint contains (needle hay : string) : bool :=
  if String.prefix needle hay then true
  else match hay with
       | EmptyString => false
       | String _ h => contains needle h
       end.

(** [x in xs] on a list of strings. *)
Definition in_list (x : string) (xs : list string) : bool :=
  existsb (String.eqb x) xs.

Definition lower (c : ascii) : ascii :=
  let n := code c in
  if (65 <=? n) && (n <=? 90) then ascii_of_nat (n + 32) else c.

Fixpoint lower_string (s : string) : string :=
  match s with
  | EmptyString => EmptyString
  | String c s' => String (lower c) (lower_string s')
  end.

(** *** [repr] of a string and [str] of a list of strings *)

Definition squote : ascii := ascii_of_nat 39.
Definition dquote : ascii := ascii_of_nat 34.
Definition backslash : ascii := ascii_of_nat 92.

Definition hex_digit (n : nat) : ascii :=
  if n <? 10 then ascii_of_nat (48 + n) else ascii_of_nat (87 + n).

Definition is_printable (c : ascii) : bool :=
  let n := code c in
  ((32 <=? n) && (n <=? 126)) || ((161 <=? n) && negb (n =? 173)).

Definition has_char (c : ascii) (s : string) : bool :=
  existsb (Ascii.eqb c) (list_ascii_of_string s).

Definition repr_char (quote : ascii) (c : ascii) : string :=
  let n := code c in
  if Ascii.eqb c quote || Ascii.eqb c backslash
  then String backslash (String c EmptyString)
  else if n =? 9 then String backslash "t"
  else if n =? 10 then String backslash "n"
  else if n =? 13 then String backslash "r"
  else if is_printable c then String c EmptyString
  else String backslash
         (String "x" (String (hex_digit (n / 16))
                        (String (hex_digit (n mod 16)) EmptyString))).

Definition repr (s : string) : string :=
  let quote := if has_char squote s && negb (has_char dquote s)
               then dquote else squote in
  String quote
    (String.concat "" (map (repr_char quote) (list_ascii_of_string s))
     ++ String quote EmptyString)%string.

(** [str(headers)] *)
Definition str_of_list (xs : list string) : string :=
  ("[" ++ String.concat ", " (map repr xs) ++ "]")%string.

(** ** [float(s)] *)

(** The value read: not-a-number, an infinity, or the decimal
    [(-1)^neg * mant * 10^exp]. *)
Inductive pyfloat : Type :=
| FNan
| FInf (neg : bool)
| FDec (neg : bool) (mant : N) (exp : Z).

(** Leading decimal digits of [l], accumulated onto [acc]; returns the value,
    how many digits were read and what follows. *)
Fixpoint span_digits (l : list ascii) (acc : N) (cnt : nat)
  : N * nat * list ascii :=
  match l with
  | c :: rest =>
      if is_digit c
      then span_digits rest (acc * 10 + N.of_nat (code c - 48))%N (S cnt)
      else (acc, cnt, l)
  | [] => (acc, cnt, [])
  end.

Definition read_sign (l : list ascii) : bool * list ascii :=
  match l with
  | c :: rest =>
      if Ascii.eqb c "-" then (true, rest)
      else if Ascii.eqb c "+" then (false, rest)
      else (false, l)
  | [] => (false, [])
  end.

(** Underscores may only stand between two digits; they are dropped before
    the number is read. *)
Fixpoint drop_underscores (prev : ascii) (l : list ascii) : option (list ascii) :=
  match l with
  | [] => if Ascii.eqb prev "_" then None else Some []
  | c :: rest =>
      if Ascii.eqb c "_"
      then if is_digit prev then drop_underscores c rest else None
      else if Ascii.eqb prev "_" && negb (is_digit c) then None
           else option_map (cons c) (drop_underscores c rest)
  end.

Definition parse_inf_nan (neg : bool) (l : list ascii) : option pyfloat :=
  let w := lower_string (string_of_list_ascii l) in
  if String.eqb w "inf" || String.eqb w "infinity" then Some (FInf neg)
  else if String.eqb w "nan" then Some FNan
  else None.

Definition parse_exponent (neg : bool) (mant : N) (frac_digits : nat)
  (l : list ascii) : option pyfloat :=
  match l with
  | [] => Some (FDec neg mant (- Z.of_nat frac_digits))
  | c :: rest =>
      if Ascii.eqb (lower c) "e" then
        let '(eneg, r1) := read_sign rest in
        let '(ev, n, r2) := span_digits r1 0%N 0 in
        match n, r2 with
        | S _, [] =>
            let e := if eneg then (- Z.of_N ev)%Z else Z.of_N ev in
            Some (FDec neg mant (e - Z.of_nat frac_digits))
        | _, _ => None
        end
      else None
  end.

Definition parse_number (l : list ascii) : option pyfloat :=
  let '(neg, r0) := read_sign l in
  let '(ip, n1, r1) := span_digits r0 0%N 0 in
  let '(mant, n2, r2) :=
    match r1 with
    | c :: rest => if Ascii.eqb c "." then span_digits rest ip 0
                   else (ip, 0, r1)
    | [] => (ip, 0, r1)
    end in
  match n1 + n2 with
  | 0 => parse_inf_nan neg r0
  | S _ => parse_exponent neg mant n2 r2
  end.

(** The whitespace [float] ignores around the number: the ASCII blanks
    (tab to carriage return, and the space), and the two blanks above 127,
    which [float] first turns into spaces.  Unlike [str.strip], it leaves the
    separators U+001C to U+001F in place, and they make the text invalid. *)
Definition is_float_space (c : ascii) : bool :=
  let n := code c in
  ((9 <=? n) && (n <=? 13)) || (n =? 32) || (n =? 133) || (n =? 160).

Fixpoint float_lstrip (s : string) : string :=
  match s with
  | EmptyString => EmptyString
  | String c s' => if is_float_space c then float_lstrip s' else s
  end.

Fixpoint float_rstrip (s : string) : string :=
  match s with
  | EmptyString => EmptyString
  | String c s' =>
      match float_rstrip s' with
      | EmptyString =>
          if is_float_space c then EmptyString else String c EmptyString
      | r => String c r
      end
  end.

Definition float_strip (s : string) : string :=
  float_lstrip (float_rstrip s).

(** [float(s)]: surrounding whitespace is ignored; anything that is not a
    decimal literal, an infinity or a nan raises [ValueError]. *)
Definition py_float (s : string) : exc pyfloat :=
  let l := list_ascii_of_string (float_strip s) in
  let digits :=
    if has_char "_" (float_strip s) then drop_underscores zero l
    else Some l in
  match digits with
  | None => Raise ValueError
  | Some l' =>
      match parse_number l' with
      | Some x => Ok x
      | None => Raise ValueError
      end
  end.

(** ** Lists and dictionaries *)

(** [l[i]] with Python's negative indices. *)
Definition getitem {A : Type} (l : list A) (i : Z) : exc A :=
  let n := Z.of_nat (List.length l) in
  let j := if (i <? 0)%Z then (i + n)%Z else i in
  if (j <? 0)%Z || (n <=? j)%Z then Raise IndexError
  else match nth_error l (Z.to_nat j) with
       | Some x => Ok x
       | None => Raise IndexError
       end.

(** JSON-like values: what the extractors build and what [json.load] gives. *)
Inductive json : Type :=
| JNull
| JBool (b : bool)
| JInt (z : Z)
| JNum (x : pyfloat)
| JStr (s : string)
| JList (l : list json)
| JDict (d : list (string * json)).

Definition pydict : Type := list (string * json).

Definition keys (d : pydict) : list string := map fst d.

(** [d.get(k)] as an option. *)
Fixpoint dict_get (d : pydict) (k : string) : option json :=
  match d with
  | [] => None
  | (k', v) :: rest => if String.eqb k k' then Some v else dict_get rest k
  end.

(** [d[k]] *)
Definition dict_getitem (d : pydict) (k : string) : exc json :=
  match dict_get d k with
  | Some v => Ok v
  | None => Raise KeyError
  end.

(** [d[k] = v]: an existing key keeps its place, a new one goes last. *)
Fixpoint dict_set (d : pydict) (k : string) (v : json) : pydict :=
  match d with
  | [] => [(k, v)]
  | (k', v') :: rest =>
      if String.eqb k k' then (k', v) :: rest
      else (k', v') :: dict_set rest k v
  end.

(** [d.update(e)] *)
Definition dict_update (d e : pydict) : pydict :=
  fold_left (fun acc kv => dict_set acc (fst kv) (snd kv)) e d.

Definition has_key (d : pydict) (k : string) : bool :=
  match dict_get d k with Some _ => true | None => false end.

(** ** The parsed document *)

Inductive node : Type :=
| Text (s : string)
| Elem (tag : string) (children : list node).

Fixpoint descendants (n : node) : list node :=
  match n with
  | Text _ => []
  | Elem _ cs => flat_map (fun c => c :: descendants c) cs
  end.

Definition has_tag (name : string) (n : node) : bool :=
  match n with
  | Text _ => false
  | Elem t _ => String.eqb t name
  end.

(** [n.find_all(name)]: the descendants with that tag, in document order. *)
Definition find_all (name : string) (n : node) : list node :=
  filter (has_tag name) (descendants n).

(** [n.get_text()]: all the text below [n], concatenated. *)
Fixpoint get_text (n : node) : string :=
  match n with
  | Text s => s
  | Elem _ cs => String.concat "" (map get_text cs)
  end.

(** ** scraper.py: the extractors *)

(** [[td.get_text().strip() for td in row.find_all('td')]] *)
Definition cell_texts (row : node) : list string :=
  map (fun td => strip (get_text td)) (find_all "td" row).

(** [[th.get_text().strip() for th in table.find_all('th')]] *)
Definition header_texts (table : node) : list string :=
  map (fun th => strip (get_text th)) (find_all "th" table).

(** [float(cells[i].replace(',', ''))] *)
Definition cell_float (cells : list string) (i : Z) : exc pyfloat :=
  c <- getitem cells i ;; py_float (replace "," "" c).

(** *** extract_apps_data *)

Definition apps_marker (table : node) : bool :=
  in_list "Application Name" (header_texts table).

Definition apps_row (apps_data : list json) (row : node) : exc (list json) :=
  let cells := cell_texts row in
  if 3 <=? List.length cells then
    c <- getitem cells 1 ;;
    let app_name := strip (replace "#" "" c) in
    except_value_index
      (volume <- cell_float cells (-2) ;;
       value <- cell_float cells (-1) ;;
       Ok (apps_data ++ [JDict [("name", JStr app_name);
                                ("volume", JNum volume);
                                ("value", JNum value)]]))
      apps_data
  else Ok apps_data.

Definition apps_table (apps_data : list json) (table : node) : exc (list json) :=
  let rows := skipn 1 (find_all "tr" table) in
  for_each apps_row (firstn 10 rows) apps_data.

Fixpoint apps_tables (tables : list node) (apps_data : list json)
  : exc (list json) :=
  match tables with
  | [] => Ok apps_data
  | table :: rest =>
      if apps_marker table
      then apps_table apps_data table (* break *)
      else apps_tables rest apps_data
  end.

Definition extract_apps_data (soup : node) : pydict :=
  except_exception
    (apps_data <- apps_tables (find_all "table" soup) [] ;;
     Ok [("topApps", JList apps_data)])
    [("topApps", JList [])].

(** *** extract_remitter_data *)

Definition remitter_marker (table : node) : bool :=
  contains "UPI Remitter Members" (str_of_list (header_texts table)).

Definition remitter_row (banks_data : list json) (row : node) : exc (list json) :=
  let cells := cell_texts row in
  if 3 <=? List.length cells then
    c <- getitem cells 1 ;;
    let bank_name := strip c in
    except_value_index
      (volume <- cell_float cells 2 ;;
       Ok (banks_data ++ [JDict [("name", JStr bank_name);
                                 ("volume", JNum volume)]]))
      banks_data
  else Ok banks_data.

Definition remitter_table (banks_data : list json) (table : node)
  : exc (list json) :=
  let rows := skipn 1 (find_all "tr" table) in
  for_each remitter_row (firstn 10 rows) banks_data.

Fixpoint remitter_tables (tables : list node) (banks_data : list json)
  : exc (list json) :=
  match tables with
  | [] => Ok banks_data
  | table :: rest =>
      if remitter_marker table
      then remitter_table banks_data table (* break *)
      else remitter_tables rest banks_data
  end.

Definition extract_remitter_data (soup : node) : pydict :=
  except_exception
    (banks_data <- remitter_tables (find_all "table" soup) [] ;;
     Ok [("topBanks", JList banks_data)])
    [("topBanks", JList [])].

(** *** extract_beneficiary_data *)

Definition extract_beneficiary_data (soup : node) : pydict := [].

(** *** extract_merchant_data *)

Definition merchant_marker (table : node) : bool :=
  contains "Merchant Category-wise" (get_text table).

Definition merchant_row (merchant_data : list json) (row : node)
  : exc (list json) :=
  let cells := cell_texts row in
  if 4 <=? List.length cells then
    except_value_index
      (c <- getitem cells 2 ;;
       let category := strip c in
       volume <- cell_float cells 3 ;;
       value <- (if 4 <? List.length cells
                 then x <- cell_float cells 4 ;; Ok (JNum x)
                 else Ok (JInt 0)) ;;
       Ok (merchant_data ++ [JDict [("category", JStr category);
                                    ("volume", JNum volume);
                                    ("value", value)]]))
      merchant_data
  else Ok merchant_data.

Definition merchant_table (merchant_data : list json) (table : node)
  : exc (list json) :=
  let rows := find_all "tr" table in
  for_each merchant_row rows merchant_data.

Fixpoint merchant_tables (tables : list node) (merchant_data : list json)
  : exc (list json) :=
  match tables with
  | [] => Ok merchant_data
  | table :: rest =>
      if merchant_marker table
      then merchant_table merchant_data table (* break *)
      else merchant_tables rest merchant_data
  end.

Definition extract_merchant_data (soup : node) : pydict :=
  except_exception
    (merchant_data <- merchant_tables (find_all "table" soup) [] ;;
     Ok [("merchantCategories", JList (firstn 10 merchant_data))])
    [("merchantCategories", JList [])].

(** *** extract_state_data *)

Definition state_marker (table : node) : bool :=
  contains "State-wise UPI" (get_text table).

Definition state_row (state_data : list json) (row : node) : exc (list json) :=
  let cells := cell_texts row in
  if 5 <=? List.length cells then
    except_value_index
      (c <- getitem cells 1 ;;
       let state := strip c in
       volume <- cell_float cells 2 ;;
       value <- cell_float cells 4 ;;
       Ok (state_data ++ [JDict [("state", JStr state);
                                 ("volume", JNum volume);
                                 ("value", JNum value)]]))
      state_data
  else Ok state_data.

Definition state_table (state_data : list json) (table : node)
  : exc (list json) :=
  let rows := skipn 1 (find_all "tr" table) in
  for_each state_row (firstn 10 rows) state_data.

Fixpoint state_tables (tables : list node) (state_data : list json)
  : exc (list json) :=
  match tables with
  | [] => Ok state_data
  | table :: rest =>
      if state_marker table
      then state_table state_data table (* break *)
      else state_tables rest state_data
  end.

Definition extract_state_data (soup : node) : pydict :=
  except_exception
    (state_data <- state_tables (find_all "table" soup) [] ;;
     Ok [("stateData", JList state_data)])
    [("stateData", JList [])].

(** *** extract_p2p_p2m_data

    The row loop leaves through [return] at the first row that goes through;
    [Some d] is that returned dictionary, [None] means the loop went on. *)

Definition p2p_marker (table : node) : bool :=
  contains "UPI P2P and P2M Transactions" (get_text table).

(** The statements inside the [try] of one row. *)
Definition p2p_try (cells : list string) : exc (option pydict) :=
  c <- getitem cells 0 ;;
  let month := strip c in
  total_volume <- cell_float cells 1 ;;
  total_value <- cell_float cells 2 ;;
  p2p_volume <- cell_float cells 3 ;;
  p2p_value <- cell_float cells 4 ;;
  p2m_volume <- cell_float cells 5 ;;
  p2m_value <- cell_float cells 6 ;;
  Ok (Some [("month", JStr month);
            ("totalVolume", JNum total_volume);
            ("totalValue", JNum total_value);
            ("p2pVolume", JNum p2p_volume);
            ("p2pValue", JNum p2p_value);
            ("p2mVolume", JNum p2m_volume);
            ("p2mValue", JNum p2m_value)]).

Definition p2p_row (row : node) : exc (option pydict) :=
  let cells := cell_texts row in
  if 6 <=? List.length cells then
    except_value_index (p2p_try cells) None
  else Ok None.

Fixpoint p2p_rows (rows : list node) : exc (option pydict) :=
  match rows with
  | [] => Ok None
  | row :: rest =>
      r <- p2p_row row ;;
      match r with
      | Some d => Ok (Some d) (* return *)
      | None => p2p_rows rest
      end
  end.

Definition p2p_table (table : node) : exc (option pydict) :=
  let rows := find_all "tr" table in
  p2p_rows rows.

Fixpoint p2p_tables (tables : list node) : exc (option pydict) :=
  match tables with
  | [] => Ok None
  | table :: rest =>
      if p2p_marker table
      then p2p_table table (* return, or break *)
      else p2p_tables rest
  end.

Definition extract_p2p_p2m_data (soup : node) : pydict :=
  except_exception
    (r <- p2p_tables (find_all "table" soup) ;;
     match r with
     | Some d => Ok d
     | None => Ok []
     end)
    [].

(** *** parse_tables, on the parsed page *)

Definition parse_tables (soup : node) : pydict :=
  except_exception
    (let parsed_data := [] in
     let parsed_data := dict_update parsed_data (extract_apps_data soup) in
     let parsed_data := dict_update parsed_data (extract_remitter_data soup) in
     let parsed_data := dict_update parsed_data (extract_beneficiary_data soup) in
     let parsed_data := dict_update parsed_data (extract_merchant_data soup) in
     let parsed_data := dict_update parsed_data (extract_state_data soup) in
     let parsed_data := dict_update parsed_data (extract_p2p_p2m_data soup) in
     Ok parsed_data)
    [].

(** *** The five datasets, side by side *)

Inductive dataset : Type := Apps | Banks | Merchants | States | Monthly.

Definition marker (ds : dataset) : node -> bool :=
  match ds with
  | Apps => apps_marker
  | Banks => remitter_marker
  | Merchants => merchant_marker
  | States => state_marker
  | Monthly => p2p_marker
  end.

Definition extract (ds : dataset) : node -> pydict :=
  match ds with
  | Apps => extract_apps_data
  | Banks => extract_remitter_data
  | Merchants => extract_merchant_data
  | States => extract_state_data
  | Monthly => extract_p2p_p2m_data
  end.

(** What the function body of each extractor evaluates to before its outer
    [except Exception] handler: the dictionary it returns, or the exception
    that reaches the handler. *)
Definition extract_body (ds : dataset) (soup : node) : exc pydict :=
  let tables := find_all "table" soup in
  match ds with
  | Apps => l <- apps_tables tables [] ;; Ok [("topApps", JList l)]
  | Banks => l <- remitter_tables tables [] ;; Ok [("topBanks", JList l)]
  | Merchants =>
      l <- merchant_tables tables [] ;;
      Ok [("merchantCategories", JList (firstn 10 l))]
  | States => l <- state_tables tables [] ;; Ok [("stateData", JList l)]
  | Monthly =>
      r <- p2p_tables tables ;;
      match r with Some d => Ok d | None => Ok [] end
  end.

(** What each extractor returns once its table has been singled out: the
    body of its [if] branch, wrapped as the function wraps it. *)
Definition extract_from_table (ds : dataset) (table : node) : exc pydict :=
  match ds with
  | Apps => l <- apps_table [] table ;; Ok [("topApps", JList l)]
  | Banks => l <- remitter_table [] table ;; Ok [("topBanks", JList l)]
  | Merchants =>
      l <- merchant_table [] table ;;
      Ok [("merchantCategories", JList (firstn 10 l))]
  | States => l <- state_table [] table ;; Ok [("stateData", JList l)]
  | Monthly =>
      r <- p2p_table table ;;
      match r with Some d => Ok d | None => Ok [] end
  end.

(** The value an extractor falls back to: an empty sequence under its key,
    or, for the monthly totals, no field at all. *)
Definition failure_value (ds : dataset) : pydict :=
  match ds with
  | Apps => [("topApps", JList [])]
  | Banks => [("topBanks", JList [])]
  | Merchants => [("merchantCategories", JList [])]
  | States => [("stateData", JList [])]
  | Monthly => []
  end.

Definition monthly_fields : list string :=
  ["month"; "totalVolume"; "totalValue"; "p2pVolume"; "p2pValue";
   "p2mVolume"; "p2mValue"].

Definition dataset_keys (ds : dataset) : list string :=
  match ds with
  | Apps => ["topApps"]
  | Banks => ["topBanks"]
  | Merchants => ["merchantCategories"]
  | States => ["stateData"]
  | Monthly => monthly_fields
  end.

(** The Table Locator in the words of the specification (section 4.2): the
    first table satisfying the predicate, or [None] for "not found".  The
    source has no such function, each extractor scans the tables in its own
    loop; [locator_refines] below compares the two. *)
Definition table_locator (pred : node -> bool) (tables : list node)
  : option node :=
  find pred tables.

(** Page-building helpers for concrete documents. *)
Definition cell (tag : string) (s : string) : node := Elem tag [Text s].
Definition tr_of (tag : string) (cells : list string) : node :=
  Elem "tr" (map (cell tag) cells).
Definition page (tables : list node) : node :=
  Elem "[document]" [Elem "html" [Elem "body" tables]].

(** ** update_data.py: the history merge *)

(** A [datetime] as far as the format [%b-%y] sees it: year and month (the
    day is always 1, the time midnight). *)
Record datetime : Type := mk_datetime { dt_year : Z; dt_month : nat }.

(** [a < b] on [datetime] values. *)
Definition dt_ltb (a b : datetime) : bool :=
  (dt_year a <? dt_year b)%Z
  || ((dt_year a =? dt_year b)%Z && (dt_month a <? dt_month b)).

Definition dt_le (a b : datetime) : Prop := dt_ltb b a = false.

Definition month_abbr : list string :=
  ["Jan"; "Feb"; "Mar"; "Apr"; "May"; "Jun";
   "Jul"; "Aug"; "Sep"; "Oct"; "Nov"; "Dec"].

Fixpoint index_of (x : string) (xs : list string) : option nat :=
  match xs with
  | [] => None
  | y :: rest =>
      if String.eqb x y then Some 0
      else option_map S (index_of x rest)
  end.

Definition digit_char (n : nat) : ascii := ascii_of_nat (48 + n).

(** [now.strftime("%b-%y")] *)
Definition strftime_b_y (now : datetime) : string :=
  let y := Z.to_nat (dt_year now mod 100) in
  (nth (dt_month now - 1) month_abbr "" ++ "-"
   ++ String (digit_char (y / 10)) (String (digit_char (y mod 10)) EmptyString))%string.

(** [datetime.strptime(s, "%b-%y")]: a month abbreviation in any letter
    case, a dash and exactly two digits, with nothing before or after.
    Years 00-68 are 2000-2068, years 69-99 are 1969-1999. *)
Definition strptime_b_y (s : string) : exc datetime :=
  match list_ascii_of_string s with
  | [a; b; c; dash; d1; d2] =>
      match index_of (lower_string (string_of_list_ascii [a; b; c]))
                     (map lower_string month_abbr) with
      | Some m =>
          if Ascii.eqb dash "-" && is_digit d1 && is_digit d2 then
            let y := Z.of_nat (10 * (code d1 - 48) + (code d2 - 48)) in
            Ok (mk_datetime (if (y <=? 68)%Z then 2000 + y else 1900 + y)%Z
                            (S m))
          else Raise ValueError
      | None => Raise ValueError
      end
  | _ => Raise ValueError
  end.

(** [sorted(keys, key=..., reverse=True)].  The key function is applied to
    every element first, in order, and an exception there ends the sort.
    The sort is stable, also with [reverse=True]: elements with equal keys keep
    their input order, which fixes its result; insertion from the right
    computes that result. *)
Fixpoint insert_desc (x : datetime * string) (l : list (datetime * string))
  : list (datetime * string) :=
  match l with
  | [] => [x]
  | y :: rest =>
      if dt_ltb (fst x) (fst y) then y :: insert_desc x rest
      else x :: l
  end.

Fixpoint sort_desc (l : list (datetime * string)) : list (datetime * string) :=
  match l with
  | [] => []
  | x :: rest => insert_desc x (sort_desc rest)
  end.

Definition with_date (k : string) : exc (datetime * string) :=
  d <- strptime_b_y k ;; Ok (d, k).

Definition sorted_months_of (ks : list string) : exc (list string) :=
  dated <- mapM with_date ks ;;
  Ok (map snd (sort_desc dated)).

(** [latest_data.get('month', datetime.now().strftime("%b-%y"))], as the key
    of the assignment that follows.  [latest_data] is whatever [json.load]
    returned: anything but an object has no [get]; a [month] that is not a
    string is either unhashable or makes [strptime] raise [TypeError] in
    the sort, and both end in the same handler. *)
Definition current_month_of (latest_data : json) (now : datetime) : exc string :=
  match latest_data with
  | JDict d =>
      match dict_get d "month" with
      | None => Ok (strftime_b_y now)
      | Some (JStr s) => Ok s
      | Some _ => Raise TypeError
      end
  | _ => Raise AttributeError
  end.

(** One step of the comprehension
    [{month: historical_data[month] for month in ...}]. *)
Definition rebuild_step (historical_data : pydict) (recent_data : pydict)
  (month : string) : exc pydict :=
  v <- dict_getitem historical_data month ;;
  Ok (dict_set recent_data month v).

(** Lines 29-35: sort the period keys, newest first, and rebuild the store
    from the first 24 of them. *)
Definition keep_recent (historical_data : pydict) : exc pydict :=
  sorted_months <- sorted_months_of (keys historical_data) ;;
  for_each (rebuild_step historical_data) (firstn 24 sorted_months) [].

(** Lines 26-35: the store handed to [save_historical_data]. *)
Definition merge_history (latest_data : json) (historical_data : pydict)
  (now : datetime) : exc pydict :=
  current_month <- current_month_of latest_data now ;;
  let historical_data := dict_set historical_data current_month latest_data in
  keep_recent historical_data.

(** What a run does to the files, in order, and what it returns. *)
Inductive effect : Type :=
| SaveHistorical (data : pydict)
| UpdateHtml (latest_data : json).

Record run : Type := mk_run { effects : list effect; returned : bool }.

(** [process_and_update_dashboard], once [latest.json] and the historical
    store have been read. *)
Definition process_and_update_dashboard (latest_data : json)
  (historical_data : pydict) (now : datetime) : run :=
  match merge_history latest_data historical_data now with
  | Ok recent_data =>
      mk_run [SaveHistorical recent_data; UpdateHtml latest_data] true
  | Raise _ => mk_run [] false
  end.

(** ** Row validity, as the row bodies test it *)

Definition is_ok {A : Type} (m : exc A) : bool :=
  match m with Ok _ => true | Raise _ => false end.

Definition apps_valid (row : node) : bool :=
  let cells := cell_texts row in
  (3 <=? List.length cells)
  && is_ok (cell_float cells (-2)) && is_ok (cell_float cells (-1)).

Definition remitter_valid (row : node) : bool :=
  let cells := cell_texts row in
  (3 <=? List.length cells) && is_ok (cell_float cells 2).

Definition merchant_valid (row : node) : bool :=
  let cells := cell_texts row in
  (4 <=? List.length cells)
  && is_ok (cell_float cells 3)
  && (if 4 <? List.length cells then is_ok (cell_float cells 4) else true).

Definition state_valid (row : node) : bool :=
  let cells := cell_texts row in
  (5 <=? List.length cells)
  && is_ok (cell_float cells 2) && is_ok (cell_float cells 4).

Definition p2p_valid (row : node) : bool :=
  let cells := cell_texts row in
  (7 <=? List.length cells)
  && is_ok (cell_float cells 1) && is_ok (cell_float cells 2)
  && is_ok (cell_float cells 3) && is_ok (cell_float cells 4)
  && is_ok (cell_float cells 5) && is_ok (cell_float cells 6).

(** What one pass of a row body adds to an empty accumulator. *)
Definition row_out (step : list json -> node -> exc (list json)) (row : node)
  : list json :=
  match step [] row with
  | Ok l => l
  | Raise _ => []
  end.

Definition records_of (out : pydict) (key : string) : list json :=
  match dict_get out key with
  | Some (JList l) => l
  | _ => []
  end.

(** ** Predicates and concrete inputs used in the statements *)

(** The record an apps row appends. *)
Definition is_app_record (r : json) : Prop :=
  exists name volume value,
    r = JDict [("name", JStr name); ("volume", JNum volume);
               ("value", JNum value)].

(** The dictionary the monthly extractor returns from a row. *)
Definition is_monthly_record (d : pydict) : Prop :=
  exists month tv tw pv pw mv mw,
    d = [("month", JStr month);
         ("totalVolume", JNum tv); ("totalValue", JNum tw);
         ("p2pVolume", JNum pv); ("p2pValue", JNum pw);
         ("p2mVolume", JNum mv); ("p2mValue", JNum mw)].

(** A page without any table. *)
Definition empty_page : node := page [].

Definition apps_header : node :=
  tr_of "th" ["Sr. No."; "Application Name"; "Volume (Mn)"; "Value (Cr)"].

(** Three tables in document order: a state table, then two apps tables. *)
Definition fx_state_table : node :=
  Elem "table"
    [Elem "caption" [Text "State-wise UPI volume"];
     tr_of "th" ["Sr"; "State"; "Volume"; "Share"; "Value"];
     tr_of "td" ["1"; "Maharashtra"; "1,500.25"; "9%"; "210,000"];
     tr_of "td" ["2"; "Karnataka"; "1,100"; "7%"; "150,000.5"]].

Definition fx_apps_table_b : node :=
  Elem "table"
    [apps_header;
     tr_of "td" ["1"; "PhonePe#"; "8,000.10"; "1,200,000"];
     tr_of "td" ["2"; "Google Pay"; "6,000"; "800,000.5"]].

Definition fx_apps_table_c : node :=
  Elem "table"
    [apps_header;
     tr_of "td" ["1"; "Paytm"; "1,000"; "100,000"]].

Definition fx_abc_page : node :=
  page [fx_state_table; fx_apps_table_b; fx_apps_table_c].

(** One apps table of 12 rows: the header and 11 data rows, the 3rd with a
    volume that is not a number and the 6th with two cells only. *)
Definition fx_apps_rows : list (list string) :=
  [["1"; "PhonePe#"; "8,000.10"; "1,200,000"];
   ["2"; "Google Pay"; "6,000"; "800,000.5"];
   ["3"; "Paytm"; "N/A"; "100,000"];
   ["4"; "CRED"; "150"; "50,000"];
   ["5"; "Amazon Pay"; "70"; "9,000"];
   ["6"; "BHIM"];
   ["7"; "WhatsApp"; "60"; "5,000"];
   ["8"; "Navi"; "55"; "4,000"];
   ["9"; "Groww"; "40"; "3,500"];
   ["10"; "Mobikwik"; "30"; "3,000"];
   ["11"; "Slice"; "20"; "2,000"]].

Definition fx_apps_fixture : node :=
  Elem "table" (apps_header :: map (tr_of "td") fx_apps_rows).

Definition fx_apps_page : node := page [fx_apps_fixture].

(** An apps table with 15 valid data rows. *)
Definition fx_fifteen_rows : list node :=
  map (fun n => tr_of "td" [n; ("App " ++ n)%string; "1,000"; "25,000.5"])
    ["1"; "2"; "3"; "4"; "5"; "6"; "7"; "8"; "9"; "10";
     "11"; "12"; "13"; "14"; "15"].

Definition fx_fifteen_table : node :=
  Elem "table" (apps_header :: fx_fifteen_rows).

(** A monthly table whose first row holds seven column titles in [td]
    cells, followed by a six-cell row and a seven-cell row of numbers. *)
Definition fx_six_cell_row : node :=
  tr_of "td" ["Jan-24"; "12,000"; "18,000"; "5,000"; "13,000"; "7,000"].

Definition fx_p2p_table : node :=
  Elem "table"
    [Elem "caption" [Text "UPI P2P and P2M Transactions"];
     tr_of "td" ["Month"; "Total Vol"; "Total Val"; "P2P Vol"; "P2P Val";
                 "P2M Vol"; "P2M Val"];
     fx_six_cell_row;
     tr_of "td" ["Feb-24"; "12,100.5"; "18,200"; "5,100"; "13,100"; "7,000.5";
                 "5,100"]].

Definition fx_p2p_page : node := page [fx_p2p_table].

(** The order of the sorted keys: no element is older than a later one. *)
Definition newer_first (a b : datetime * string) : Prop :=
  dt_le (fst b) (fst a).

(** A store of 24 months, a snapshot for a 25th and a run date. *)
Definition fx_months : list string :=
  ["Jan-24"; "Feb-24"; "Mar-24"; "Apr-24"; "May-24"; "Jun-24";
   "Jul-24"; "Aug-24"; "Sep-24"; "Oct-24"; "Nov-24"; "Dec-24";
   "Jan-25"; "Feb-25"; "Mar-25"; "Apr-25"; "May-25"; "Jun-25";
   "Jul-25"; "Aug-25"; "Sep-25"; "Oct-25"; "Nov-25"; "Dec-25"].

Definition fx_store : pydict :=
  map (fun m => (m, JDict [("month", JStr m); ("topApps", JList [])]))
    fx_months.

Definition fx_latest : json :=
  JDict [("topApps", JList []); ("month", JStr "Jan-26");
         ("totalVolume", JNum (FDec false 21500 0))].

Definition fx_now : datetime := mk_datetime 2026 2.

(** ** Predicates of the further properties *)

(** The period keys [ks], read as dates, stand newest first. *)
Definition newest_first (ks : list string) : Prop :=
  exists sd,
    ks = map snd sd
    /\ StronglySorted newer_first sd
    /\ forall p, In p sd -> strptime_b_y (snd p) = Ok (fst p).

(** The period [k] is not newer than the period [k']. *)
Definition not_newer (k k' : string) : Prop :=
  forall d d',
    strptime_b_y k = Ok d -> strptime_b_y k' = Ok d' -> dt_le d d'.

(** The snapshot is an object whose [month] is absent or a string that
    [strptime] accepts. *)
Definition snapshot_month_ok (latest_data : json) : bool :=
  match latest_data with
  | JDict d =>
      match dict_get d "month" with
      | None => true
      | Some (JStr m) => is_ok (strptime_b_y m)
      | Some _ => false
      end
  | _ => false
  end.

(** The records of the other three sequences, and an apps record whose
    name is free of the footnote mark. *)
Definition is_clean_app_record (r : json) : Prop :=
  exists name volume value,
    r = JDict [("name", JStr name); ("volume", JNum volume);
               ("value", JNum value)]
    /\ has_char "#" name = false.

Definition is_bank_record (r : json) : Prop :=
  exists name volume,
    r = JDict [("name", JStr name); ("volume", JNum volume)].

Definition is_merchant_record (r : json) : Prop :=
  exists category volume value,
    r = JDict [("category", JStr category); ("volume", JNum volume);
               ("value", value)]
    /\ (value = JInt 0 \/ exists x, value = JNum x).

Definition is_state_record (r : json) : Prop :=
  exists state volume value,
    r = JDict [("state", JStr state); ("volume", JNum volume);
               ("value", JNum value)].

(** ** scraper.py: the orchestration *)

(** [parse_tables(html)]: the page is parsed first; [parse_html] stands for
    [BeautifulSoup(html, 'html.parser')], and an exception there ends in the
    handler of [parse_tables] with the empty dictionary. *)
Definition parse_tables_html (parse_html : string -> exc node) (html : string)
  : pydict :=
  except_exception (soup <- parse_html html ;; Ok (parse_tables soup)) [].

(** A JSON file written by [save_data]. *)
Inductive file_effect : Type :=
| WriteJson (path : string) (data : pydict).

(** [save_data]: the directory, then [latest.json], then the timestamped
    copy; [io_ok path] tells whether the operation on [path] goes through,
    and the first one that does not ends in the handler, which only
    prints. *)
Definition save_data (io_ok : string -> bool) (timestamp : string)
  (data : pydict) : list file_effect :=
  if io_ok "docs/data" then
    if io_ok "docs/data/latest.json" then
      WriteJson "docs/data/latest.json" data
      :: (let path := ("docs/data/historical_" ++ timestamp ++ ".json")%string in
          if io_ok path then [WriteJson path data] else [])
    else []
  else [].

(** The parsed data with the two timestamps put in. *)
Definition stamped (parsed_data : pydict) (last_updated scraped_at : string)
  : pydict :=
  dict_set (dict_set parsed_data "lastUpdated" (JStr last_updated))
    "scrapedAt" (JStr scraped_at).

(** [scrape_all_data]: [fetched] is what [fetch_page] returned ([None] after
    an exception); the three strings are the three readings of the clock. *)
Definition scrape_all_data (fetched : option string)
  (parse_html : string -> exc node) (io_ok : string -> bool)
  (last_updated scraped_at timestamp : string) : list file_effect * bool :=
  match fetched with
  | None => ([], false)
  | Some EmptyString => ([], false)
  | Some html =>
      let parsed_data := parse_tables_html parse_html html in
      let parsed_data := stamped parsed_data last_updated scraped_at in
      (save_data io_ok timestamp parsed_data, true)
  end.

(** ** update_data.py: the old snapshot files *)

(** [historical_files.sort(reverse=True)]: [str] values compare by code
    point, a proper prefix before the longer string; the sort is stable. *)
Fixpoint insert_desc_str (x : string) (l : list string) : list string :=
  match l with
  | [] => [x]
  | y :: rest =>
      if String.ltb x y then y :: insert_desc_str x rest
      else x :: l
  end.

Fixpoint sort_desc_str (l : list string) : list string :=
  match l with
  | [] => []
  | x :: rest => insert_desc_str x (sort_desc_str rest)
  end.

(** [for old_file in ...: os.remove(old_file)]: the files removed.  The
    first [os.remove] that raises ends the loop in the handler of
    [cleanup_old_files]. *)
Fixpoint remove_files (can_remove : string -> bool) (files : list string)
  : list string :=
  match files with
  | [] => []
  | old_file :: rest =>
      if can_remove old_file then old_file :: remove_files can_remove rest
      else []
  end.

(** [cleanup_old_files], on what [glob.glob] returned. *)
Definition cleanup_old_files (historical_files : list string)
  (can_remove : string -> bool) : list string :=
  let historical_files := sort_desc_str historical_files in
  remove_files can_remove (skipn 10 historical_files).

(** The time of a run, to the second. *)
Record timestamp : Type := mk_timestamp {
  ts_year : nat; ts_month : nat; ts_day : nat;
  ts_hour : nat; ts_minute : nat; ts_second : nat
}.

Definition digits2 (n : nat) (rest : string) : string :=
  String (digit_char (n / 10)) (String (digit_char (n mod 10)) rest).

(** [t.strftime("%Y%m%d_%H%M%S")], for a year of four digits. *)
Definition strftime_stamp (t : timestamp) : string :=
  digits2 (ts_year t / 100) (digits2 (ts_year t mod 100)
    (digits2 (ts_month t) (digits2 (ts_day t)
      (String "_" (digits2 (ts_hour t) (digits2 (ts_minute t)
        (digits2 (ts_second t) ""))))))).

(** [f'docs/data/historical_{timestamp}.json'] *)
Definition historical_path (t : timestamp) : string :=
  ("docs/data/historical_" ++ (strftime_stamp t ++ ".json"))%string.

Definition ts_fields (t : timestamp) : list nat :=
  [ts_year t; ts_month t; ts_day t; ts_hour t; ts_minute t; ts_second t].

(** Earlier, same or later, field by field. *)
Fixpoint compare_fields (a b : list nat) : comparison :=
  match a, b with
  | x :: a', y :: b' =>
      match Nat.compare x y with
      | Eq => compare_fields a' b'
      | c => c
      end
  | _, _ => Eq
  end.

Definition ts_compare (a b : timestamp) : comparison :=
  compare_fields (ts_fields a) (ts_fields b).

(** The fields are in the range [strftime] writes with fixed width: a year
    from 1000 to 9999, two digits for the rest. *)
Definition ts_in_range (t : timestamp) : Prop :=
  10 <= ts_year t / 100 < 100 /\ ts_month t < 100 /\ ts_day t < 100
  /\ ts_hour t < 100 /\ ts_minute t < 100 /\ ts_second t < 100.

(** ** update_data.py: the historical store as a script *)

(** [s.find(c)]: the first index of the character, or -1. *)
Fixpoint py_find_from (c : ascii) (s : string) (i : Z) : Z :=
  match s with
  | EmptyString => (-1)%Z
  | String a s' => if Ascii.eqb a c then i else py_find_from c s' (i + 1)%Z
  end.

Definition py_find (c : ascii) (s : string) : Z := py_find_from c s 0%Z.

(** [s.rfind(c)]: the last index of the character, or -1. *)
Fixpoint py_rfind_from (c : ascii) (s : string) (i : Z) : Z :=
  match s with
  | EmptyString => (-1)%Z
  | String a s' =>
      let later := py_rfind_from c s' (i + 1)%Z in
      if (0 <=? later)%Z then later
      else if Ascii.eqb a c then i else (-1)%Z
  end.

Definition py_rfind (c : ascii) (s : string) : Z := py_rfind_from c s 0%Z.

(** An index of a slice, brought into [0 .. len]: a negative one counts
    from the end. *)
Definition slice_index (len i : Z) : Z :=
  let j := if (i <? 0)%Z then (i + len)%Z else i in
  if (j <? 0)%Z then 0%Z else if (len <? j)%Z then len else j.

(** [s[start:stop]] *)
Definition py_slice (s : string) (start stop : Z) : string :=
  let len := Z.of_nat (String.length s) in
  let a := slice_index len start in
  let b := slice_index len stop in
  substring (Z.to_nat a) (Z.to_nat (b - a)) s.

(** Lines 60-62 of [load_historical_data]: the text handed to
    [json.loads]. *)
Definition json_str_of (content : string) : string :=
  let start := py_find "{" content in
  let end_ := (py_rfind "}" content + 1)%Z in
  py_slice content start end_.

(** [load_historical_data]: [file] is the content of the file when it
    exists, [json_loads] stands for [json.loads]; every exception ends in
    the handler with the empty dictionary. *)
Definition load_historical_data (json_loads : string -> exc json)
  (file : option string) : json :=
  match file with
  | Some content =>
      except_exception (json_loads (json_str_of content)) (JDict [])
  | None => JDict []
  end.

Definition nl : string := String (ascii_of_nat 10) EmptyString.

(** What follows the dumped object in the script that
    [save_historical_data] writes. *)
Definition script_tail : string :=
  (";" ++ nl ++ nl
   ++ "// Export for use in main application" ++ nl
   ++ "if (typeof window !== 'undefined') {" ++ nl
   ++ "    window.historicalUPIData = historicalUPIData;" ++ nl
   ++ "}" ++ nl ++ nl
   ++ "if (typeof module !== 'undefined' && module.exports) {" ++ nl
   ++ "    module.exports = historicalUPIData;" ++ nl
   ++ "}")%string.

(** The [js_content] of [save_historical_data]: [now_iso] is
    [datetime.now().isoformat()], [dumped] is [json.dumps(data, indent=2)]. *)
Definition js_content (now_iso dumped : string) : string :=
  ("// Auto-generated historical UPI data" ++ nl
   ++ "// Last updated: " ++ now_iso ++ nl ++ nl
   ++ "const historicalUPIData = " ++ dumped ++ script_tail)%string.

(** ** The record a valid row gives, read off its cells *)

Definition apps_record_of (row : node) (r : json) : Prop :=
  exists c volume value,
    getitem (cell_texts row) 1 = Ok c
    /\ cell_float (cell_texts row) (-2) = Ok volume
    /\ cell_float (cell_texts row) (-1) = Ok value
    /\ r = JDict [("name", JStr (strip (replace "#" "" c)));
                  ("volume", JNum volume); ("value", JNum value)].

Definition remitter_record_of (row : node) (r : json) : Prop :=
  exists c volume,
    getitem (cell_texts row) 1 = Ok c
    /\ cell_float (cell_texts row) 2 = Ok volume
    /\ r = JDict [("name", JStr (strip c)); ("volume", JNum volume)].

Definition merchant_record_of (row : node) (r : json) : Prop :=
  exists c volume value,
    getitem (cell_texts row) 2 = Ok c
    /\ cell_float (cell_texts row) 3 = Ok volume
    /\ (if 4 <? List.length (cell_texts row)
        then exists x, cell_float (cell_texts row) 4 = Ok x /\ value = JNum x
        else value = JInt 0)
    /\ r = JDict [("category", JStr (strip c)); ("volume", JNum volume);
                  ("value", value)].

Definition state_record_of (row : node) (r : json) : Prop :=
  exists c volume value,
    getitem (cell_texts row) 1 = Ok c
    /\ cell_float (cell_texts row) 2 = Ok volume
    /\ cell_float (cell_texts row) 4 = Ok value
    /\ r = JDict [("state", JStr (strip c)); ("volume", JNum volume);
                  ("value", JNum value)].

Definition p2p_record_of (row : node) (d : pydict) : Prop :=
  exists c tv tw pv pw mv mw,
    getitem (cell_texts row) 0 = Ok c
    /\ cell_float (cell_texts row) 1 = Ok tv
    /\ cell_float (cell_texts row) 2 = Ok tw
    /\ cell_float (cell_texts row) 3 = Ok pv
    /\ cell_float (cell_texts row) 4 = Ok pw
    /\ cell_float (cell_texts row) 5 = Ok mv
    /\ cell_float (cell_texts row) 6 = Ok mw
    /\ d = [("month", JStr (strip c));
            ("totalVolume", JNum tv); ("totalValue", JNum tw);
            ("p2pVolume", JNum pv); ("p2pValue", JNum pw);
            ("p2mVolume", JNum mv); ("p2mValue", JNum mw)].

(** * Properties *)

(** ** Exceptions that can occur in a row body *)

Lemma getitem_in_range {A : Type} (l : list A) (i : nat) :
  i < List.length l -> exists x, getitem l (Z.of_nat i) = Ok x.
Proof.
  intros H. unfold getitem.
  destruct (Z.of_nat i <? 0)%Z eqn:E; [apply Z.ltb_lt in E; lia|].
  rewrite E. simpl.
  destruct (Z.of_nat (List.length l) <=? Z.of_nat i)%Z eqn:E2;
    [apply Z.leb_le in E2; lia|].
  rewrite Nat2Z.id.
  destruct (nth_error l i) eqn:E3; [eauto|].
  apply nth_error_None in E3. lia.
Qed.

Lemma getitem_past_end {A : Type} (l : list A) (i : nat) :
  List.length l <= i -> getitem l (Z.of_nat i) = Raise IndexError.
Proof.
  intros H. unfold getitem.
  destruct (Z.of_nat i <? 0)%Z eqn:E; [apply Z.ltb_lt in E; lia|].
  rewrite E. simpl.
  destruct (Z.of_nat (List.length l) <=? Z.of_nat i)%Z eqn:E2; [reflexivity|].
  apply Z.leb_gt in E2. lia.
Qed.

Lemma getitem_raises {A : Type} (l : list A) (i : Z) (e : exn) :
  getitem l i = Raise e -> e = IndexError.
Proof.
  unfold getitem.
  destruct (_ || _); [congruence|].
  destruct (nth_error _ _); congruence.
Qed.

Lemma py_float_raises (s : string) (e : exn) :
  py_float s = Raise e -> e = ValueError.
Proof.
  unfold py_float.
  destruct (if has_char "_" (float_strip s) then _ else _); [|congruence].
  destruct (parse_number _); congruence.
Qed.

Lemma cell_float_raises (cells : list string) (i : Z) (e : exn) :
  cell_float cells i = Raise e -> e = ValueError \/ e = IndexError.
Proof.
  unfold cell_float.
  destruct (getitem cells i) eqn:E; simpl.
  - intros H. left. eapply py_float_raises; eauto.
  - intros H. right. inversion H; subst. eapply getitem_raises; eauto.
Qed.

Lemma cell_float_past_end (cells : list string) (i : nat) :
  List.length cells <= i -> cell_float cells (Z.of_nat i) = Raise IndexError.
Proof.
  intros H. unfold cell_float. now rewrite getitem_past_end.
Qed.

Lemma except_value_index_cell {S : Type} (cells : list string) (i : Z)
  (k : pyfloat -> exc S) (s : S) (e : exn) :
  cell_float cells i = Raise e ->
  except_value_index (x <- cell_float cells i ;; k x) s = Ok s.
Proof.
  intros H. rewrite H. simpl.
  destruct (cell_float_raises _ _ _ H) as [-> | ->]; reflexivity.
Qed.

(** ** Loops *)

Section RowLoop.
Variable step : list json -> node -> exc (list json).
Hypothesis step_out :
  forall acc row, step acc row = Ok (acc ++ row_out step row).

Lemma for_each_rows (rows : list node) (acc : list json) :
  for_each step rows acc = Ok (acc ++ flat_map (row_out step) rows).
Proof.
  revert acc. induction rows as [|row rows IH]; intros acc; simpl.
  - now rewrite app_nil_r.
  - rewrite step_out. simpl. rewrite IH. now rewrite <- app_assoc.
Qed.

Variable valid : node -> bool.
Hypothesis valid_one :
  forall row, valid row = true -> exists r, row_out step row = [r].
Hypothesis invalid_none :
  forall row, valid row = false -> row_out step row = [].

Lemma step_valid (row : node) (r : json) :
  row_out step row = [r] -> step [] row = Ok [r].
Proof. intros H. rewrite step_out, H. reflexivity. Qed.

(** The records are those of the valid rows, one each, in row order. *)
Lemma rows_records (rows : list node) :
  Forall2 (fun row r => step [] row = Ok [r])
    (filter valid rows) (flat_map (row_out step) rows).
Proof.
  induction rows as [|row rows IH]; simpl; [constructor|].
  destruct (valid row) eqn:E.
  - destruct (valid_one _ E) as [r Hr]. rewrite Hr. simpl.
    constructor; [now apply step_valid | exact IH].
  - rewrite (invalid_none _ E). exact IH.
Qed.

Lemma rows_records_count (rows : list node) :
  List.length (flat_map (row_out step) rows)
  = List.length (filter valid rows).
Proof.
  symmetry. eapply Forall2_length. apply rows_records.
Qed.

Lemma filter_all_valid (rows : list node) :
  forallb valid rows = true -> filter valid rows = rows.
Proof.
  induction rows as [|row rows IH]; simpl; [reflexivity|].
  intros H. apply andb_true_iff in H as [H1 H2].
  rewrite H1. f_equal. now apply IH.
Qed.

Lemma filter_none_valid (rows : list node) :
  forallb (fun row => negb (valid row)) rows = true ->
  flat_map (row_out step) rows = [].
Proof.
  induction rows as [|row rows IH]; simpl; [reflexivity|].
  intros H. apply andb_true_iff in H as [H1 H2].
  apply negb_true_iff in H1. rewrite (invalid_none _ H1). now apply IH.
Qed.
End RowLoop.

(** ** One row of each extractor *)

Ltac cell_fails :=
  right; split;
  [ repeat match goal with
      | |- context [?a <=? ?b] => destruct (a <=? b)
      | |- context [?a <? ?b] => destruct (a <? b)
      end; reflexivity
  | intros; simpl;
    match goal with
    | E : cell_float _ _ = Raise _ |- _ =>
        destruct (cell_float_raises _ _ _ E) as [-> | ->]; reflexivity
    end ].

Ltac read_cell i :=
  destruct (cell_float _ i) as [?v | ?e] eqn:?E; [ | cell_fails ].

Lemma apps_row_cases (row : node) :
  (apps_valid row = true /\
   exists r, is_app_record r /\ forall acc, apps_row acc row = Ok (acc ++ [r]))
  \/ (apps_valid row = false /\ forall acc, apps_row acc row = Ok acc).
Proof.
  unfold apps_valid, apps_row. set (cells := cell_texts row).
  destruct (3 <=? List.length cells) eqn:E; [|right; split; reflexivity].
  apply Nat.leb_le in E.
  destruct (getitem_in_range cells 1 ltac:(lia)) as [c Hc].
  change (Z.of_nat 1) with 1%Z in Hc. rewrite Hc. simpl bind at 1.
  read_cell (-2)%Z. read_cell (-1)%Z.
  left. split; [reflexivity|].
  eexists. split; [|intros acc; reflexivity].
  unfold is_app_record. eauto.
Qed.

Lemma remitter_row_cases (row : node) :
  (remitter_valid row = true /\
   exists r, forall acc, remitter_row acc row = Ok (acc ++ [r]))
  \/ (remitter_valid row = false /\ forall acc, remitter_row acc row = Ok acc).
Proof.
  unfold remitter_valid, remitter_row. set (cells := cell_texts row).
  destruct (3 <=? List.length cells) eqn:E; [|right; split; reflexivity].
  apply Nat.leb_le in E.
  destruct (getitem_in_range cells 1 ltac:(lia)) as [c Hc].
  change (Z.of_nat 1) with 1%Z in Hc. rewrite Hc. simpl bind at 1.
  read_cell 2%Z.
  left. split; [reflexivity|].
  eexists. intros acc; reflexivity.
Qed.

Lemma merchant_row_cases (row : node) :
  (merchant_valid row = true /\
   exists r, forall acc, merchant_row acc row = Ok (acc ++ [r]))
  \/ (merchant_valid row = false /\ forall acc, merchant_row acc row = Ok acc).
Proof.
  unfold merchant_valid, merchant_row. set (cells := cell_texts row).
  destruct (4 <=? List.length cells) eqn:E; [|right; split; reflexivity].
  apply Nat.leb_le in E.
  destruct (getitem_in_range cells 2 ltac:(lia)) as [c Hc].
  change (Z.of_nat 2) with 2%Z in Hc. rewrite Hc. simpl bind at 1.
  read_cell 3%Z.
  destruct (4 <? List.length cells) eqn:E4.
  - read_cell 4%Z.
    left. split; [reflexivity|]. eexists. intros acc; reflexivity.
  - left. split; [reflexivity|]. eexists. intros acc; reflexivity.
Qed.

Lemma state_row_cases (row : node) :
  (state_valid row = true /\
   exists r, forall acc, state_row acc row = Ok (acc ++ [r]))
  \/ (state_valid row = false /\ forall acc, state_row acc row = Ok acc).
Proof.
  unfold state_valid, state_row. set (cells := cell_texts row).
  destruct (5 <=? List.length cells) eqn:E; [|right; split; reflexivity].
  apply Nat.leb_le in E.
  destruct (getitem_in_range cells 1 ltac:(lia)) as [c Hc].
  change (Z.of_nat 1) with 1%Z in Hc. rewrite Hc. simpl bind at 1.
  read_cell 2%Z. read_cell 4%Z.
  left. split; [reflexivity|].
  eexists. intros acc; reflexivity.
Qed.

(** From a case analysis of that form to the hypotheses of [RowLoop]. *)
Section RowCases.
Variable step : list json -> node -> exc (list json).
Variable valid : node -> bool.
Hypothesis cases :
  forall row,
    (valid row = true /\
     exists r, forall acc, step acc row = Ok (acc ++ [r]))
    \/ (valid row = false /\ forall acc, step acc row = Ok acc).

Lemma cases_step_out (acc : list json) (row : node) :
  step acc row = Ok (acc ++ row_out step row).
Proof.
  unfold row_out.
  destruct (cases row) as [[_ [r H]] | [_ H]]; rewrite !H; simpl.
  - reflexivity.
  - now rewrite app_nil_r.
Qed.

Lemma cases_valid_one (row : node) :
  valid row = true -> exists r, row_out step row = [r].
Proof.
  intros Hv. unfold row_out.
  destruct (cases row) as [[_ [r H]] | [Hf _]]; [|congruence].
  exists r. now rewrite H.
Qed.

Lemma cases_invalid_none (row : node) :
  valid row = false -> row_out step row = [].
Proof.
  intros Hv. unfold row_out.
  destruct (cases row) as [[Ht _] | [_ H]]; [congruence|].
  now rewrite H.
Qed.
End RowCases.

Lemma apps_row_cases' (row : node) :
  (apps_valid row = true /\
   exists r, forall acc, apps_row acc row = Ok (acc ++ [r]))
  \/ (apps_valid row = false /\ forall acc, apps_row acc row = Ok acc).
Proof.
  destruct (apps_row_cases row) as [[H [r [_ Hr]]] | H]; [left | right]; eauto.
Qed.

(** ** The monthly-totals row *)

Lemma p2p_row_cases (row : node) :
  (p2p_valid row = true /\
   exists d, is_monthly_record d /\ p2p_row row = Ok (Some d))
  \/ (p2p_valid row = false /\ p2p_row row = Ok None).
Proof.
  unfold p2p_valid, p2p_row, p2p_try. set (cells := cell_texts row).
  destruct (6 <=? List.length cells) eqn:E.
  2:{ right. split; [|reflexivity].
      apply Nat.leb_gt in E.
      destruct (7 <=? List.length cells) eqn:E7; [|reflexivity].
      apply Nat.leb_le in E7. lia. }
  apply Nat.leb_le in E.
  destruct (getitem_in_range cells 0 ltac:(lia)) as [c Hc].
  change (Z.of_nat 0) with 0%Z in Hc. rewrite Hc. simpl bind at 1.
  read_cell 1%Z. read_cell 2%Z. read_cell 3%Z. read_cell 4%Z.
  read_cell 5%Z. read_cell 6%Z.
  left. split.
  - destruct (7 <=? List.length cells) eqn:E7; [reflexivity|].
    apply Nat.leb_gt in E7.
    pose proof (cell_float_past_end cells 6 ltac:(lia)) as X.
    change (Z.of_nat 6) with 6%Z in X. congruence.
  - eexists. split; [|reflexivity]. unfold is_monthly_record.
    do 7 eexists. reflexivity.
Qed.

Lemma p2p_rows_first_valid (rows : list node) :
  p2p_rows rows = match find p2p_valid rows with
                  | Some row => p2p_row row
                  | None => Ok None
                  end.
Proof.
  induction rows as [|row rows IH]; simpl; [reflexivity|].
  destruct (p2p_row_cases row) as [[Hv [d [_ Hd]]] | [Hv Hd]];
    rewrite Hv, Hd; simpl; [reflexivity | exact IH].
Qed.

(** ** The table loops and the locator *)

Lemma apps_tables_locate (tables : list node) (acc : list json) :
  apps_tables tables acc
  = match table_locator apps_marker tables with
    | Some t => apps_table acc t
    | None => Ok acc
    end.
Proof.
  unfold table_locator.
  induction tables as [|t ts IH]; simpl; [reflexivity|].
  destruct (apps_marker t); [reflexivity | exact IH].
Qed.

Lemma remitter_tables_locate (tables : list node) (acc : list json) :
  remitter_tables tables acc
  = match table_locator remitter_marker tables with
    | Some t => remitter_table acc t
    | None => Ok acc
    end.
Proof.
  unfold table_locator.
  induction tables as [|t ts IH]; simpl; [reflexivity|].
  destruct (remitter_marker t); [reflexivity | exact IH].
Qed.

Lemma merchant_tables_locate (tables : list node) (acc : list json) :
  merchant_tables tables acc
  = match table_locator merchant_marker tables with
    | Some t => merchant_table acc t
    | None => Ok acc
    end.
Proof.
  unfold table_locator.
  induction tables as [|t ts IH]; simpl; [reflexivity|].
  destruct (merchant_marker t); [reflexivity | exact IH].
Qed.

Lemma state_tables_locate (tables : list node) (acc : list json) :
  state_tables tables acc
  = match table_locator state_marker tables with
    | Some t => state_table acc t
    | None => Ok acc
    end.
Proof.
  unfold table_locator.
  induction tables as [|t ts IH]; simpl; [reflexivity|].
  destruct (state_marker t); [reflexivity | exact IH].
Qed.

Lemma p2p_tables_locate (tables : list node) :
  p2p_tables tables
  = match table_locator p2p_marker tables with
    | Some t => p2p_table t
    | None => Ok None
    end.
Proof.
  unfold table_locator.
  induction tables as [|t ts IH]; simpl; [reflexivity|].
  destruct (p2p_marker t); [reflexivity | exact IH].
Qed.

(** Every extractor is the locator followed by the work on the table found. *)
Lemma locator_refines (ds : dataset) (soup : node) :
  extract_body ds soup
  = match table_locator (marker ds) (find_all "table" soup) with
    | Some t => extract_from_table ds t
    | None => Ok (failure_value ds)
    end.
Proof.
  destruct ds; simpl.
  - rewrite apps_tables_locate. now destruct (table_locator _ _).
  - rewrite remitter_tables_locate. now destruct (table_locator _ _).
  - rewrite merchant_tables_locate. now destruct (table_locator _ _).
  - rewrite state_tables_locate. now destruct (table_locator _ _).
  - rewrite p2p_tables_locate. now destruct (table_locator _ _).
Qed.

Lemma extract_is_body (ds : dataset) (soup : node) :
  extract ds soup = except_exception (extract_body ds soup) (failure_value ds).
Proof. destruct ds; reflexivity. Qed.

(** The per-table loops in closed form. *)
Lemma apps_table_out (acc : list json) (t : node) :
  apps_table acc t
  = Ok (acc ++ flat_map (row_out apps_row)
                 (firstn 10 (skipn 1 (find_all "tr" t)))).
Proof.
  unfold apps_table. apply for_each_rows.
  apply cases_step_out with (valid := apps_valid). apply apps_row_cases'.
Qed.

Lemma remitter_table_out (acc : list json) (t : node) :
  remitter_table acc t
  = Ok (acc ++ flat_map (row_out remitter_row)
                 (firstn 10 (skipn 1 (find_all "tr" t)))).
Proof.
  unfold remitter_table. apply for_each_rows.
  apply cases_step_out with (valid := remitter_valid).
  apply remitter_row_cases.
Qed.

Lemma merchant_table_out (acc : list json) (t : node) :
  merchant_table acc t
  = Ok (acc ++ flat_map (row_out merchant_row) (find_all "tr" t)).
Proof.
  unfold merchant_table. apply for_each_rows.
  apply cases_step_out with (valid := merchant_valid).
  apply merchant_row_cases.
Qed.

Lemma state_table_out (acc : list json) (t : node) :
  state_table acc t
  = Ok (acc ++ flat_map (row_out state_row)
                 (firstn 10 (skipn 1 (find_all "tr" t)))).
Proof.
  unfold state_table. apply for_each_rows.
  apply cases_step_out with (valid := state_valid). apply state_row_cases.
Qed.

Lemma p2p_table_never_raises (t : node) :
  exists r, p2p_table t = Ok r /\
            match r with Some d => is_monthly_record d | None => True end.
Proof.
  unfold p2p_table. rewrite p2p_rows_first_valid.
  destruct (find p2p_valid _) as [row|]; [|exists None; auto].
  destruct (p2p_row_cases row) as [[_ [d [Hd H]]] | [_ H]]; rewrite H.
  - exists (Some d). auto.
  - exists None. auto.
Qed.

Lemma extract_from_table_never_raises (ds : dataset) (t : node) :
  exists d, extract_from_table ds t = Ok d.
Proof.
  destruct ds; simpl.
  - rewrite apps_table_out. simpl. eauto.
  - rewrite remitter_table_out. simpl. eauto.
  - rewrite merchant_table_out. simpl. eauto.
  - rewrite state_table_out. simpl. eauto.
  - destruct (p2p_table_never_raises t) as [r [H _]]. rewrite H. simpl.
    destruct r; eauto.
Qed.

(** No exception reaches the outer handler of an extractor. *)
Lemma extract_body_never_raises (ds : dataset) (soup : node) :
  extract_body ds soup = Ok (extract ds soup).
Proof.
  rewrite extract_is_body, locator_refines.
  destruct (table_locator _ _) as [t|]; [|reflexivity].
  destruct (extract_from_table_never_raises ds t) as [d H].
  now rewrite H.
Qed.

(** ** What the extractors return, and the merged snapshot *)

Lemma locator_none (pred : node -> bool) (tables : list node) :
  (forall t, In t tables -> pred t = false) ->
  table_locator pred tables = None.
Proof.
  unfold table_locator.
  induction tables as [|t ts IH]; simpl; intros H; [reflexivity|].
  rewrite (H t) by now left. apply IH. intros t' Ht'. apply H. now right.
Qed.

Lemma locator_first (pred : node -> bool) (before after : list node)
  (t : node) :
  (forall a, In a before -> pred a = false) -> pred t = true ->
  table_locator pred (before ++ t :: after) = Some t.
Proof.
  unfold table_locator.
  induction before as [|a before IH]; simpl; intros H Ht.
  - now rewrite Ht.
  - rewrite (H a) by now left. apply IH; [|exact Ht].
    intros a' Ha'. apply H. now right.
Qed.

Lemma not_found_failure_value (ds : dataset) (soup : node) :
  (forall t, In t (find_all "table" soup) -> marker ds t = false) ->
  extract_body ds soup = Ok (failure_value ds)
  /\ extract ds soup = failure_value ds.
Proof.
  intros H. rewrite extract_is_body, locator_refines.
  rewrite (locator_none _ _ H). split; reflexivity.
Qed.

Lemma sequence_shape (soup : node) :
  (exists l, extract_apps_data soup = [("topApps", JList l)])
  /\ (exists l, extract_remitter_data soup = [("topBanks", JList l)])
  /\ (exists l, extract_merchant_data soup
                = [("merchantCategories", JList l)])
  /\ (exists l, extract_state_data soup = [("stateData", JList l)]).
Proof.
  unfold extract_apps_data, extract_remitter_data, extract_merchant_data,
    extract_state_data.
  repeat split.
  - destruct (apps_tables _ _); simpl; eauto.
  - destruct (remitter_tables _ _); simpl; eauto.
  - destruct (merchant_tables _ _); simpl; eauto.
  - destruct (state_tables _ _); simpl; eauto.
Qed.

Lemma monthly_shape (soup : node) :
  extract_p2p_p2m_data soup = []
  \/ is_monthly_record (extract_p2p_p2m_data soup).
Proof.
  unfold extract_p2p_p2m_data. rewrite p2p_tables_locate.
  destruct (table_locator _ _) as [t|]; [|left; reflexivity].
  destruct (p2p_table_never_raises t) as [r [H Hr]]. rewrite H.
  destruct r as [d|]; simpl; [right; exact Hr | left; reflexivity].
Qed.

(** The merged dictionary is the four sequence entries followed by whatever
    the monthly extractor returned. *)
Lemma parse_tables_layout (soup : node) :
  parse_tables soup
  = extract_apps_data soup ++ extract_remitter_data soup
    ++ extract_merchant_data soup ++ extract_state_data soup
    ++ extract_p2p_p2m_data soup.
Proof.
  unfold parse_tables, extract_beneficiary_data.
  destruct (sequence_shape soup) as [[a ->] [[b ->] [[m ->] [s ->]]]].
  destruct (monthly_shape soup) as [-> | [mo [tv [tw [pv [pw [mv [mw ->]]]]]]]];
    reflexivity.
Qed.

Lemma merged_value_is_own (soup : node) (ds : dataset) (k : string) :
  In k (dataset_keys ds) ->
  dict_get (parse_tables soup) k = dict_get (extract ds soup) k.
Proof.
  rewrite parse_tables_layout.
  destruct (sequence_shape soup) as [[a Ha] [[b Hb] [[m Hm] [s Hs]]]].
  rewrite Ha, Hb, Hm, Hs.
  intros Hk.
  destruct ds; simpl in Hk; simpl extract;
    rewrite ?Ha, ?Hb, ?Hm, ?Hs;
    repeat (destruct Hk as [<- | Hk]; [reflexivity|]); destruct Hk.
Qed.

(** ** The snapshot's keys *)

(** C1, as stated, fails: on the page with no table at all the merged
    output holds the four sequence keys and none of the monthly-totals
    fields. *)
Lemma snapshot_keys_counterexample :
  find_all "table" empty_page = []
  /\ parse_tables empty_page
     = [("topApps", JList []); ("topBanks", JList []);
        ("merchantCategories", JList []); ("stateData", JList [])]
  /\ map (has_key (parse_tables empty_page)) monthly_fields
     = [false; false; false; false; false; false; false].
Proof. repeat split. Qed.

(** C1, amended: for every parsed page the merged output of [parse_tables]
    holds the four sequence keys topApps, topBanks, merchantCategories and
    stateData, each with the list its own extractor returns (the empty list
    when that extractor finds no table); the seven monthly-totals fields are
    there all together when the monthly extractor returns a record and all
    absent when it returns the empty dictionary; every key of the output
    carries the value of the extractor that owns it, so no extractor's
    failure removes or changes a sibling's key. *)
Theorem snapshot_keys (soup : node) :
  (exists a b m s,
      extract_apps_data soup = [("topApps", JList a)]
      /\ extract_remitter_data soup = [("topBanks", JList b)]
      /\ extract_merchant_data soup = [("merchantCategories", JList m)]
      /\ extract_state_data soup = [("stateData", JList s)]
      /\ dict_get (parse_tables soup) "topApps" = Some (JList a)
      /\ dict_get (parse_tables soup) "topBanks" = Some (JList b)
      /\ dict_get (parse_tables soup) "merchantCategories" = Some (JList m)
      /\ dict_get (parse_tables soup) "stateData" = Some (JList s))
  /\ ((is_monthly_record (extract_p2p_p2m_data soup)
       /\ forall k, In k monthly_fields ->
                    has_key (parse_tables soup) k = true)
      \/ (extract_p2p_p2m_data soup = []
          /\ forall k, In k monthly_fields ->
                       has_key (parse_tables soup) k = false))
  /\ (forall ds k, In k (dataset_keys ds) ->
        dict_get (parse_tables soup) k = dict_get (extract ds soup) k)
  /\ (forall ds,
        (forall t, In t (find_all "table" soup) -> marker ds t = false) ->
        extract ds soup = failure_value ds).
Proof.
  split; [|split; [|split]].
  - destruct (sequence_shape soup) as [[a Ha] [[b Hb] [[m Hm] [s Hs]]]].
    exists a, b, m, s.
    rewrite (merged_value_is_own soup Apps "topApps") by (simpl; auto).
    rewrite (merged_value_is_own soup Banks "topBanks") by (simpl; auto).
    rewrite (merged_value_is_own soup Merchants "merchantCategories")
      by (simpl; auto).
    rewrite (merged_value_is_own soup States "stateData") by (simpl; auto).
    simpl extract. rewrite Ha, Hb, Hm, Hs. repeat split; reflexivity.
  - destruct (monthly_shape soup) as [H | H]; [right | left]; split; auto.
    + intros k Hk. unfold has_key.
      rewrite (merged_value_is_own soup Monthly k Hk). simpl. now rewrite H.
    + intros k Hk. unfold has_key.
      rewrite (merged_value_is_own soup Monthly k Hk). simpl extract.
      destruct H as [mo [tv [tw [pv [pw [mv [mw ->]]]]]]].
      simpl in Hk.
      repeat (destruct Hk as [<- | Hk]; [reflexivity|]). destruct Hk.
  - intros ds k Hk. now apply merged_value_is_own.
  - intros ds H. now apply not_found_failure_value.
Qed.

(** ** Missing tables *)

(** C6: when the identifying predicate of an extractor matches no table of
    the page, the extractor returns its empty result (the empty list under
    its key; the empty dictionary for the monthly totals) and no exception
    reaches its handler; in the merged output every key of every other
    extractor carries what that extractor returns on the same page. *)
Theorem missing_table_empty_result (ds : dataset) (soup : node) :
  (forall t, In t (find_all "table" soup) -> marker ds t = false) ->
  extract_body ds soup = Ok (failure_value ds)
  /\ extract ds soup = failure_value ds
  /\ (forall ds' k, ds' <> ds -> In k (dataset_keys ds') ->
        extract_body ds' soup = Ok (extract ds' soup)
        /\ dict_get (parse_tables soup) k = dict_get (extract ds' soup) k).
Proof.
  intros H.
  destruct (not_found_failure_value ds soup H) as [H1 H2].
  repeat split; auto.
  - apply extract_body_never_raises.
  - now apply merged_value_is_own.
Qed.

Lemma missing_table_witness :
  (forall t, In t (find_all "table" (page [fx_state_table])) ->
             marker Apps t = false)
  /\ extract Apps (page [fx_state_table]) = [("topApps", JList [])]
  /\ dict_get (parse_tables (page [fx_state_table])) "stateData"
     = dict_get (extract States (page [fx_state_table])) "stateData".
Proof.
  assert (H : forall t, In t (find_all "table" (page [fx_state_table])) ->
                        marker Apps t = false).
  { intros t [<- | []]. reflexivity. }
  split; [exact H|].
  destruct (missing_table_empty_result Apps (page [fx_state_table]) H)
    as [_ [H2 H3]].
  split; [exact H2|].
  apply (H3 States "stateData"); [discriminate | simpl; auto].
Defined.

(** ** The table locator *)

(** C8: on a page whose tables are, in document order, [A] (no match), [B]
    (match) and [C] (match) for the predicate of a dataset, the locator
    selects [B] and the extractor returns what it computes from [B] alone,
    whatever stands in the place of [C]; when no table matches, the locator
    finds nothing and the extractor returns its empty result. *)
Theorem locator_first_match_wins (ds : dataset) (soup A B C : node) :
  find_all "table" soup = [A; B; C] ->
  marker ds A = false -> marker ds B = true -> marker ds C = true ->
  table_locator (marker ds) (find_all "table" soup) = Some B
  /\ extract_body ds soup = extract_from_table ds B
  /\ (forall soup' C', find_all "table" soup' = [A; B; C'] ->
        extract ds soup' = extract ds soup)
  /\ (forall soup0,
        (forall t, In t (find_all "table" soup0) -> marker ds t = false) ->
        table_locator (marker ds) (find_all "table" soup0) = None
        /\ extract ds soup0 = failure_value ds).
Proof.
  intros Ht HA HB HC.
  assert (L : forall X, table_locator (marker ds) [A; B; X] = Some B).
  { intros X. apply (locator_first (marker ds) [A] [X] B); [|exact HB].
    intros a [<- | []]. exact HA. }
  split; [rewrite Ht; apply L|].
  split; [rewrite locator_refines, Ht, L; reflexivity|].
  split.
  - intros soup' C' Ht'.
    rewrite !extract_is_body, !locator_refines, Ht, Ht', !L. reflexivity.
  - intros soup0 H0. split.
    + now apply locator_none.
    + now apply not_found_failure_value.
Qed.

Lemma locator_first_match_witness :
  find_all "table" fx_abc_page
  = [fx_state_table; fx_apps_table_b; fx_apps_table_c]
  /\ marker Apps fx_state_table = false
  /\ marker Apps fx_apps_table_b = true
  /\ marker Apps fx_apps_table_c = true
  /\ table_locator (marker Apps) (find_all "table" fx_abc_page)
     = Some fx_apps_table_b
  /\ extract_body Apps fx_abc_page = extract_from_table Apps fx_apps_table_b.
Proof.
  do 4 (split; [reflexivity|]).
  destruct (locator_first_match_wins Apps fx_abc_page fx_state_table
              fx_apps_table_b fx_apps_table_c
              eq_refl eq_refl eq_refl eq_refl) as [H1 [H2 _]].
  split; [exact H1 | exact H2].
Defined.

(** ** Row loops of the sequence extractors *)

Lemma Forall2_firstn {A B : Type} (R : A -> B -> Prop) (n : nat)
  (l : list A) (l' : list B) :
  Forall2 R l l' -> Forall2 R (firstn n l) (firstn n l').
Proof.
  intros H. revert n. induction H; intros [|n]; simpl; constructor; auto.
Qed.

Lemma forallb_firstn {A : Type} (f : A -> bool) (n : nat) (l : list A) :
  forallb f l = true -> forallb f (firstn n l) = true.
Proof.
  revert n. induction l as [|x l IH]; intros [|n]; simpl; auto.
  intros H. apply andb_true_iff in H as [H1 H2].
  rewrite H1. simpl. now apply IH.
Qed.

Lemma firstn_middle {A : Type} (n : nat) (before after : list A) (x : A) :
  List.length before < n ->
  firstn n (before ++ x :: after)
  = before ++ x :: firstn (n - 1 - List.length before) after.
Proof.
  intros H. rewrite firstn_app.
  rewrite firstn_all2 by lia. f_equal.
  destruct (n - List.length before) as [|m] eqn:E; [lia|].
  simpl. f_equal. f_equal. lia.
Qed.

Section RowCasesLoop.
Variable step : list json -> node -> exc (list json).
Variable valid : node -> bool.
Hypothesis cases :
  forall row,
    (valid row = true /\
     exists r, forall acc, step acc row = Ok (acc ++ [r]))
    \/ (valid row = false /\ forall acc, step acc row = Ok acc).

Let out := flat_map (row_out step).

Lemma loop_out (rows : list node) (acc : list json) :
  for_each step rows acc = Ok (acc ++ out rows).
Proof. apply for_each_rows. apply (cases_step_out step valid cases). Qed.

Lemma loop_records (rows : list node) :
  Forall2 (fun row r => step [] row = Ok [r]) (filter valid rows) (out rows).
Proof.
  apply rows_records.
  - apply (cases_step_out step valid cases).
  - apply (cases_valid_one step valid cases).
  - apply (cases_invalid_none step valid cases).
Qed.

Lemma loop_all_valid (rows : list node) :
  forallb valid rows = true ->
  Forall2 (fun row r => step [] row = Ok [r]) rows (out rows).
Proof.
  intros H. pose proof (loop_records rows) as L.
  now rewrite (filter_all_valid valid rows H) in L.
Qed.

Lemma loop_none_valid (rows : list node) :
  forallb (fun row => negb (valid row)) rows = true -> out rows = [].
Proof.
  apply filter_none_valid. apply (cases_invalid_none step valid cases).
Qed.

Lemma loop_skips (before after : list node) (bad : node) :
  valid bad = false ->
  out (before ++ bad :: after) = out before ++ out after.
Proof.
  intros H. unfold out. rewrite flat_map_app. simpl.
  now rewrite (cases_invalid_none step valid cases bad H).
Qed.

(** A row that yields nothing takes its place among the first ten rows and
leaves the records of the rows around it as they are. *)
Lemma loop_limit_skips (before after : list node) (bad : node) :
  valid bad = false ->
  out (firstn 10 (before ++ bad :: after))
  = out (firstn 10 before) ++ out (firstn (9 - List.length before) after).
Proof.
  intros V.
  destruct (Nat.lt_ge_cases (List.length before) 10) as [Hlt | Hge].
  - rewrite firstn_middle by exact Hlt.
    rewrite (loop_skips _ _ bad V).
    rewrite (firstn_all2 before) by lia.
    replace (10 - 1 - List.length before) with (9 - List.length before)
      by lia.
    reflexivity.
  - rewrite firstn_app.
    replace (10 - List.length before) with 0 by lia.
    replace (9 - List.length before) with 0 by lia.
    simpl. unfold out. simpl. now rewrite !app_nil_r.
Qed.

Lemma loop_invalid_unchanged (bad : node) (acc : list json) :
  valid bad = false -> step acc bad = Ok acc.
Proof.
  intros V. destruct (cases bad) as [[H _] | [_ H]]; [congruence | apply H].
Qed.

(** Ten records, one per row and in row order, from the first ten of at
    least ten valid rows. *)
Lemma loop_top10 (data : list node) :
  10 <= List.length data -> forallb valid data = true ->
  List.length (out (firstn 10 data)) = 10
  /\ Forall2 (fun row r => step [] row = Ok [r])
       (firstn 10 data) (out (firstn 10 data)).
Proof.
  intros Hl Hv.
  pose proof (loop_all_valid (firstn 10 data) (forallb_firstn _ 10 _ Hv)) as L.
  split; [|exact L].
  rewrite <- (Forall2_length L). now apply firstn_length_le.
Qed.

(** The same when the limit is applied to the collected records. *)
Lemma loop_then_top10 (headers data : list node) :
  forallb (fun row => negb (valid row)) headers = true ->
  10 <= List.length data -> forallb valid data = true ->
  List.length (firstn 10 (out (headers ++ data))) = 10
  /\ Forall2 (fun row r => step [] row = Ok [r])
       (firstn 10 data) (firstn 10 (out (headers ++ data))).
Proof.
  intros Hh Hl Hv.
  assert (E : out (headers ++ data) = out data).
  { unfold out. rewrite flat_map_app.
    fold out. now rewrite (loop_none_valid headers Hh). }
  rewrite E.
  pose proof (loop_all_valid data Hv) as L.
  split; [|now apply Forall2_firstn].
  apply firstn_length_le. now rewrite <- (Forall2_length L).
Qed.
End RowCasesLoop.

(** The extractors once the locator has found their table. *)
Lemma extract_apps_located (soup table : node) :
  table_locator apps_marker (find_all "table" soup) = Some table ->
  extract_apps_data soup
  = [("topApps",
      JList (flat_map (row_out apps_row)
               (firstn 10 (skipn 1 (find_all "tr" table)))))].
Proof.
  intros H. unfold extract_apps_data.
  now rewrite apps_tables_locate, H, apps_table_out.
Qed.

Lemma extract_remitter_located (soup table : node) :
  table_locator remitter_marker (find_all "table" soup) = Some table ->
  extract_remitter_data soup
  = [("topBanks",
      JList (flat_map (row_out remitter_row)
               (firstn 10 (skipn 1 (find_all "tr" table)))))].
Proof.
  intros H. unfold extract_remitter_data.
  now rewrite remitter_tables_locate, H, remitter_table_out.
Qed.

Lemma extract_merchant_located (soup table : node) :
  table_locator merchant_marker (find_all "table" soup) = Some table ->
  extract_merchant_data soup
  = [("merchantCategories",
      JList (firstn 10 (flat_map (row_out merchant_row)
                          (find_all "tr" table))))].
Proof.
  intros H. unfold extract_merchant_data.
  now rewrite merchant_tables_locate, H, merchant_table_out.
Qed.

Lemma extract_state_located (soup table : node) :
  table_locator state_marker (find_all "table" soup) = Some table ->
  extract_state_data soup
  = [("stateData",
      JList (flat_map (row_out state_row)
               (firstn 10 (skipn 1 (find_all "tr" table)))))].
Proof.
  intros H. unfold extract_state_data.
  now rewrite state_tables_locate, H, state_table_out.
Qed.

Lemma apps_rows_are_records (rows : list node) :
  Forall is_app_record (flat_map (row_out apps_row) rows).
Proof.
  apply Forall_flat_map. apply Forall_forall. intros row _.
  unfold row_out.
  destruct (apps_row_cases row) as [[_ [r [Hr H]]] | [_ H]]; rewrite H; simpl.
  - constructor; [exact Hr | constructor].
  - constructor.
Qed.

(** ** The apps fixture: one table, 12 rows, 2 of the 11 data rows malformed *)

(** C2, as stated, fails: on a page with one 'Application Name' table of 12
    rows, two of whose 11 data rows are malformed, [extract_apps_data]
    returns 8 records, not 10. *)
Lemma apps_fixture_counterexample :
  find_all "table" fx_apps_page = [fx_apps_fixture]
  /\ apps_marker fx_apps_fixture = true
  /\ List.length (find_all "tr" fx_apps_fixture) = 12
  /\ List.length (filter (fun row => negb (apps_valid row))
                    (skipn 1 (find_all "tr" fx_apps_fixture))) = 2
  /\ List.length (records_of (extract_apps_data fx_apps_page) "topApps") = 8
  /\ List.length (records_of (extract_apps_data fx_apps_page) "topApps")
     <> 10.
Proof.
  repeat split; try reflexivity. vm_compute. discriminate.
Qed.

(** C2, amended: on a page whose only table has 'Application Name' among
    its headers and 12 rows (one header row, then 11 data rows of which 2
    are malformed), [extract_apps_data] returns the well-formed
    [{name, volume, value}] records of the first 10 data rows only, one per
    row and in row order: 9 records when the 11th data row is one of the two
    malformed rows, 8 otherwise; never 10. *)
Theorem apps_fixture_records (soup table hdr last : node)
  (first10 : list node) :
  find_all "table" soup = [table] ->
  apps_marker table = true ->
  find_all "tr" table = hdr :: first10 ++ [last] ->
  List.length first10 = 10 ->
  List.length (filter (fun row => negb (apps_valid row)) (first10 ++ [last]))
  = 2 ->
  exists recs,
    extract_apps_data soup = [("topApps", JList recs)]
    /\ Forall2 (fun row r => apps_row [] row = Ok [r])
         (filter apps_valid first10) recs
    /\ Forall is_app_record recs
    /\ List.length recs = (if apps_valid last then 8 else 9)
    /\ List.length recs <> 10.
Proof.
  intros Ht Hm Hr Hl Hbad.
  assert (L : table_locator apps_marker (find_all "table" soup) = Some table).
  { rewrite Ht. unfold table_locator. simpl. now rewrite Hm. }
  rewrite (extract_apps_located soup table L), Hr.
  simpl skipn.
  rewrite firstn_app, Hl, Nat.sub_diag, firstn_all2 by lia.
  simpl firstn. rewrite app_nil_r.
  eexists. split; [reflexivity|].
  pose proof (loop_records apps_row apps_valid apps_row_cases' first10) as R.
  split; [exact R|]. split; [apply apps_rows_are_records|].
  apply Forall2_length in R.
  pose proof (filter_length apps_valid first10) as P.
  rewrite filter_app, length_app in Hbad. simpl in Hbad.
  destruct (apps_valid last); simpl in Hbad; lia.
Qed.

Lemma apps_fixture_records_witness :
  find_all "table" fx_apps_page = [fx_apps_fixture]
  /\ apps_marker fx_apps_fixture = true
  /\ exists recs,
       extract_apps_data fx_apps_page = [("topApps", JList recs)]
       /\ List.length recs = 8.
Proof.
  split; [reflexivity|]. split; [reflexivity|].
  destruct (apps_fixture_records fx_apps_page fx_apps_fixture apps_header
              (tr_of "td" ["11"; "Slice"; "20"; "2,000"])
              (map (tr_of "td") (firstn 10 fx_apps_rows))
              eq_refl eq_refl eq_refl eq_refl eq_refl)
    as [recs [H1 [_ [_ [H2 _]]]]].
  exists recs. split; [exact H1 | exact H2].
Defined.

(** ** The record of a valid row *)

Ltac ok_cells :=
  repeat match goal with
    | H : is_ok (cell_float ?cs ?i) = true |- _ =>
        let E := fresh "E" in
        destruct (cell_float cs i) eqn:E; [clear H | discriminate H]
    end.

Lemma apps_row_record (row : node) :
  apps_valid row = true ->
  exists r, apps_record_of row r
            /\ forall acc, apps_row acc row = Ok (acc ++ [r]).
Proof.
  intros V. unfold apps_valid in V. unfold apps_record_of, apps_row.
  set (cells := cell_texts row) in *.
  repeat (apply andb_true_iff in V as [V ?]).
  rewrite V. apply Nat.leb_le in V.
  destruct (getitem_in_range cells 1 ltac:(lia)) as [c Hc].
  change (Z.of_nat 1) with 1%Z in Hc. rewrite Hc. simpl bind at 1.
  ok_cells.
  eexists. split; [|intros acc; reflexivity].
  do 3 eexists. repeat split; reflexivity.
Qed.

Lemma remitter_row_record (row : node) :
  remitter_valid row = true ->
  exists r, remitter_record_of row r
            /\ forall acc, remitter_row acc row = Ok (acc ++ [r]).
Proof.
  intros V. unfold remitter_valid in V.
  unfold remitter_record_of, remitter_row.
  set (cells := cell_texts row) in *.
  repeat (apply andb_true_iff in V as [V ?]).
  rewrite V. apply Nat.leb_le in V.
  destruct (getitem_in_range cells 1 ltac:(lia)) as [c Hc].
  change (Z.of_nat 1) with 1%Z in Hc. rewrite Hc. simpl bind at 1.
  ok_cells.
  eexists. split; [|intros acc; reflexivity].
  do 2 eexists. repeat split; reflexivity.
Qed.

Lemma merchant_row_record (row : node) :
  merchant_valid row = true ->
  exists r, merchant_record_of row r
            /\ forall acc, merchant_row acc row = Ok (acc ++ [r]).
Proof.
  intros V. unfold merchant_valid in V.
  unfold merchant_record_of, merchant_row.
  set (cells := cell_texts row) in *.
  repeat (apply andb_true_iff in V as [V ?]).
  rewrite V. apply Nat.leb_le in V.
  destruct (getitem_in_range cells 2 ltac:(lia)) as [c Hc].
  change (Z.of_nat 2) with 2%Z in Hc. rewrite Hc. simpl bind at 1.
  destruct (4 <? List.length cells) eqn:E4; ok_cells.
  - eexists. split; [|intros acc; reflexivity].
    do 3 eexists. repeat split; try reflexivity. eauto.
  - eexists. split; [|intros acc; reflexivity].
    do 3 eexists. repeat split; reflexivity.
Qed.

Lemma state_row_record (row : node) :
  state_valid row = true ->
  exists r, state_record_of row r
            /\ forall acc, state_row acc row = Ok (acc ++ [r]).
Proof.
  intros V. unfold state_valid in V. unfold state_record_of, state_row.
  set (cells := cell_texts row) in *.
  repeat (apply andb_true_iff in V as [V ?]).
  rewrite V. apply Nat.leb_le in V.
  destruct (getitem_in_range cells 1 ltac:(lia)) as [c Hc].
  change (Z.of_nat 1) with 1%Z in Hc. rewrite Hc. simpl bind at 1.
  ok_cells.
  eexists. split; [|intros acc; reflexivity].
  do 3 eexists. repeat split; reflexivity.
Qed.

Lemma p2p_row_record (row : node) :
  p2p_valid row = true ->
  exists d, p2p_record_of row d /\ p2p_row row = Ok (Some d).
Proof.
  intros V. unfold p2p_valid in V. unfold p2p_record_of, p2p_row, p2p_try.
  set (cells := cell_texts row) in *.
  repeat (apply andb_true_iff in V as [V ?]).
  apply Nat.leb_le in V.
  destruct (6 <=? List.length cells) eqn:E;
    [|apply Nat.leb_gt in E; lia].
  destruct (getitem_in_range cells 0 ltac:(lia)) as [c Hc].
  change (Z.of_nat 0) with 0%Z in Hc. rewrite Hc. simpl bind at 1.
  ok_cells.
  eexists. split; [|reflexivity].
  do 7 eexists. repeat split; reflexivity.
Qed.

Section RowRecords.
Variable step : list json -> node -> exc (list json).
Variable valid : node -> bool.
Variable record_of : node -> json -> Prop.
Hypothesis cases :
  forall row,
    (valid row = true /\
     exists r, forall acc, step acc row = Ok (acc ++ [r]))
    \/ (valid row = false /\ forall acc, step acc row = Ok acc).
Hypothesis record :
  forall row, valid row = true ->
    exists r, record_of row r /\ forall acc, step acc row = Ok (acc ++ [r]).

(** The loop gives, in row order, the record of every valid row and nothing
for the others. *)
Lemma loop_relates (rows : list node) :
  Forall2 record_of (filter valid rows) (flat_map (row_out step) rows).
Proof.
  induction rows as [|row rows IH]; simpl; [constructor|].
  destruct (valid row) eqn:E.
  - destruct (record row E) as [r [Hr Hs]].
    unfold row_out at 1. rewrite (Hs []). simpl.
    constructor; [exact Hr | exact IH].
  - rewrite (cases_invalid_none step valid cases row E). exact IH.
Qed.
End RowRecords.

(** ** Rows that do not coerce *)

(** C7: in a located table, a data row whose required numeric cell does not
    coerce leaves the accumulated list exactly as it was (no record, not
    even a partial one), and the rows before and after it are extracted as
    they are on their own: the result is the records of the valid rows
    before it followed by those of the valid rows after it, one record per
    valid row and in row order, each built from the cells of its row, within
    the extractor's limit.  The required numeric cells are [cells[-2]] and
    [cells[-1]] for the apps, [cells[2]] for the remitter banks, [cells[3]]
    (and [cells[4]] when there are more than four cells) for the merchant
    categories, [cells[2]] and [cells[4]] for the states; the monthly
    extractor passes over such a row and returns the record of the first
    valid row after it. *)
Theorem bad_row_dropped :
  (forall soup table hdr bad before after,
      table_locator apps_marker (find_all "table" soup) = Some table ->
      find_all "tr" table = hdr :: before ++ bad :: after ->
      cell_float (cell_texts bad) (-2) = Raise ValueError
      \/ cell_float (cell_texts bad) (-1) = Raise ValueError ->
      (forall acc, apps_row acc bad = Ok acc)
      /\ exists recs_before recs_after,
           extract_apps_data soup
           = [("topApps", JList (recs_before ++ recs_after))]
           /\ Forall2 apps_record_of
                (filter apps_valid (firstn 10 before)) recs_before
           /\ Forall2 apps_record_of
                (filter apps_valid (firstn (9 - List.length before) after))
                recs_after)
  /\ (forall soup table hdr bad before after,
      table_locator remitter_marker (find_all "table" soup) = Some table ->
      find_all "tr" table = hdr :: before ++ bad :: after ->
      cell_float (cell_texts bad) 2 = Raise ValueError ->
      (forall acc, remitter_row acc bad = Ok acc)
      /\ exists recs_before recs_after,
           extract_remitter_data soup
           = [("topBanks", JList (recs_before ++ recs_after))]
           /\ Forall2 remitter_record_of
                (filter remitter_valid (firstn 10 before)) recs_before
           /\ Forall2 remitter_record_of
                (filter remitter_valid
                   (firstn (9 - List.length before) after))
                recs_after)
  /\ (forall soup table hdr bad before after,
      table_locator state_marker (find_all "table" soup) = Some table ->
      find_all "tr" table = hdr :: before ++ bad :: after ->
      cell_float (cell_texts bad) 2 = Raise ValueError
      \/ cell_float (cell_texts bad) 4 = Raise ValueError ->
      (forall acc, state_row acc bad = Ok acc)
      /\ exists recs_before recs_after,
           extract_state_data soup
           = [("stateData", JList (recs_before ++ recs_after))]
           /\ Forall2 state_record_of
                (filter state_valid (firstn 10 before)) recs_before
           /\ Forall2 state_record_of
                (filter state_valid (firstn (9 - List.length before) after))
                recs_after)
  /\ (forall soup table bad before after,
      table_locator merchant_marker (find_all "table" soup) = Some table ->
      find_all "tr" table = before ++ bad :: after ->
      cell_float (cell_texts bad) 3 = Raise ValueError
      \/ (4 < List.length (cell_texts bad)
          /\ cell_float (cell_texts bad) 4 = Raise ValueError) ->
      (forall acc, merchant_row acc bad = Ok acc)
      /\ exists recs_before recs_after,
           extract_merchant_data soup
           = [("merchantCategories",
               JList (firstn 10 (recs_before ++ recs_after)))]
           /\ Forall2 merchant_record_of
                (filter merchant_valid before) recs_before
           /\ Forall2 merchant_record_of
                (filter merchant_valid after) recs_after)
  /\ (forall soup table bad before after i,
      table_locator p2p_marker (find_all "table" soup) = Some table ->
      find_all "tr" table = before ++ bad :: after ->
      forallb (fun row => negb (p2p_valid row)) before = true ->
      In i [1; 2; 3; 4; 5; 6]%Z ->
      cell_float (cell_texts bad) i = Raise ValueError ->
      p2p_row bad = Ok None
      /\ match find p2p_valid after with
         | Some row => p2p_record_of row (extract_p2p_p2m_data soup)
         | None => extract_p2p_p2m_data soup = []
         end).
Proof.
  split; [|split; [|split; [|split]]].
  - intros soup table hdr bad before after L Hr Hbad.
    assert (V : apps_valid bad = false).
    { unfold apps_valid.
      destruct Hbad as [-> | ->]; simpl; rewrite ?andb_false_r; reflexivity. }
    split.
    + intros acc.
      now apply (loop_invalid_unchanged apps_row apps_valid apps_row_cases').
    + rewrite (extract_apps_located soup table L), Hr. simpl skipn.
      rewrite (loop_limit_skips apps_row apps_valid apps_row_cases') by exact V.
      do 2 eexists. split; [reflexivity|].
      split; apply (loop_relates apps_row apps_valid apps_record_of
                      apps_row_cases' apps_row_record).
  - intros soup table hdr bad before after L Hr Hbad.
    assert (V : remitter_valid bad = false).
    { unfold remitter_valid. rewrite Hbad. simpl.
      rewrite ?andb_false_r; reflexivity. }
    split.
    + intros acc.
      now apply (loop_invalid_unchanged remitter_row remitter_valid
                   remitter_row_cases).
    + rewrite (extract_remitter_located soup table L), Hr. simpl skipn.
      rewrite (loop_limit_skips remitter_row remitter_valid
                 remitter_row_cases) by exact V.
      do 2 eexists. split; [reflexivity|].
      split; apply (loop_relates remitter_row remitter_valid
                      remitter_record_of remitter_row_cases
                      remitter_row_record).
  - intros soup table hdr bad before after L Hr Hbad.
    assert (V : state_valid bad = false).
    { unfold state_valid.
      destruct Hbad as [-> | ->]; simpl; rewrite ?andb_false_r; reflexivity. }
    split.
    + intros acc.
      now apply (loop_invalid_unchanged state_row state_valid state_row_cases).
    + rewrite (extract_state_located soup table L), Hr. simpl skipn.
      rewrite (loop_limit_skips state_row state_valid state_row_cases)
        by exact V.
      do 2 eexists. split; [reflexivity|].
      split; apply (loop_relates state_row state_valid state_record_of
                      state_row_cases state_row_record).
  - intros soup table bad before after L Hr Hbad.
    assert (V : merchant_valid bad = false).
    { unfold merchant_valid. destruct Hbad as [-> | [Hlen ->]].
      - simpl. rewrite andb_false_r. reflexivity.
      - apply Nat.ltb_lt in Hlen. rewrite Hlen. simpl.
        now rewrite andb_false_r. }
    split.
    + intros acc.
      now apply (loop_invalid_unchanged merchant_row merchant_valid
                   merchant_row_cases).
    + rewrite (extract_merchant_located soup table L), Hr.
      rewrite (loop_skips merchant_row merchant_valid merchant_row_cases)
        by exact V.
      do 2 eexists. split; [reflexivity|].
      split; apply (loop_relates merchant_row merchant_valid
                      merchant_record_of merchant_row_cases
                      merchant_row_record).
  - intros soup table bad before after i L Hr Hb Hi Hbad.
    assert (V : p2p_valid bad = false).
    { unfold p2p_valid. simpl in Hi.
      destruct (7 <=? List.length (cell_texts bad)); [|reflexivity].
      repeat (destruct Hi as [<- | Hi];
              [rewrite Hbad; simpl; rewrite ?andb_false_r; reflexivity|]).
      destruct Hi. }
    assert (R : p2p_row bad = Ok None).
    { destruct (p2p_row_cases bad) as [[H _] | [_ H]];
        [congruence | exact H]. }
    split; [exact R|].
    assert (F : find p2p_valid (before ++ bad :: after)
                = find p2p_valid after).
    { clear Hr. induction before as [|x before IH]; simpl in *.
      - now rewrite V.
      - apply andb_true_iff in Hb as [Hx Hb].
        apply negb_true_iff in Hx. rewrite Hx. now apply IH. }
    unfold extract_p2p_p2m_data.
    rewrite p2p_tables_locate, L. unfold p2p_table.
    rewrite p2p_rows_first_valid, Hr, F.
    destruct (find p2p_valid after) as [row|] eqn:Fa; [|reflexivity].
    apply find_some in Fa as [_ Vr].
    destruct (p2p_row_record row Vr) as [d [Hd Hrow]].
    rewrite Hrow. simpl. exact Hd.
Qed.

Lemma bad_row_dropped_witness :
  cell_float (cell_texts (tr_of "td" ["3"; "Paytm"; "N/A"; "100,000"])) (-2)
  = Raise ValueError
  /\ List.length (records_of (extract_apps_data fx_apps_page) "topApps") = 8.
Proof.
  split; [reflexivity|].
  destruct (proj1 bad_row_dropped fx_apps_page fx_apps_fixture apps_header
              (tr_of "td" ["3"; "Paytm"; "N/A"; "100,000"])
              (map (tr_of "td") (firstn 2 fx_apps_rows))
              (map (tr_of "td") (skipn 3 fx_apps_rows))
              eq_refl eq_refl (or_introl eq_refl))
    as [_ [recs_before [recs_after [H [Fb Fa]]]]].
  assert (E : records_of (extract_apps_data fx_apps_page) "topApps"
              = recs_before ++ recs_after) by (rewrite H; reflexivity).
  rewrite E, length_app.
  rewrite <- (Forall2_length Fb), <- (Forall2_length Fa). reflexivity.
Defined.

(** ** Top ten *)

(** C9: when the located table holds 15 valid data rows after its header,
    the extractor returns exactly 10 records, the i-th of them built from the
    i-th data row.  For the apps, remitter and state extractors the header
    is the one row their loop skips and the limit cuts the rows; the merchant
    extractor skips nothing, header rows drop out because they yield no
    record, and the limit cuts the collected records. *)
Theorem row_extractor_top10 :
  (forall soup table hdr data,
      table_locator apps_marker (find_all "table" soup) = Some table ->
      find_all "tr" table = hdr :: data ->
      List.length data = 15 -> forallb apps_valid data = true ->
      exists recs,
        extract_apps_data soup = [("topApps", JList recs)]
        /\ List.length recs = 10
        /\ Forall2 (fun row r => apps_row [] row = Ok [r])
             (firstn 10 data) recs)
  /\ (forall soup table hdr data,
      table_locator remitter_marker (find_all "table" soup) = Some table ->
      find_all "tr" table = hdr :: data ->
      List.length data = 15 -> forallb remitter_valid data = true ->
      exists recs,
        extract_remitter_data soup = [("topBanks", JList recs)]
        /\ List.length recs = 10
        /\ Forall2 (fun row r => remitter_row [] row = Ok [r])
             (firstn 10 data) recs)
  /\ (forall soup table hdr data,
      table_locator state_marker (find_all "table" soup) = Some table ->
      find_all "tr" table = hdr :: data ->
      List.length data = 15 -> forallb state_valid data = true ->
      exists recs,
        extract_state_data soup = [("stateData", JList recs)]
        /\ List.length recs = 10
        /\ Forall2 (fun row r => state_row [] row = Ok [r])
             (firstn 10 data) recs)
  /\ (forall soup table headers data,
      table_locator merchant_marker (find_all "table" soup) = Some table ->
      find_all "tr" table = headers ++ data ->
      forallb (fun row => negb (merchant_valid row)) headers = true ->
      List.length data = 15 -> forallb merchant_valid data = true ->
      exists recs,
        extract_merchant_data soup = [("merchantCategories", JList recs)]
        /\ List.length recs = 10
        /\ Forall2 (fun row r => merchant_row [] row = Ok [r])
             (firstn 10 data) recs).
Proof.
  repeat split.
  - intros soup table hdr data L Hr Hl Hv.
    rewrite (extract_apps_located soup table L), Hr. simpl skipn.
    eexists. split; [reflexivity|].
    apply (loop_top10 apps_row apps_valid apps_row_cases'); [lia | exact Hv].
  - intros soup table hdr data L Hr Hl Hv.
    rewrite (extract_remitter_located soup table L), Hr. simpl skipn.
    eexists. split; [reflexivity|].
    apply (loop_top10 remitter_row remitter_valid remitter_row_cases);
      [lia | exact Hv].
  - intros soup table hdr data L Hr Hl Hv.
    rewrite (extract_state_located soup table L), Hr. simpl skipn.
    eexists. split; [reflexivity|].
    apply (loop_top10 state_row state_valid state_row_cases);
      [lia | exact Hv].
  - intros soup table headers data L Hr Hh Hl Hv.
    rewrite (extract_merchant_located soup table L), Hr.
    eexists. split; [reflexivity|].
    apply (loop_then_top10 merchant_row merchant_valid merchant_row_cases);
      [exact Hh | lia | exact Hv].
Qed.

Lemma row_extractor_top10_witness :
  List.length fx_fifteen_rows = 15
  /\ forallb apps_valid fx_fifteen_rows = true
  /\ exists recs,
       extract_apps_data (page [fx_state_table; fx_fifteen_table])
       = [("topApps", JList recs)]
       /\ List.length recs = 10.
Proof.
  split; [reflexivity|]. split; [reflexivity|].
  destruct (proj1 row_extractor_top10
              (page [fx_state_table; fx_fifteen_table]) fx_fifteen_table
              apps_header fx_fifteen_rows eq_refl eq_refl eq_refl eq_refl)
    as [recs [H1 [H2 _]]].
  exists recs. split; [exact H1 | exact H2].
Defined.

(** ** The monthly totals *)

(** C3, as stated, fails: the first row with at least 7 cells is the row of
    column titles, which does not coerce and is skipped; the record returned
    is built from a later row. *)
Lemma monthly_first_row_counterexample :
  exists r1 r2 r3,
    find_all "tr" fx_p2p_table = [r1; r2; r3]
    /\ 7 <= List.length (cell_texts r1)
    /\ p2p_row r1 = Ok None
    /\ p2p_row r3 = Ok (Some (extract_p2p_p2m_data fx_p2p_page))
    /\ dict_get (extract_p2p_p2m_data fx_p2p_page) "month"
       = Some (JStr "Feb-24").
Proof.
  do 3 eexists. split; [reflexivity|].
  split; [vm_compute; lia|]. repeat split.
Qed.

(** C3, amended: the monthly-totals extractor admits a row with at least 6
    cells and then reads [cells[6]].  A row with exactly 6 cells never gives
    a record: the read of the 7th cell raises [IndexError] when cells 1 to 5
    coerce (a cell among them that does not coerce raises [ValueError]
    before that); the exception is caught, the row is skipped and the loop
    goes on.  Any record returned is built from the first row of the located
    table that has at least 7 cells and whose cells 1 to 6 all coerce; it is
    a single record with the seven monthly fields, not a sequence, and the
    empty dictionary when there is no such row. *)
Theorem monthly_totals_first_valid_row :
  (forall row,
      List.length (cell_texts row) = 6 ->
      (exists e, p2p_try (cell_texts row) = Raise e
                 /\ (e = IndexError \/ e = ValueError))
      /\ (forallb (fun i => is_ok (cell_float (cell_texts row) i))
            [1; 2; 3; 4; 5]%Z = true ->
          p2p_try (cell_texts row) = Raise IndexError)
      /\ p2p_row row = Ok None
      /\ forall rest, p2p_rows (row :: rest) = p2p_rows rest)
  /\ (forall soup table,
      table_locator p2p_marker (find_all "table" soup) = Some table ->
      match find p2p_valid (find_all "tr" table) with
      | Some row =>
          7 <= List.length (cell_texts row)
          /\ is_monthly_record (extract_p2p_p2m_data soup)
          /\ p2p_row row = Ok (Some (extract_p2p_p2m_data soup))
      | None => extract_p2p_p2m_data soup = []
      end)
  /\ (forall soup,
      extract_p2p_p2m_data soup = []
      \/ is_monthly_record (extract_p2p_p2m_data soup)).
Proof.
  split; [|split].
  - intros row Hlen.
    assert (V : p2p_valid row = false).
    { unfold p2p_valid. rewrite Hlen. reflexivity. }
    assert (R : p2p_row row = Ok None).
    { destruct (p2p_row_cases row) as [[H _] | [_ H]]; [congruence | exact H]. }
    assert (I : forallb (fun i => is_ok (cell_float (cell_texts row) i))
                  [1; 2; 3; 4; 5]%Z = true ->
                p2p_try (cell_texts row) = Raise IndexError).
    { intros H. simpl in H. unfold p2p_try.
      destruct (getitem_in_range (cell_texts row) 0 ltac:(lia)) as [c Hc].
      change (Z.of_nat 0) with 0%Z in Hc. rewrite Hc. simpl bind at 1.
      pose proof (cell_float_past_end (cell_texts row) 6 ltac:(lia)) as X.
      change (Z.of_nat 6) with 6%Z in X. rewrite X.
      destruct (cell_float _ 1); [|discriminate].
      destruct (cell_float _ 2); [|discriminate].
      destruct (cell_float _ 3); [|discriminate].
      destruct (cell_float _ 4); [|discriminate].
      destruct (cell_float _ 5); [|discriminate].
      reflexivity. }
    split; [|split; [exact I|split; [exact R|]]].
    + unfold p2p_try.
      destruct (getitem_in_range (cell_texts row) 0 ltac:(lia)) as [c Hc].
      change (Z.of_nat 0) with 0%Z in Hc. rewrite Hc. simpl bind at 1.
      pose proof (cell_float_past_end (cell_texts row) 6 ltac:(lia)) as X.
      change (Z.of_nat 6) with 6%Z in X. rewrite X.
      repeat match goal with
        | |- context [cell_float ?cs ?i] =>
            destruct (cell_float cs i) as [?v | ?e] eqn:?E;
            [ | exists e; split; [reflexivity|];
                match goal with
                | E' : _ = Raise e |- _ =>
                    destruct (cell_float_raises _ _ _ E') as [-> | ->]; auto
                end ]
        end.
      exists IndexError. split; [reflexivity | auto].
    + intros rest. simpl. now rewrite R.
  - intros soup table L.
    unfold extract_p2p_p2m_data.
    rewrite p2p_tables_locate, L. unfold p2p_table.
    rewrite p2p_rows_first_valid.
    destruct (find p2p_valid (find_all "tr" table)) as [row|] eqn:F;
      [|reflexivity].
    apply find_some in F as [_ V].
    destruct (p2p_row_cases row) as [[_ [d [Hd H]]] | [H _]]; [|congruence].
    rewrite H. simpl. repeat split; auto.
    unfold p2p_valid in V.
    destruct (7 <=? List.length (cell_texts row)) eqn:E; [|discriminate].
    now apply Nat.leb_le in E.
  - apply monthly_shape.
Qed.

(** ** Dictionaries *)

Lemma dict_get_in_keys (d : pydict) (k : string) :
  In k (keys d) -> exists v, dict_get d k = Some v.
Proof.
  induction d as [|[k' v'] d IH]; simpl; [intros []|].
  intros [-> | H].
  - rewrite String.eqb_refl. eauto.
  - destruct (String.eqb k k'); eauto.
Qed.

Lemma dict_get_In (d : pydict) (k : string) (v : json) :
  dict_get d k = Some v -> In (k, v) d.
Proof.
  induction d as [|[k' v'] d IH]; simpl; [discriminate|].
  destruct (String.eqb k k') eqn:E.
  - apply String.eqb_eq in E. subst. intros H. inversion H. now left.
  - intros H. right. now apply IH.
Qed.

Lemma In_dict_get (d : pydict) (k : string) (v : json) :
  NoDup (keys d) -> In (k, v) d -> dict_get d k = Some v.
Proof.
  induction d as [|[k' v'] d IH]; simpl; [intros _ []|].
  intros N [H | H].
  - inversion H; subst. now rewrite String.eqb_refl.
  - inversion N; subst.
    destruct (String.eqb k k') eqn:E.
    + apply String.eqb_eq in E. subst. exfalso. apply H2.
      unfold keys. change k' with (fst (k', v)). now apply in_map.
    + now apply IH.
Qed.

Lemma dict_set_new (d : pydict) (k : string) (v : json) :
  ~ In k (keys d) -> dict_set d k v = d ++ [(k, v)].
Proof.
  induction d as [|[k' v'] d IH]; simpl; [reflexivity|].
  intros H. destruct (String.eqb k k') eqn:E.
  - apply String.eqb_eq in E. subst. exfalso. apply H. now left.
  - f_equal. apply IH. intros H'. apply H. now right.
Qed.

Lemma dict_set_keys_incl (d : pydict) (k k' : string) (v : json) :
  In k (keys d) -> In k (keys (dict_set d k' v)).
Proof.
  induction d as [|[k0 v0] d IH]; simpl; [intros []|].
  destruct (String.eqb k' k0) eqn:E; simpl; intros [H | H]; auto.
Qed.

Lemma dict_set_has_key (d : pydict) (k : string) (v : json) :
  In k (keys (dict_set d k v)).
Proof.
  induction d as [|[k0 v0] d IH]; simpl; [now left|].
  destruct (String.eqb k k0) eqn:E; simpl.
  - apply String.eqb_eq in E. now left.
  - now right.
Qed.

Lemma dict_set_keys (d : pydict) (k k' : string) (v : json) :
  In k (keys (dict_set d k' v)) -> k = k' \/ In k (keys d).
Proof.
  induction d as [|[k0 v0] d IH]; simpl.
  - intros [H | []]. now left.
  - destruct (String.eqb k' k0) eqn:E; simpl.
    + intros [H | H]; auto.
    + intros [H | H]; auto. destruct (IH H); auto.
Qed.

(** [d[k] = v] changes what is stored under [k] and nothing else. *)
Lemma dict_get_set (d : pydict) (k k' : string) (v : json) :
  dict_get (dict_set d k v) k'
  = if String.eqb k' k then Some v else dict_get d k'.
Proof.
  induction d as [|[k0 v0] d IH]; simpl.
  - destruct (String.eqb k' k); reflexivity.
  - destruct (String.eqb k k0) eqn:E; simpl.
    + apply String.eqb_eq in E. subst k0.
      destruct (String.eqb k' k); reflexivity.
    + destruct (String.eqb k' k0) eqn:E0.
      * apply String.eqb_eq in E0. subst k0.
        rewrite String.eqb_sym, E. reflexivity.
      * exact IH.
Qed.

(** ** The monad helpers *)

Lemma mapM_all_ok {A B : Type} (f : A -> exc B) (xs : list A) :
  (forall x, In x xs -> exists y, f x = Ok y) ->
  exists ys, mapM f xs = Ok ys /\ Forall2 (fun x y => f x = Ok y) xs ys.
Proof.
  induction xs as [|x xs IH]; simpl; intros H.
  - exists []. split; [reflexivity | constructor].
  - destruct (H x (or_introl eq_refl)) as [y Hy].
    destruct IH as [ys [E F]]; [intros x' Hx'; apply H; now right|].
    rewrite Hy, E. simpl. exists (y :: ys). split; [reflexivity|].
    now constructor.
Qed.

Lemma mapM_one_raises {A B : Type} (f : A -> exc B) (xs : list A) (x : A) :
  In x xs -> is_ok (f x) = false -> is_ok (mapM f xs) = false.
Proof.
  induction xs as [|x' xs IH]; simpl; [intros []|].
  intros [-> | H] Hx.
  - destruct (f x); [discriminate | reflexivity].
  - destruct (f x'); [|reflexivity]. simpl.
    specialize (IH H Hx). destruct (mapM f xs); [discriminate | reflexivity].
Qed.

(** ** Dates *)

Lemma dt_ltb_irrefl (a : datetime) : dt_ltb a a = false.
Proof.
  unfold dt_ltb. rewrite Z.ltb_irrefl, Nat.ltb_irrefl, andb_false_r.
  reflexivity.
Qed.

Ltac dt_order :=
  unfold dt_le, dt_ltb in *;
  repeat match goal with
    | H : (_ || _) = true |- _ => apply orb_true_iff in H
    | H : (_ || _) = false |- _ => apply orb_false_iff in H
    | H : (_ && _) = true |- _ => apply andb_true_iff in H
    | H : (_ && _) = false |- _ => apply andb_false_iff in H
    | H : _ /\ _ |- _ => destruct H
    | H : _ \/ _ |- _ => destruct H
    | H : (_ <? _)%Z = true |- _ => apply Z.ltb_lt in H
    | H : (_ <? _)%Z = false |- _ => apply Z.ltb_ge in H
    | H : (_ =? _)%Z = true |- _ => apply Z.eqb_eq in H
    | H : (_ =? _)%Z = false |- _ => apply Z.eqb_neq in H
    | H : (_ <? _) = true |- _ => apply Nat.ltb_lt in H
    | H : (_ <? _) = false |- _ => apply Nat.ltb_ge in H
    end.

Lemma dt_ltb_asym (a b : datetime) : dt_ltb a b = true -> dt_ltb b a = false.
Proof.
  intros H. destruct (dt_ltb b a) eqn:E; [|reflexivity].
  exfalso. dt_order; lia.
Qed.

Lemma dt_le_trans (a b c : datetime) : dt_le a b -> dt_le b c -> dt_le a c.
Proof.
  intros H1 H2. unfold dt_le. destruct (dt_ltb c a) eqn:E; [|reflexivity].
  exfalso. dt_order; lia.
Qed.

(** ** The sort *)

Lemma insert_desc_perm (x : datetime * string) (l : list (datetime * string)) :
  Permutation (insert_desc x l) (x :: l).
Proof.
  induction l as [|y l IH]; simpl; [reflexivity|].
  destruct (dt_ltb (fst x) (fst y)); [|reflexivity].
  rewrite IH. apply perm_swap.
Qed.

Lemma sort_desc_perm (l : list (datetime * string)) :
  Permutation (sort_desc l) l.
Proof.
  induction l as [|x l IH]; simpl; [reflexivity|].
  rewrite insert_desc_perm. now constructor.
Qed.

Lemma insert_desc_sorted (x : datetime * string)
  (l : list (datetime * string)) :
  StronglySorted newer_first l -> StronglySorted newer_first (insert_desc x l).
Proof.
  induction 1 as [|y l S IH F]; simpl.
  - repeat constructor.
  - destruct (dt_ltb (fst x) (fst y)) eqn:E.
    + constructor; [exact IH|].
      apply Forall_forall. intros z Hz.
      apply (Permutation_in _ (insert_desc_perm x l)) in Hz.
      destruct Hz as [<- | Hz].
      * unfold newer_first, dt_le. now apply dt_ltb_asym.
      * rewrite Forall_forall in F. now apply F.
    + constructor; [now constructor|].
      constructor; [exact E|].
      apply Forall_forall. intros z Hz.
      rewrite Forall_forall in F. specialize (F z Hz).
      unfold newer_first in *.
      apply dt_le_trans with (b := fst y); [exact F | exact E].
Qed.

Lemma sort_desc_sorted (l : list (datetime * string)) :
  StronglySorted newer_first (sort_desc l).
Proof.
  induction l as [|x l IH]; simpl; [constructor|].
  now apply insert_desc_sorted.
Qed.

Lemma sorted_last_is_oldest (l : list (datetime * string))
  (x : datetime * string) :
  StronglySorted newer_first (l ++ [x]) ->
  forall y, In y (l ++ [x]) -> dt_le (fst x) (fst y).
Proof.
  induction l as [|z l IH]; simpl; intros S y Hy.
  - destruct Hy as [<- | []]. apply dt_ltb_irrefl.
  - inversion S as [|? ? S' F]; subst.
    destruct Hy as [<- | Hy].
    + rewrite Forall_forall in F. apply (F x).
      apply in_or_app. right. now left.
    + now apply IH.
Qed.

Lemma split_last {A : Type} (n : nat) (l : list A) :
  List.length l = S n -> exists x, l = firstn n l ++ [x].
Proof.
  intros H. pose proof (firstn_skipn n l) as E.
  pose proof (length_skipn n l) as L. rewrite H in L.
  replace (S n - n) with 1 in L by lia.
  destruct (skipn n l) as [|x [|? ?]]; try discriminate.
  exists x. now symmetry.
Qed.

Lemma with_date_inv (k : string) (p : datetime * string) :
  with_date k = Ok p -> snd p = k /\ strptime_b_y k = Ok (fst p).
Proof.
  unfold with_date. destruct (strptime_b_y k); simpl; [|discriminate].
  intros H. inversion H. auto.
Qed.

Lemma dated_keys (ks : list string) (dated : list (datetime * string)) :
  Forall2 (fun k p => with_date k = Ok p) ks dated ->
  map snd dated = ks
  /\ Forall (fun p => strptime_b_y (snd p) = Ok (fst p)) dated.
Proof.
  induction 1 as [|k p ks dated H F [IH1 IH2]]; simpl.
  - split; constructor.
  - apply with_date_inv in H as [H1 H2]. split.
    + now rewrite H1, IH1.
    + constructor; [now rewrite H1 | exact IH2].
Qed.

(** ** Rebuilding the store from the kept keys *)

Lemma keep_recent_unfold (store : pydict) :
  keep_recent store
  = (sorted_months <- sorted_months_of (keys store) ;;
     for_each (rebuild_step store) (firstn 24 sorted_months) []).
Proof. reflexivity. Qed.

Lemma rebuild_total (store : pydict) (ks : list string) (acc : pydict) :
  (forall k, In k ks -> In k (keys store)) ->
  exists recent, for_each (rebuild_step store) ks acc = Ok recent.
Proof.
  revert acc. induction ks as [|k ks IH]; simpl; intros acc H; [eauto|].
  unfold rebuild_step at 1, dict_getitem.
  destruct (dict_get_in_keys store k (H k (or_introl eq_refl))) as [v ->].
  simpl. apply IH. intros k' Hk'. apply H. now right.
Qed.

Lemma rebuild_distinct (store : pydict) (ks : list string) (acc : pydict) :
  NoDup ks ->
  (forall k, In k ks -> In k (keys store)) ->
  (forall k, In k ks -> ~ In k (keys acc)) ->
  exists res,
    for_each (rebuild_step store) ks acc = Ok (acc ++ res)
    /\ keys res = ks
    /\ Forall (fun kv => dict_get store (fst kv) = Some (snd kv)) res.
Proof.
  revert acc. induction ks as [|k ks IH]; simpl; intros acc N H D.
  - exists []. rewrite app_nil_r. repeat split; constructor.
  - inversion N as [|? ? Nk N']; subst.
    unfold rebuild_step at 1, dict_getitem.
    destruct (dict_get_in_keys store k (H k (or_introl eq_refl))) as [v Hv].
    rewrite Hv. simpl.
    rewrite dict_set_new by (apply D; now left).
    destruct (IH (acc ++ [(k, v)]) N') as [res [E [K F]]].
    + intros k' Hk'. apply H. now right.
    + intros k' Hk' Hin. unfold keys in Hin.
      rewrite map_app in Hin. apply in_app_or in Hin as [Hin | Hin].
      * apply (D k'); [now right | exact Hin].
      * simpl in Hin. destruct Hin as [<- | []]. contradiction.
    + exists ((k, v) :: res). rewrite E, <- app_assoc. simpl.
      repeat split; [now rewrite K | now constructor].
Qed.

(** ** Pruning *)

Lemma sorted_months_ok (ks : list string) :
  (forall k, In k ks -> is_ok (strptime_b_y k) = true) ->
  exists sd,
    sorted_months_of ks = Ok (map snd sd)
    /\ Permutation (map snd sd) ks
    /\ StronglySorted newer_first sd
    /\ (forall p, In p sd -> strptime_b_y (snd p) = Ok (fst p)).
Proof.
  intros H.
  destruct (mapM_all_ok with_date ks) as [dated [E F]].
  { intros k Hk. specialize (H k Hk). unfold with_date.
    destruct (strptime_b_y k); [simpl; eauto | discriminate]. }
  destruct (dated_keys _ _ F) as [K P].
  exists (sort_desc dated). unfold sorted_months_of. rewrite E. simpl.
  split; [reflexivity|]. split; [|split].
  - rewrite <- K. apply Permutation_map. apply sort_desc_perm.
  - apply sort_desc_sorted.
  - intros p Hp. rewrite Forall_forall in P. apply P.
    now apply (Permutation_in _ (sort_desc_perm dated)).
Qed.

(** Without any assumption on duplicates: the pruning goes through as soon
    as every key parses. *)
Lemma keep_recent_succeeds (store : pydict) :
  (forall k, In k (keys store) -> is_ok (strptime_b_y k) = true) ->
  exists recent, keep_recent store = Ok recent.
Proof.
  intros H. rewrite keep_recent_unfold.
  destruct (sorted_months_ok _ H) as [sd [E [P _]]].
  rewrite E. simpl. apply rebuild_total.
  intros k Hk. apply (Permutation_in _ P).
  rewrite <- (firstn_skipn 24 (map snd sd)). apply in_or_app. now left.
Qed.

Lemma keep_recent_fails (store : pydict) (k : string) :
  In k (keys store) -> is_ok (strptime_b_y k) = false ->
  is_ok (keep_recent store) = false.
Proof.
  intros Hk Hp. rewrite keep_recent_unfold. unfold sorted_months_of.
  assert (M : is_ok (mapM with_date (keys store)) = false).
  { apply (mapM_one_raises with_date _ k Hk). unfold with_date.
    destruct (strptime_b_y k); [discriminate | reflexivity]. }
  destruct (mapM with_date (keys store)); [discriminate | reflexivity].
Qed.

(** A store of 25 distinct, parseable keys loses exactly one entry, one of
    oldest date. *)
Lemma keep_recent_25 (store : pydict) :
  NoDup (keys store) -> List.length store = 25 ->
  (forall k, In k (keys store) -> is_ok (strptime_b_y k) = true) ->
  exists recent dropped,
    keep_recent store = Ok recent
    /\ List.length recent = 24
    /\ NoDup (keys recent)
    /\ In dropped (keys store)
    /\ (forall k dk dd,
          In k (keys store) -> strptime_b_y k = Ok dk ->
          strptime_b_y dropped = Ok dd -> dt_le dd dk)
    /\ (forall k v, In (k, v) recent <-> In (k, v) store /\ k <> dropped).
Proof.
  intros N L H.
  destruct (sorted_months_ok _ H) as [sd [E [P [S D]]]].
  assert (Lsd : List.length sd = 25).
  { rewrite <- (length_map snd sd), (Permutation_length P).
    unfold keys. now rewrite length_map. }
  destruct (split_last 24 sd Lsd) as [lastp Hsplit].
  set (kept := map snd (firstn 24 sd)).
  assert (K : map snd sd = kept ++ [snd lastp]).
  { unfold kept. rewrite Hsplit at 1. now rewrite map_app. }
  assert (N' : NoDup (kept ++ [snd lastp])).
  { rewrite <- K. apply (Permutation_NoDup (Permutation_sym P) N). }
  assert (Nk : NoDup kept) by (eapply NoDup_app_remove_r; eauto).
  assert (Nd : ~ In (snd lastp) kept).
  { intros Hin. apply NoDup_remove_2 in N'. apply N'.
    rewrite app_nil_r. exact Hin. }
  assert (Kin : forall k, In k kept -> In k (keys store)).
  { intros k Hk. apply (Permutation_in _ P). rewrite K.
    apply in_or_app. now left. }
  destruct (rebuild_distinct store kept [] Nk Kin) as [res [R [Kr F]]];
    [intros k _ []|].
  simpl in R.
  assert (KR : keep_recent store = Ok res).
  { rewrite keep_recent_unfold, E. cbn [bind].
    rewrite firstn_map. exact R. }
  exists res, (snd lastp).
  split; [exact KR|]. split; [|split; [|split; [|split]]].
  - rewrite <- (length_map fst res). fold (keys res). rewrite Kr.
    unfold kept. rewrite length_map. apply firstn_length_le. lia.
  - now rewrite Kr.
  - apply (Permutation_in _ P). rewrite K. apply in_or_app. right. now left.
  - intros k dk dd Hk Hdk Hdd.
    apply (Permutation_in _ (Permutation_sym P)) in Hk.
    apply in_map_iff in Hk as [p [Hp Hin]].
    assert (Hl : In lastp sd).
    { rewrite Hsplit. apply in_or_app. right. now left. }
    pose proof (D p Hin) as Dp. pose proof (D lastp Hl) as Dl.
    rewrite Hp, Hdk in Dp. rewrite Hdd in Dl.
    inversion Dp; inversion Dl; subst dk dd.
    rewrite Hsplit in S, Hin.
    now apply (sorted_last_is_oldest _ _ S).
  - intros k v. split.
    + intros Hin. rewrite Forall_forall in F.
      pose proof (F _ Hin) as G. simpl in G. split.
      * now apply dict_get_In.
      * intros ->. apply Nd. rewrite <- Kr.
        unfold keys. change (snd lastp) with (fst (snd lastp, v)).
        now apply in_map.
    + intros [Hin Hne].
      assert (Hk : In k kept).
      { assert (Hk : In k (keys store)).
        { unfold keys. change k with (fst (k, v)). now apply in_map. }
        apply (Permutation_in _ (Permutation_sym P)) in Hk.
        rewrite K in Hk. apply in_app_or in Hk as [Hk | [Hk | []]];
          [exact Hk | congruence]. }
      rewrite <- Kr in Hk. unfold keys in Hk.
      apply in_map_iff in Hk as [[k' v'] [Hfst Hin']]. simpl in Hfst. subst k'.
      rewrite Forall_forall in F. pose proof (F _ Hin') as G. simpl in G.
      rewrite (In_dict_get store k v N Hin) in G. inversion G. now subst.
Qed.

(** ** The fallback key *)

Lemma is_digit_digit_char (n : nat) : n < 10 -> is_digit (digit_char n) = true.
Proof.
  intros H. do 10 (destruct n as [|n]; [reflexivity|]). lia.
Qed.

(** What [strftime] writes, [strptime] reads. *)
Lemma strftime_parses (now : datetime) :
  1 <= dt_month now <= 12 ->
  is_ok (strptime_b_y (strftime_b_y now)) = true.
Proof.
  destruct now as [y m]. simpl. intros [H1 H2].
  unfold strftime_b_y. simpl dt_month. simpl dt_year.
  set (n := Z.to_nat (y mod 100)).
  assert (Hn : n < 100).
  { unfold n. pose proof (Z.mod_pos_bound y 100 ltac:(lia)). lia. }
  assert (D1 : is_digit (digit_char (n / 10)) = true).
  { apply is_digit_digit_char. apply Nat.Div0.div_lt_upper_bound. lia. }
  assert (D2 : is_digit (digit_char (n mod 10)) = true).
  { apply is_digit_digit_char. apply Nat.mod_upper_bound. lia. }
  do 13 (destruct m as [|m];
         [ try lia; unfold strptime_b_y;
           cbn -[digit_char is_digit Nat.div Nat.modulo code];
           rewrite D1, D2; reflexivity | ]).
  lia.
Qed.

(** ** The history merge *)

(** C4: a store of 24 entries with distinct, parseable period keys, merged
    with a snapshot whose period key is a 25th distinct parseable one, is
    saved with exactly 24 entries.  The new entry is first put at the end of
    the store; then one key of oldest date among the 25 is dropped, and what
    is saved is exactly the other 24 entries with their values. *)
Theorem merge_25th_period (latest_data : json) (historical_data : pydict)
  (now : datetime) (month : string) :
  current_month_of latest_data now = Ok month ->
  NoDup (keys historical_data) ->
  List.length historical_data = 24 ->
  (forall k, In k (month :: keys historical_data) ->
             is_ok (strptime_b_y k) = true) ->
  ~ In month (keys historical_data) ->
  exists recent dropped,
    process_and_update_dashboard latest_data historical_data now
    = mk_run [SaveHistorical recent; UpdateHtml latest_data] true
    /\ dict_set historical_data month latest_data
       = historical_data ++ [(month, latest_data)]
    /\ List.length recent = 24
    /\ NoDup (keys recent)
    /\ In dropped (month :: keys historical_data)
    /\ (forall k dk dd,
          In k (month :: keys historical_data) ->
          strptime_b_y k = Ok dk -> strptime_b_y dropped = Ok dd ->
          dt_le dd dk)
    /\ (forall k v,
          In (k, v) recent
          <-> In (k, v) (historical_data ++ [(month, latest_data)])
              /\ k <> dropped).
Proof.
  intros Hm N L P Hnew.
  pose proof (dict_set_new historical_data month latest_data Hnew) as E.
  set (store := historical_data ++ [(month, latest_data)]) in *.
  assert (Ks : forall k, In k (keys store) <->
                         In k (month :: keys historical_data)).
  { intros k. unfold store, keys. rewrite map_app, in_app_iff. simpl.
    tauto. }
  assert (Ns : NoDup (keys store)).
  { unfold store, keys. rewrite map_app. simpl.
    apply (Permutation_NoDup (Permutation_cons_append _ _)).
    now constructor. }
  assert (Ls : List.length store = 25).
  { unfold store. rewrite length_app. simpl. lia. }
  destruct (keep_recent_25 store Ns Ls) as [recent [dropped [KR [Lr [Nr [Hd [Ho Hi]]]]]]].
  { intros k Hk. apply P. now apply Ks. }
  exists recent, dropped.
  split; [|split; [exact E|split; [exact Lr|split; [exact Nr|split; [|split]]]]].
  - unfold process_and_update_dashboard, merge_history.
    rewrite Hm. cbn [bind]. rewrite E, KR. reflexivity.
  - now apply Ks.
  - intros k dk dd Hk. apply Ho. now apply Ks.
  - exact Hi.
Qed.

Lemma merge_25th_period_witness :
  List.length fx_store = 24
  /\ ~ In "Jan-26" (keys fx_store)
  /\ exists recent,
       process_and_update_dashboard fx_latest fx_store fx_now
       = mk_run [SaveHistorical recent; UpdateHtml fx_latest] true
       /\ List.length recent = 24.
Proof.
  assert (D : forall (k : string) (ks : list string),
             forallb (fun k' => negb (String.eqb k k')) ks = true ->
             ~ In k ks).
  { intros k ks H Hin. rewrite forallb_forall in H.
    specialize (H k Hin). now rewrite String.eqb_refl in H. }
  assert (Hnew : ~ In "Jan-26" (keys fx_store)) by (apply D; reflexivity).
  split; [reflexivity|]. split; [exact Hnew|].
  assert (N : NoDup (keys fx_store)).
  { repeat (constructor; [apply D; reflexivity|]). constructor. }
  assert (P : forall k, In k ("Jan-26" :: keys fx_store) ->
                        is_ok (strptime_b_y k) = true).
  { assert (F : forallb (fun k => is_ok (strptime_b_y k))
                  ("Jan-26" :: keys fx_store) = true) by reflexivity.
    rewrite forallb_forall in F. exact F. }
  destruct (merge_25th_period fx_latest fx_store fx_now "Jan-26"
              eq_refl N eq_refl P Hnew) as [recent [dropped [H1 [_ [H2 _]]]]].
  exists recent. split; [exact H1 | exact H2].
Defined.

(** C5: when the store holds a period key that [strptime] rejects, the merge
    raises in its sort step whatever the snapshot is: no pruned store comes
    out, neither the historical file nor the page is written, and the run
    returns [False]. *)
Theorem malformed_key_is_fatal (latest_data : json) (historical_data : pydict)
  (now : datetime) (k : string) :
  In k (keys historical_data) ->
  is_ok (strptime_b_y k) = false ->
  is_ok (merge_history latest_data historical_data now) = false
  /\ (forall month,
        is_ok (keep_recent (dict_set historical_data month latest_data))
        = false)
  /\ process_and_update_dashboard latest_data historical_data now
     = mk_run [] false.
Proof.
  intros Hk Hp.
  assert (K : forall month,
             is_ok (keep_recent (dict_set historical_data month latest_data))
             = false).
  { intros month. apply (keep_recent_fails _ k); [|exact Hp].
    now apply dict_set_keys_incl. }
  assert (M : is_ok (merge_history latest_data historical_data now) = false).
  { unfold merge_history.
    destruct (current_month_of latest_data now) as [month|e]; [|reflexivity].
    cbn [bind]. apply K. }
  split; [exact M|]. split; [exact K|].
  unfold process_and_update_dashboard.
  destruct (merge_history latest_data historical_data now);
    [discriminate | reflexivity].
Qed.

Lemma malformed_key_witness :
  In "2024-01" (keys (("2024-01", JNull) :: fx_store))
  /\ is_ok (strptime_b_y "2024-01") = false
  /\ process_and_update_dashboard fx_latest (("2024-01", JNull) :: fx_store)
       fx_now
     = mk_run [] false.
Proof.
  split; [now left|]. split; [reflexivity|].
  apply (malformed_key_is_fatal fx_latest (("2024-01", JNull) :: fx_store)
           fx_now "2024-01"); [now left | reflexivity].
Defined.

(** C10: a snapshot without a [month] field does not make the merge fail:
    its key is the run date written as [%b-%y], a key that always parses, and
    the run succeeds whenever the keys already in the store parse.  Every
    merge that succeeds has put the snapshot under exactly one key, its own
    [month] or else the run date, leaving every other key of the store as it
    was, before pruning. *)
Theorem month_fallback (d : list (string * json)) (historical_data : pydict)
  (now : datetime) :
  dict_get d "month" = None ->
  1 <= dt_month now <= 12 ->
  current_month_of (JDict d) now = Ok (strftime_b_y now)
  /\ is_ok (strptime_b_y (strftime_b_y now)) = true
  /\ ((forall k, In k (keys historical_data) ->
                 is_ok (strptime_b_y k) = true) ->
      exists recent,
        keep_recent (dict_set historical_data (strftime_b_y now) (JDict d))
        = Ok recent
        /\ process_and_update_dashboard (JDict d) historical_data now
           = mk_run [SaveHistorical recent; UpdateHtml (JDict d)] true)
  /\ (forall latest_data store now' recent,
        merge_history latest_data store now' = Ok recent ->
        exists key d',
          latest_data = JDict d'
          /\ (dict_get d' "month" = Some (JStr key)
              \/ (dict_get d' "month" = None /\ key = strftime_b_y now'))
          /\ keep_recent (dict_set store key latest_data) = Ok recent
          /\ dict_get (dict_set store key latest_data) key = Some latest_data
          /\ (forall k, k <> key ->
                dict_get (dict_set store key latest_data) k
                = dict_get store k)).
Proof.
  intros Hm Hnow.
  assert (C : current_month_of (JDict d) now = Ok (strftime_b_y now)).
  { simpl. now rewrite Hm. }
  split; [exact C|]. split; [now apply strftime_parses|]. split.
  - intros H.
    destruct (keep_recent_succeeds
                (dict_set historical_data (strftime_b_y now) (JDict d)))
      as [recent R].
    { intros k Hk. apply dict_set_keys in Hk as [-> | Hk].
      - now apply strftime_parses.
      - now apply H. }
    exists recent. split; [exact R|].
    unfold process_and_update_dashboard, merge_history.
    rewrite C. cbn [bind]. now rewrite R.
  - intros latest_data store now' recent H.
    unfold merge_history in H.
    destruct (current_month_of latest_data now') as [key|e] eqn:E;
      [|discriminate].
    cbn [bind] in H.
    destruct latest_data as [| | | | |l|d']; try discriminate.
    exists key, d'. split; [reflexivity|]. split; [|split; [exact H|split]].
    + simpl in E. destruct (dict_get d' "month") as [v|].
      * destruct v; try discriminate. inversion E. now left.
      * inversion E. now right.
    + rewrite dict_get_set. now rewrite String.eqb_refl.
    + intros k Hk. rewrite dict_get_set.
      destruct (String.eqb k key) eqn:Ek; [|reflexivity].
      apply String.eqb_eq in Ek. contradiction.
Qed.

Lemma month_fallback_witness :
  dict_get [("topApps", JList [])] "month" = None
  /\ current_month_of (JDict [("topApps", JList [])]) fx_now = Ok "Feb-26"
  /\ exists recent,
       process_and_update_dashboard (JDict [("topApps", JList [])])
         fx_store fx_now
       = mk_run [SaveHistorical recent;
                 UpdateHtml (JDict [("topApps", JList [])])] true.
Proof.
  split; [reflexivity|].
  assert (B : 1 <= dt_month fx_now <= 12) by (simpl; lia).
  destruct (month_fallback [("topApps", JList [])] fx_store fx_now eq_refl B)
    as [H1 [_ [H3 _]]].
  split; [exact H1|].
  destruct H3 as [recent [_ R]].
  - assert (F : forallb (fun k => is_ok (strptime_b_y k)) (keys fx_store)
               = true) by reflexivity.
    rewrite forallb_forall in F. exact F.
  - exists recent. exact R.
Defined.

Lemma monthly_totals_witness :
  List.length (cell_texts fx_six_cell_row) = 6
  /\ p2p_try (cell_texts fx_six_cell_row) = Raise IndexError
  /\ p2p_row fx_six_cell_row = Ok None
  /\ dict_get (extract_p2p_p2m_data fx_p2p_page) "month"
     = Some (JStr "Feb-24").
Proof.
  split; [reflexivity|].
  destruct (proj1 monthly_totals_first_valid_row fx_six_cell_row eq_refl)
    as [_ [H [R _]]].
  split; [exact (H eq_refl)|]. split; [exact R|].
  pose proof (proj1 (proj2 monthly_totals_first_valid_row) fx_p2p_page
                fx_p2p_table eq_refl) as L.
  vm_compute in L. destruct L as [_ [_ L]].
  inversion L. reflexivity.
Defined.

(** * Further properties *)

(** ** The history merge on stores of any size *)

Lemma dict_set_keys_present (d : pydict) (k : string) (v : json) :
  In k (keys d) -> keys (dict_set d k v) = keys d.
Proof.
  induction d as [|[k0 v0] d IH]; simpl; [intros []|].
  destruct (String.eqb k k0) eqn:E; simpl; [reflexivity|].
  intros [H | H].
  - subst. now rewrite String.eqb_refl in E.
  - f_equal. now apply IH.
Qed.

Lemma dict_set_keys_nodup (d : pydict) (k : string) (v : json) :
  NoDup (keys d) -> NoDup (keys (dict_set d k v)).
Proof.
  intros N. destruct (in_dec string_dec k (keys d)) as [H | H].
  - now rewrite dict_set_keys_present.
  - rewrite dict_set_new by exact H. unfold keys. rewrite map_app. simpl.
    apply (Permutation_NoDup (Permutation_cons_append _ _)).
    now constructor.
Qed.

Lemma dict_set_same (d : pydict) (k : string) (v : json) :
  NoDup (keys d) -> In (k, v) d -> dict_set d k v = d.
Proof.
  induction d as [|[k0 v0] d IH]; simpl; [intros _ []|].
  intros N [H | H].
  - inversion H; subst. now rewrite String.eqb_refl.
  - inversion N as [|? ? N0 N']; subst.
    destruct (String.eqb k k0) eqn:E.
    + apply String.eqb_eq in E. subst. exfalso. apply N0.
      unfold keys. change k0 with (fst (k0, v)). now apply in_map.
    + f_equal. now apply IH.
Qed.

Lemma sorted_app_inv {A : Type} (R : A -> A -> Prop) (l1 l2 : list A) :
  StronglySorted R (l1 ++ l2) ->
  StronglySorted R l1 /\ StronglySorted R l2
  /\ forall a b, In a l1 -> In b l2 -> R a b.
Proof.
  induction l1 as [|x l1 IH]; simpl; intros S.
  - repeat split; [constructor | exact S | intros a b []].
  - inversion S as [|? ? S' F]; subst.
    destruct (IH S') as [S1 [S2 H]].
    rewrite Forall_forall in F.
    repeat split.
    + constructor; [exact S1|]. apply Forall_forall. intros y Hy.
      apply F. apply in_or_app. now left.
    + exact S2.
    + intros a b [<- | Ha] Hb.
      * apply F. apply in_or_app. now right.
      * now apply H.
Qed.

Lemma sort_desc_of_sorted (l : list (datetime * string)) :
  StronglySorted newer_first l -> sort_desc l = l.
Proof.
  induction 1 as [|x l S IH F]; simpl; [reflexivity|].
  rewrite IH. destruct l as [|y l]; simpl; [reflexivity|].
  inversion F as [|? ? Hxy _]; subst.
  unfold newer_first, dt_le in Hxy. now rewrite Hxy.
Qed.

Lemma same_keys_same_values (d res : pydict) :
  NoDup (keys d) -> keys res = keys d ->
  Forall (fun kv => dict_get d (fst kv) = Some (snd kv)) res ->
  res = d.
Proof.
  revert res. induction d as [|[k v] d IH]; intros res N K F.
  - destruct res; [reflexivity | discriminate].
  - destruct res as [|[k' v'] res]; [discriminate|].
    simpl in K. inversion K; subst k'.
    inversion F as [|? ? Hv F']; subst. simpl in Hv.
    rewrite String.eqb_refl in Hv. inversion Hv; subst v'.
    inversion N as [|? ? Nk N']; subst.
    f_equal. apply IH; [exact N' | assumption |].
    apply Forall_forall. intros [k1 v1] Hin.
    rewrite Forall_forall in F'. specialize (F' _ Hin). simpl in *.
    destruct (String.eqb k1 k) eqn:E; [|exact F'].
    apply String.eqb_eq in E. subst k1. exfalso. apply Nk.
    rewrite <- H1. unfold keys. change k with (fst (k, v1)).
    now apply in_map.
Qed.

(** What pruning does to a store with distinct, parseable keys. *)
Lemma keep_recent_general (store : pydict) :
  NoDup (keys store) ->
  (forall k, In k (keys store) -> is_ok (strptime_b_y k) = true) ->
  exists recent,
    keep_recent store = Ok recent
    /\ List.length recent = Nat.min 24 (List.length store)
    /\ NoDup (keys recent)
    /\ newest_first (keys recent)
    /\ (forall k v, In (k, v) recent -> In (k, v) store)
    /\ (forall k k', In k (keys store) -> ~ In k (keys recent) ->
                     In k' (keys recent) -> not_newer k k').
Proof.
  intros N H.
  destruct (sorted_months_ok _ H) as [sd [E [P [S D]]]].
  set (kept := map snd (firstn 24 sd)).
  set (rest := map snd (skipn 24 sd)).
  assert (K : map snd sd = kept ++ rest).
  { unfold kept, rest. rewrite <- map_app. now rewrite firstn_skipn. }
  assert (N' : NoDup (kept ++ rest)).
  { rewrite <- K. apply (Permutation_NoDup (Permutation_sym P) N). }
  assert (Nk : NoDup kept) by (eapply NoDup_app_remove_r; eauto).
  assert (Kin : forall k, In k kept -> In k (keys store)).
  { intros k Hk. apply (Permutation_in _ P). rewrite K.
    apply in_or_app. now left. }
  destruct (rebuild_distinct store kept [] Nk Kin) as [res [R [Kr F]]];
    [intros k _ []|].
  simpl in R.
  assert (KR : keep_recent store = Ok res).
  { rewrite keep_recent_unfold, E. cbn [bind].
    rewrite firstn_map. exact R. }
  rewrite <- (firstn_skipn 24 sd) in S.
  destruct (sorted_app_inv _ _ _ S) as [S1 [_ S12]].
  exists res. split; [exact KR|].
  split; [|split; [|split; [|split]]].
  - rewrite <- (length_map fst res). fold (keys res). rewrite Kr.
    unfold kept. rewrite length_map, length_firstn.
    rewrite <- (length_map snd sd), (Permutation_length P).
    unfold keys. now rewrite length_map.
  - now rewrite Kr.
  - rewrite Kr. exists (firstn 24 sd). split; [reflexivity|].
    split; [exact S1|]. intros p Hp. apply D.
    rewrite <- (firstn_skipn 24 sd). apply in_or_app. now left.
  - intros k v Hin. rewrite Forall_forall in F.
    apply dict_get_In. exact (F _ Hin).
  - intros k k' Hk Hnot Hk' d d' Hd Hd'.
    rewrite Kr in Hnot, Hk'.
    apply (Permutation_in _ (Permutation_sym P)) in Hk.
    rewrite K in Hk. apply in_app_or in Hk as [Hk | Hk]; [contradiction|].
    unfold rest in Hk. apply in_map_iff in Hk as [p [Hp Hin]].
    unfold kept in Hk'. apply in_map_iff in Hk' as [p' [Hp' Hin']].
    pose proof (S12 p' p Hin' Hin) as O.
    assert (Dp : strptime_b_y (snd p) = Ok (fst p)).
    { apply D. rewrite <- (firstn_skipn 24 sd). apply in_or_app. now right. }
    assert (Dp' : strptime_b_y (snd p') = Ok (fst p')).
    { apply D. rewrite <- (firstn_skipn 24 sd). apply in_or_app. now left. }
    rewrite Hp, Hd in Dp. rewrite Hp', Hd' in Dp'.
    inversion Dp; inversion Dp'; subst d d'. exact O.
Qed.

Lemma forallb_false_witness {A : Type} (f : A -> bool) (l : list A) :
  forallb f l = false -> exists x, In x l /\ f x = false.
Proof.
  induction l as [|x l IH]; simpl; [discriminate|].
  destruct (f x) eqn:E; simpl.
  - intros H. destruct (IH H) as [y [Hy Fy]]. exists y. auto.
  - intros _. exists x. auto.
Qed.

(** X1: when a run succeeds.  With a run date whose month is a month, the
    run returns [True] exactly when the snapshot is an object whose [month]
    is absent or a string in the form [%b-%y] and every key already in the
    store is in that form; otherwise it returns [False] and writes
    nothing. *)
Theorem run_succeeds_iff (latest_data : json) (historical_data : pydict)
  (now : datetime) :
  1 <= dt_month now <= 12 ->
  returned (process_and_update_dashboard latest_data historical_data now)
  = snapshot_month_ok latest_data
    && forallb (fun k => is_ok (strptime_b_y k)) (keys historical_data)
  /\ (returned (process_and_update_dashboard latest_data historical_data now)
      = false ->
      effects (process_and_update_dashboard latest_data historical_data now)
      = []).
Proof.
  intros Hnow. split.
  2:{ unfold process_and_update_dashboard.
      destruct (merge_history _ _ _); simpl; [discriminate | reflexivity]. }
  unfold process_and_update_dashboard, merge_history.
  destruct (current_month_of latest_data now) as [month|e] eqn:C.
  - cbn [bind].
    assert (M : snapshot_month_ok latest_data = is_ok (strptime_b_y month)).
    { destruct latest_data; try discriminate. simpl in *.
      destruct (dict_get d "month") as [v|].
      - destruct v; try discriminate. now inversion C.
      - inversion C. symmetry. now apply strftime_parses. }
    rewrite M.
    destruct (is_ok (strptime_b_y month)) eqn:Pm; simpl.
    + destruct (forallb (fun k => is_ok (strptime_b_y k))
                  (keys historical_data)) eqn:F.
      * rewrite forallb_forall in F.
        destruct (keep_recent_succeeds
                    (dict_set historical_data month latest_data))
          as [recent R].
        { intros k Hk. apply dict_set_keys in Hk as [-> | Hk]; auto. }
        now rewrite R.
      * apply forallb_false_witness in F as [k [Hk Fk]].
        pose proof (keep_recent_fails
                      (dict_set historical_data month latest_data) k
                      (dict_set_keys_incl _ _ _ _ Hk) Fk) as X.
        destruct (keep_recent _); [discriminate | reflexivity].
    + pose proof (keep_recent_fails
                    (dict_set historical_data month latest_data) month
                    (dict_set_has_key _ _ _) Pm) as X.
      destruct (keep_recent _); [discriminate | reflexivity].
  - simpl.
    assert (M : snapshot_month_ok latest_data = false).
    { destruct latest_data; try reflexivity. simpl in *.
      destruct (dict_get d "month") as [v|]; [|discriminate].
      destruct v; try reflexivity. discriminate. }
    now rewrite M.
Qed.

Lemma run_succeeds_iff_witness :
  returned (process_and_update_dashboard
              (JDict [("month", JStr "January 2026")]) [] fx_now)
  = false
  /\ returned (process_and_update_dashboard fx_latest fx_store fx_now) = true.
Proof.
  assert (B : 1 <= dt_month fx_now <= 12) by (simpl; lia).
  split.
  - rewrite (proj1 (run_succeeds_iff
                      (JDict [("month", JStr "January 2026")]) [] fx_now B)).
    reflexivity.
  - rewrite (proj1 (run_succeeds_iff fx_latest fx_store fx_now B)).
    reflexivity.
Defined.

(** X2: what a successful run saves, for a store of any size with distinct
    parseable keys.  The saved store holds at most 24 entries (all of them
    when there are no more than 24), every one an entry of the store after
    the snapshot was put under its key; its keys are distinct and stand
    newest first; and no entry left out is newer than one that is kept. *)
Theorem merge_keeps_newest (latest_data : json) (historical_data : pydict)
  (now : datetime) (month : string) :
  current_month_of latest_data now = Ok month ->
  NoDup (keys historical_data) ->
  (forall k, In k (month :: keys historical_data) ->
             is_ok (strptime_b_y k) = true) ->
  exists recent,
    process_and_update_dashboard latest_data historical_data now
    = mk_run [SaveHistorical recent; UpdateHtml latest_data] true
    /\ List.length recent
       = Nat.min 24
           (List.length (dict_set historical_data month latest_data))
    /\ NoDup (keys recent)
    /\ newest_first (keys recent)
    /\ (forall k v,
          In (k, v) recent ->
          In (k, v) (dict_set historical_data month latest_data))
    /\ (forall k k',
          In k (keys (dict_set historical_data month latest_data)) ->
          ~ In k (keys recent) -> In k' (keys recent) -> not_newer k k').
Proof.
  intros Hm N P.
  destruct (keep_recent_general (dict_set historical_data month latest_data))
    as [recent [KR H]].
  - now apply dict_set_keys_nodup.
  - intros k Hk. apply P. apply dict_set_keys in Hk as [-> | Hk];
      [now left | now right].
  - exists recent. split; [|exact H].
    unfold process_and_update_dashboard, merge_history.
    rewrite Hm. cbn [bind]. now rewrite KR.
Qed.

Lemma merge_keeps_newest_witness :
  exists recent,
    process_and_update_dashboard fx_latest (firstn 3 fx_store) fx_now
    = mk_run [SaveHistorical recent; UpdateHtml fx_latest] true
    /\ List.length recent = 4.
Proof.
  assert (D : forall (k : string) (ks : list string),
             forallb (fun k' => negb (String.eqb k k')) ks = true ->
             ~ In k ks).
  { intros k ks H Hin. rewrite forallb_forall in H.
    specialize (H k Hin). now rewrite String.eqb_refl in H. }
  assert (N : NoDup (keys (firstn 3 fx_store))).
  { repeat (constructor; [apply D; reflexivity|]). constructor. }
  assert (P : forall k, In k ("Jan-26" :: keys (firstn 3 fx_store)) ->
                        is_ok (strptime_b_y k) = true).
  { assert (F : forallb (fun k => is_ok (strptime_b_y k))
                  ("Jan-26" :: keys (firstn 3 fx_store)) = true)
      by reflexivity.
    rewrite forallb_forall in F. exact F. }
  destruct (merge_keeps_newest fx_latest (firstn 3 fx_store) fx_now "Jan-26"
              eq_refl N P) as [recent [H1 [H2 _]]].
  exists recent. split; [exact H1 | exact H2].
Defined.

(** A store of at most 24 distinct parseable keys comes out of the pruning
    with exactly its entries. *)
Lemma keep_recent_small (store : pydict) :
  NoDup (keys store) ->
  (forall k, In k (keys store) -> is_ok (strptime_b_y k) = true) ->
  List.length store <= 24 ->
  exists recent,
    keep_recent store = Ok recent
    /\ List.length recent = List.length store
    /\ NoDup (keys recent)
    /\ (forall k v, In (k, v) recent <-> In (k, v) store).
Proof.
  intros Ns P L.
  destruct (keep_recent_general store Ns P)
    as [recent [KR [Lr [Nr [_ [Sub _]]]]]].
  rewrite Nat.min_r in Lr by exact L.
  exists recent. split; [exact KR|]. split; [exact Lr|]. split; [exact Nr|].
  intros k v. split; [apply Sub|]. intros Hin.
  assert (I : incl (keys store) (keys recent)).
  { apply NoDup_length_incl.
    - exact Nr.
    - unfold keys. rewrite !length_map. lia.
    - intros k0 Hk0. unfold keys in Hk0.
      apply in_map_iff in Hk0 as [[k1 v1] [E1 H1]]. simpl in E1. subst k1.
      unfold keys. change k0 with (fst (k0, v1)). apply in_map.
      now apply Sub. }
  assert (Hk : In k (keys recent)).
  { apply I. unfold keys. change k with (fst (k, v)). now apply in_map. }
  unfold keys in Hk. apply in_map_iff in Hk as [[k1 v1] [E1 H1]].
  simpl in E1. subst k1.
  pose proof (In_dict_get store k v Ns Hin) as G1.
  pose proof (In_dict_get store k v1 Ns (Sub _ _ H1)) as G2.
  rewrite G1 in G2. inversion G2. now subst.
Qed.

(** X3: a store that holds no more than 24 entries once the snapshot is in
    loses nothing: the saved store has exactly the entries of the store
    after the assignment, the snapshot under its own key, whether that key
    was new or already there.  On an empty store the saved store is the one
    entry of the snapshot. *)
Theorem small_store_keeps_everything (latest_data : json)
  (historical_data : pydict) (now : datetime) (month : string) :
  current_month_of latest_data now = Ok month ->
  NoDup (keys historical_data) ->
  (forall k, In k (month :: keys historical_data) ->
             is_ok (strptime_b_y k) = true) ->
  List.length (dict_set historical_data month latest_data) <= 24 ->
  exists recent,
    merge_history latest_data historical_data now = Ok recent
    /\ List.length recent
       = List.length (dict_set historical_data month latest_data)
    /\ (forall k v,
          In (k, v) recent
          <-> In (k, v) (dict_set historical_data month latest_data))
    /\ dict_get recent month = Some latest_data
    /\ (historical_data = [] -> recent = [(month, latest_data)]).
Proof.
  intros Hm N P L.
  set (store := dict_set historical_data month latest_data) in *.
  assert (Ns : NoDup (keys store)) by now apply dict_set_keys_nodup.
  destruct (keep_recent_small store Ns) as [recent [KR [Lr [Nr Same]]]];
    [|exact L|].
  { intros k Hk. apply P. apply dict_set_keys in Hk as [-> | Hk];
      [now left | now right]. }
  assert (G : dict_get store month = Some latest_data).
  { unfold store. rewrite dict_get_set. now rewrite String.eqb_refl. }
  exists recent.
  split; [unfold merge_history; rewrite Hm; cbn [bind]; exact KR|].
  split; [exact Lr|]. split; [exact Same|]. split.
  - apply In_dict_get; [exact Nr|]. apply Same. now apply dict_get_In.
  - intros ->. unfold store in *. simpl in *.
    destruct recent as [|[k v] [|? ?]]; try discriminate.
    f_equal. destruct (proj1 (Same k v) (or_introl eq_refl)) as [Sub | []].
    now inversion Sub.
Qed.

Lemma small_store_witness :
  merge_history fx_latest [] fx_now = Ok [("Jan-26", fx_latest)].
Proof.
  destruct (small_store_keeps_everything fx_latest [] fx_now "Jan-26" eq_refl
              (NoDup_nil _)) as [recent [H [_ [_ [_ E]]]]].
  - intros k [<- | []]. reflexivity.
  - simpl. lia.
  - rewrite H. f_equal. now apply E.
Defined.

Lemma mapM_with_date_sorted (sd : list (datetime * string)) :
  (forall p, In p sd -> strptime_b_y (snd p) = Ok (fst p)) ->
  mapM with_date (map snd sd) = Ok sd.
Proof.
  induction sd as [|[d k] sd IH]; simpl; intros H; [reflexivity|].
  pose proof (H (d, k) (or_introl eq_refl)) as X. simpl in X.
  unfold with_date at 1. rewrite X. simpl.
  rewrite IH by (intros p Hp; apply H; now right). reflexivity.
Qed.

(** Pruning a store that is already pruned changes nothing. *)
Lemma keep_recent_fixpoint (recent : pydict) :
  NoDup (keys recent) -> newest_first (keys recent) ->
  List.length recent <= 24 ->
  keep_recent recent = Ok recent.
Proof.
  intros N [sd [K [S D]]] L.
  rewrite keep_recent_unfold. unfold sorted_months_of.
  rewrite K, (mapM_with_date_sorted sd D). cbn [bind].
  rewrite (sort_desc_of_sorted sd S), <- K.
  rewrite firstn_all2 by (unfold keys; rewrite length_map; lia).
  destruct (rebuild_distinct recent (keys recent) [] N) as [res [R [Kr F]]];
    [auto | intros k _ [] |].
  simpl in R. rewrite R.
  now rewrite (same_keys_same_values recent res N Kr F).
Qed.

(** X4: running the merge again on what it saved, with the same snapshot
    and run date, saves the same store again, provided the snapshot's own
    entry was among those kept. *)
Theorem rerun_is_noop (latest_data : json) (historical_data recent : pydict)
  (now : datetime) (month : string) :
  NoDup (keys historical_data) ->
  current_month_of latest_data now = Ok month ->
  merge_history latest_data historical_data now = Ok recent ->
  In month (keys recent) ->
  merge_history latest_data recent now = Ok recent.
Proof.
  intros N Hm H Hin.
  unfold merge_history in *. rewrite Hm in *. cbn [bind] in *.
  set (store := dict_set historical_data month latest_data) in *.
  assert (Ns : NoDup (keys store)) by now apply dict_set_keys_nodup.
  assert (P : forall k, In k (keys store) -> is_ok (strptime_b_y k) = true).
  { intros k Hk. destruct (is_ok (strptime_b_y k)) eqn:E; [reflexivity|].
    pose proof (keep_recent_fails store k Hk E) as X.
    rewrite H in X. discriminate. }
  destruct (keep_recent_general store Ns P)
    as [recent0 [KR [Lr [Nr [Sr [Sub _]]]]]].
  rewrite H in KR. inversion KR; subst recent0.
  assert (E : dict_set recent month latest_data = recent).
  { apply dict_set_same; [exact Nr|].
    unfold keys in Hin. apply in_map_iff in Hin as [[k v] [Ek Hkv]].
    simpl in Ek. subst k.
    pose proof (In_dict_get store month v Ns (Sub _ _ Hkv)) as G.
    unfold store in G. rewrite dict_get_set, String.eqb_refl in G.
    inversion G. now subst. }
  rewrite E. apply keep_recent_fixpoint; [exact Nr | exact Sr | lia].
Qed.

Lemma rerun_is_noop_witness :
  exists recent,
    merge_history fx_latest fx_store fx_now = Ok recent
    /\ merge_history fx_latest recent fx_now = Ok recent.
Proof.
  assert (D : forall (k : string) (ks : list string),
             forallb (fun k' => negb (String.eqb k k')) ks = true ->
             ~ In k ks).
  { intros k ks H Hin. rewrite forallb_forall in H.
    specialize (H k Hin). now rewrite String.eqb_refl in H. }
  assert (N : NoDup (keys fx_store)).
  { repeat (constructor; [apply D; reflexivity|]). constructor. }
  destruct (merge_history fx_latest fx_store fx_now) as [recent|e] eqn:M;
    [|vm_compute in M; discriminate].
  exists recent. split; [reflexivity|].
  apply (rerun_is_noop fx_latest fx_store recent fx_now "Jan-26" N eq_refl M).
  vm_compute in M. inversion M. left. reflexivity.
Defined.

(** ** The shape of what the extractors return *)

Lemma has_char_replace (c : ascii) (s : string) :
  has_char c (replace c "" s) = false.
Proof.
  unfold has_char. induction s as [|a s IH]; simpl; [reflexivity|].
  destruct (Ascii.eqb a c) eqn:E; simpl; [exact IH|].
  rewrite Ascii.eqb_sym, E. exact IH.
Qed.

Lemma has_char_lstrip (c : ascii) (s : string) :
  has_char c s = false -> has_char c (lstrip s) = false.
Proof.
  unfold has_char. induction s as [|a s IH]; simpl; [reflexivity|].
  intros H. apply orb_false_iff in H as [H1 H2].
  destruct (is_space a); [now apply IH|].
  simpl. now rewrite H1, H2.
Qed.

Lemma has_char_rstrip (c : ascii) (s : string) :
  has_char c s = false -> has_char c (rstrip s) = false.
Proof.
  unfold has_char. induction s as [|a s IH]; simpl; [reflexivity|].
  intros H. apply orb_false_iff in H as [H1 H2].
  specialize (IH H2).
  destruct (rstrip s) as [|b r].
  - destruct (is_space a); simpl; [reflexivity|]. now rewrite H1.
  - simpl in *. now rewrite H1, IH.
Qed.

Lemma has_char_strip (c : ascii) (s : string) :
  has_char c s = false -> has_char c (strip s) = false.
Proof.
  intros H. unfold strip. now apply has_char_lstrip, has_char_rstrip.
Qed.

Ltac skip_shape :=
  simpl;
  match goal with
  | E : cell_float _ _ = Raise _ |- _ =>
      destruct (cell_float_raises _ _ _ E) as [-> | ->]; simpl; constructor
  end.

Ltac read_shape i :=
  destruct (cell_float _ i) as [?v | ?e] eqn:?E; [ | skip_shape ].

Lemma apps_row_shape (row : node) :
  Forall is_clean_app_record (row_out apps_row row).
Proof.
  unfold row_out, apps_row. set (cells := cell_texts row).
  destruct (3 <=? List.length cells) eqn:E; [|constructor].
  apply Nat.leb_le in E.
  destruct (getitem_in_range cells 1 ltac:(lia)) as [c Hc].
  change (Z.of_nat 1) with 1%Z in Hc. rewrite Hc. simpl bind at 1.
  read_shape (-2)%Z. read_shape (-1)%Z.
  simpl. constructor; [|constructor].
  do 3 eexists. split; [reflexivity|].
  apply has_char_strip, has_char_replace.
Qed.

Lemma remitter_row_shape (row : node) :
  Forall is_bank_record (row_out remitter_row row).
Proof.
  unfold row_out, remitter_row. set (cells := cell_texts row).
  destruct (3 <=? List.length cells) eqn:E; [|constructor].
  apply Nat.leb_le in E.
  destruct (getitem_in_range cells 1 ltac:(lia)) as [c Hc].
  change (Z.of_nat 1) with 1%Z in Hc. rewrite Hc. simpl bind at 1.
  read_shape 2%Z.
  simpl. constructor; [|constructor].
  do 2 eexists. reflexivity.
Qed.

Lemma merchant_row_shape (row : node) :
  Forall is_merchant_record (row_out merchant_row row).
Proof.
  unfold row_out, merchant_row. set (cells := cell_texts row).
  destruct (4 <=? List.length cells) eqn:E; [|constructor].
  apply Nat.leb_le in E.
  destruct (getitem_in_range cells 2 ltac:(lia)) as [c Hc].
  change (Z.of_nat 2) with 2%Z in Hc. rewrite Hc. simpl bind at 1.
  read_shape 3%Z.
  destruct (4 <? List.length cells) eqn:E4.
  - read_shape 4%Z. simpl. constructor; [|constructor].
    do 3 eexists. split; [reflexivity|]. right. eauto.
  - simpl. constructor; [|constructor].
    do 3 eexists. split; [reflexivity|]. now left.
Qed.

Lemma state_row_shape (row : node) :
  Forall is_state_record (row_out state_row row).
Proof.
  unfold row_out, state_row. set (cells := cell_texts row).
  destruct (5 <=? List.length cells) eqn:E; [|constructor].
  apply Nat.leb_le in E.
  destruct (getitem_in_range cells 1 ltac:(lia)) as [c Hc].
  change (Z.of_nat 1) with 1%Z in Hc. rewrite Hc. simpl bind at 1.
  read_shape 2%Z. read_shape 4%Z.
  simpl. constructor; [|constructor].
  do 3 eexists. reflexivity.
Qed.

Section RowShape.
Variable step : list json -> node -> exc (list json).
Variable valid : node -> bool.
Variable shape : json -> Prop.
Hypothesis cases :
  forall row,
    (valid row = true /\
     exists r, forall acc, step acc row = Ok (acc ++ [r]))
    \/ (valid row = false /\ forall acc, step acc row = Ok acc).
Hypothesis row_shape : forall row, Forall shape (row_out step row).

Lemma rows_bounded (rows : list node) :
  List.length (flat_map (row_out step) rows) <= List.length rows.
Proof.
  rewrite (rows_records_count step (cases_step_out step valid cases) valid
             (cases_valid_one step valid cases)
             (cases_invalid_none step valid cases)).
  apply filter_length_le.
Qed.

Lemma rows_shaped (rows : list node) :
  Forall shape (flat_map (row_out step) rows).
Proof.
  apply Forall_flat_map. apply Forall_forall. intros row _. apply row_shape.
Qed.

Lemma limited_rows (n : nat) (rows : list node) :
  List.length (flat_map (row_out step) (firstn n rows)) <= n
  /\ Forall shape (flat_map (row_out step) (firstn n rows)).
Proof.
  split; [|apply rows_shaped].
  etransitivity; [apply rows_bounded | apply firstn_le_length].
Qed.

Lemma limited_records (n : nat) (rows : list node) :
  List.length (firstn n (flat_map (row_out step) rows)) <= n
  /\ Forall shape (firstn n (flat_map (row_out step) rows)).
Proof.
  split; [apply firstn_le_length|].
  apply Forall_forall. intros r Hr. 
  pose proof (rows_shaped rows) as F. rewrite Forall_forall in F.
  apply F. rewrite <- (firstn_skipn n (flat_map (row_out step) rows)).
  apply in_or_app. now left.
Qed.
End RowShape.

Lemma apps_list_shape (soup : node) :
  exists l,
    extract_apps_data soup = [("topApps", JList l)]
    /\ List.length l <= 10 /\ Forall is_clean_app_record l.
Proof.
  destruct (table_locator apps_marker (find_all "table" soup)) as [t|] eqn:L.
  - rewrite (extract_apps_located soup t L). eexists. split; [reflexivity|].
    apply (limited_rows apps_row apps_valid _ apps_row_cases' apps_row_shape).
  - unfold extract_apps_data. rewrite apps_tables_locate, L. simpl.
    exists []. repeat split; [simpl; lia | constructor].
Qed.

Lemma remitter_list_shape (soup : node) :
  exists l,
    extract_remitter_data soup = [("topBanks", JList l)]
    /\ List.length l <= 10 /\ Forall is_bank_record l.
Proof.
  destruct (table_locator remitter_marker (find_all "table" soup))
    as [t|] eqn:L.
  - rewrite (extract_remitter_located soup t L).
    eexists. split; [reflexivity|].
    apply (limited_rows remitter_row remitter_valid _ remitter_row_cases
             remitter_row_shape).
  - unfold extract_remitter_data. rewrite remitter_tables_locate, L. simpl.
    exists []. repeat split; [simpl; lia | constructor].
Qed.

Lemma merchant_list_shape (soup : node) :
  exists l,
    extract_merchant_data soup = [("merchantCategories", JList l)]
    /\ List.length l <= 10 /\ Forall is_merchant_record l.
Proof.
  destruct (table_locator merchant_marker (find_all "table" soup))
    as [t|] eqn:L.
  - rewrite (extract_merchant_located soup t L).
    eexists. split; [reflexivity|].
    apply (limited_records merchant_row _ merchant_row_shape).
  - unfold extract_merchant_data. rewrite merchant_tables_locate, L. simpl.
    exists []. repeat split; [simpl; lia | constructor].
Qed.

Lemma state_list_shape (soup : node) :
  exists l,
    extract_state_data soup = [("stateData", JList l)]
    /\ List.length l <= 10 /\ Forall is_state_record l.
Proof.
  destruct (table_locator state_marker (find_all "table" soup)) as [t|] eqn:L.
  - rewrite (extract_state_located soup t L). eexists. split; [reflexivity|].
    apply (limited_rows state_row state_valid _ state_row_cases
             state_row_shape).
  - unfold extract_state_data. rewrite state_tables_locate, L. simpl.
    exists []. repeat split; [simpl; lia | constructor].
Qed.

(** X5: the schema of a snapshot.  For every page, each of the four
    sequences in the merged output has at most 10 records, and every record
    has exactly the fields of its dataset: name, volume and value for the
    apps (the name without any [#]); name and volume for the banks;
    category, volume and value for the merchant categories, the value being
    a number read from the row or the integer 0; state, volume and value for
    the states. *)
Theorem snapshot_schema (soup : node) :
  exists a b m s,
    dict_get (parse_tables soup) "topApps" = Some (JList a)
    /\ dict_get (parse_tables soup) "topBanks" = Some (JList b)
    /\ dict_get (parse_tables soup) "merchantCategories" = Some (JList m)
    /\ dict_get (parse_tables soup) "stateData" = Some (JList s)
    /\ (List.length a <= 10 /\ Forall is_clean_app_record a)
    /\ (List.length b <= 10 /\ Forall is_bank_record b)
    /\ (List.length m <= 10 /\ Forall is_merchant_record m)
    /\ (List.length s <= 10 /\ Forall is_state_record s).
Proof.
  destruct (apps_list_shape soup) as [a [Ea Ha]].
  destruct (remitter_list_shape soup) as [b [Eb Hb]].
  destruct (merchant_list_shape soup) as [m [Em Hm]].
  destruct (state_list_shape soup) as [s [Es Hs]].
  exists a, b, m, s.
  rewrite (merged_value_is_own soup Apps "topApps") by (simpl; auto).
  rewrite (merged_value_is_own soup Banks "topBanks") by (simpl; auto).
  rewrite (merged_value_is_own soup Merchants "merchantCategories")
    by (simpl; auto).
  rewrite (merged_value_is_own soup States "stateData") by (simpl; auto).
  simpl extract. rewrite Ea, Eb, Em, Es.
  repeat split; try reflexivity; tauto.
Qed.

(** ** The header row *)

(** X6: the apps, remitter and state extractors never read the first row of
    the table they located, whatever it holds: two located tables that
    differ in their first row only give the same result, so a table without
    a header row loses its first data row. *)
Theorem first_row_never_read (ds : dataset)
  (soup soup' table table' first first' : node) (rest : list node) :
  ds = Apps \/ ds = Banks \/ ds = States ->
  table_locator (marker ds) (find_all "table" soup) = Some table ->
  table_locator (marker ds) (find_all "table" soup') = Some table' ->
  find_all "tr" table = first :: rest ->
  find_all "tr" table' = first' :: rest ->
  extract ds soup = extract ds soup'.
Proof.
  intros [-> | [-> | ->]] L L' R R'; simpl in *.
  - now rewrite (extract_apps_located _ _ L), (extract_apps_located _ _ L'),
      R, R'.
  - now rewrite (extract_remitter_located _ _ L),
      (extract_remitter_located _ _ L'), R, R'.
  - now rewrite (extract_state_located _ _ L), (extract_state_located _ _ L'),
      R, R'.
Qed.

Lemma first_row_never_read_witness :
  extract Apps (page [Elem "table"
                        (apps_header :: map (tr_of "td") fx_apps_rows)])
  = extract Apps
      (page [Elem "table"
               (Elem "tr" [cell "th" "Application Name";
                           cell "td" "0"; cell "td" "Early";
                           cell "td" "1"; cell "td" "2"]
                :: map (tr_of "td") fx_apps_rows)]).
Proof.
  eapply (first_row_never_read Apps); [now left | reflexivity .. ].
Defined.

(** ** Three-cell rows of the apps table *)

(** X7: in a row of exactly three cells the apps extractor reads the volume
    from [cells[-2]], which is the cell it also takes the name from; such a
    row gives a record only when its name cell reads as a number, and is
    dropped otherwise. *)
Theorem three_cell_apps_row (row : node) :
  List.length (cell_texts row) = 3 ->
  cell_float (cell_texts row) (-2) = cell_float (cell_texts row) 1
  /\ cell_float (cell_texts row) (-1) = cell_float (cell_texts row) 2
  /\ apps_valid row
     = is_ok (cell_float (cell_texts row) 1)
       && is_ok (cell_float (cell_texts row) 2)
  /\ (is_ok (cell_float (cell_texts row) 1) = false ->
      forall acc, apps_row acc row = Ok acc).
Proof.
  intros H.
  assert (E2 : cell_float (cell_texts row) (-2)
               = cell_float (cell_texts row) 1).
  { destruct (cell_texts row) as [|a [|b [|c [|? ?]]]]; try discriminate.
    reflexivity. }
  assert (E1 : cell_float (cell_texts row) (-1)
               = cell_float (cell_texts row) 2).
  { destruct (cell_texts row) as [|a [|b [|c [|? ?]]]]; try discriminate.
    reflexivity. }
  assert (V : apps_valid row
              = is_ok (cell_float (cell_texts row) 1)
                && is_ok (cell_float (cell_texts row) 2)).
  { unfold apps_valid. rewrite H, E2, E1. reflexivity. }
  repeat split; auto.
  intros F acc.
  apply (loop_invalid_unchanged apps_row apps_valid apps_row_cases').
  rewrite V, F. reflexivity.
Qed.

Lemma three_cell_apps_row_witness :
  List.length (cell_texts (tr_of "td" ["1"; "PhonePe"; "8,000"])) = 3
  /\ apps_row [] (tr_of "td" ["1"; "PhonePe"; "8,000"]) = Ok [].
Proof.
  split; [reflexivity|].
  apply (three_cell_apps_row (tr_of "td" ["1"; "PhonePe"; "8,000"]) eq_refl).
  reflexivity.
Defined.

(** ** The snapshot that is written *)

Lemma stamped_get (parsed_data : pydict) (last_updated scraped_at k : string) :
  dict_get (stamped parsed_data last_updated scraped_at) k
  = if String.eqb k "scrapedAt" then Some (JStr scraped_at)
    else if String.eqb k "lastUpdated" then Some (JStr last_updated)
    else dict_get parsed_data k.
Proof.
  unfold stamped. now rewrite !dict_get_set.
Qed.

(** X8: what [scrape_all_data] writes and returns.  Without a page (the
    fetch failed or returned an empty body) it returns [False] and writes
    nothing.  With a page it returns [True] whatever the parser and the
    file system do; every file it writes is [latest.json] or the
    timestamped copy and holds the same dictionary: the parsed data with
    [lastUpdated] and [scrapedAt] set, every other key as [parse_tables]
    returned it.  When the parser raised, that dictionary holds the two
    timestamps and nothing else. *)
Theorem scrape_writes_stamped_snapshot (parse_html : string -> exc node)
  (io_ok : string -> bool) (last_updated scraped_at timestamp : string) :
  scrape_all_data None parse_html io_ok last_updated scraped_at timestamp
  = ([], false)
  /\ scrape_all_data (Some "") parse_html io_ok last_updated scraped_at
       timestamp
     = ([], false)
  /\ forall c rest,
       let html := String c rest in
       let r := scrape_all_data (Some html) parse_html io_ok last_updated
                  scraped_at timestamp in
       let data := stamped (parse_tables_html parse_html html) last_updated
                     scraped_at in
       snd r = true
       /\ (forall path d,
             In (WriteJson path d) (fst r) ->
             d = data
             /\ (path = "docs/data/latest.json"
                 \/ path = ("docs/data/historical_" ++ timestamp
                            ++ ".json")%string))
       /\ (io_ok "docs/data" = true ->
           io_ok "docs/data/latest.json" = true ->
           In (WriteJson "docs/data/latest.json" data) (fst r))
       /\ dict_get data "lastUpdated" = Some (JStr last_updated)
       /\ dict_get data "scrapedAt" = Some (JStr scraped_at)
       /\ (forall k, k <> "lastUpdated" -> k <> "scrapedAt" ->
             dict_get data k
             = dict_get (parse_tables_html parse_html html) k)
       /\ (forall soup, parse_html html = Ok soup ->
             forall ds k, In k (dataset_keys ds) ->
               dict_get data k = dict_get (extract ds soup) k)
       /\ (is_ok (parse_html html) = false ->
           data = [("lastUpdated", JStr last_updated);
                   ("scrapedAt", JStr scraped_at)]).
Proof.
  split; [reflexivity|]. split; [reflexivity|].
  intros c rest html r data.
  assert (G : forall k, k <> "lastUpdated" -> k <> "scrapedAt" ->
                dict_get data k
                = dict_get (parse_tables_html parse_html html) k).
  { intros k H1 H2. unfold data. rewrite stamped_get.
    apply String.eqb_neq in H1, H2. now rewrite H1, H2. }
  split; [reflexivity|]. split; [|split; [|split; [|split; [|split; [|split]]]]].
  - intros path d Hin. unfold r, scrape_all_data in Hin. simpl fst in Hin.
    fold html in Hin. fold data in Hin. unfold save_data in Hin.
    destruct (io_ok "docs/data"); [|destruct Hin].
    destruct (io_ok "docs/data/latest.json"); [|destruct Hin].
    destruct Hin as [Hin | Hin].
    + inversion Hin. auto.
    + destruct (io_ok _); [|destruct Hin].
      destruct Hin as [Hin | []]. inversion Hin. auto.
  - intros H1 H2. unfold r, scrape_all_data. simpl fst.
    fold html. fold data. unfold save_data. rewrite H1, H2. now left.
  - unfold data. now rewrite stamped_get.
  - unfold data. now rewrite stamped_get.
  - exact G.
  - intros soup Hs ds k Hk.
    rewrite G.
    + unfold parse_tables_html. rewrite Hs. simpl.
      now apply merged_value_is_own.
    + intros ->. destruct ds; simpl in Hk;
        repeat (destruct Hk as [Hk | Hk]; [discriminate|]); destruct Hk.
    + intros ->. destruct ds; simpl in Hk;
        repeat (destruct Hk as [Hk | Hk]; [discriminate|]); destruct Hk.
  - intros F. unfold data, parse_tables_html.
    destruct (parse_html html); [discriminate | reflexivity].
Qed.

(** ** From the scraped page to the period key *)

Lemma p2p_located (soup table : node) :
  table_locator p2p_marker (find_all "table" soup) = Some table ->
  extract_p2p_p2m_data soup
  = match find p2p_valid (find_all "tr" table) with
    | Some row =>
        match p2p_row row with Ok (Some d) => d | _ => [] end
    | None => []
    end.
Proof.
  intros L. unfold extract_p2p_p2m_data.
  rewrite p2p_tables_locate, L. unfold p2p_table.
  rewrite p2p_rows_first_valid.
  destruct (find p2p_valid _) as [row|]; [|reflexivity].
  destruct (p2p_row_cases row) as [[_ [d [_ H]]] | [_ H]]; now rewrite H.
Qed.

Lemma p2p_row_month (row : node) (c : string) :
  p2p_valid row = true -> getitem (cell_texts row) 0 = Ok c ->
  exists d, p2p_row row = Ok (Some d)
            /\ dict_get d "month" = Some (JStr (strip c)).
Proof.
  intros V Hc. unfold p2p_valid in V. unfold p2p_row, p2p_try.
  set (cells := cell_texts row) in *.
  repeat (apply andb_true_iff in V as [V ?]).
  apply Nat.leb_le in V.
  destruct (6 <=? List.length cells) eqn:E;
    [|apply Nat.leb_gt in E; lia].
  rewrite Hc. simpl bind at 1.
  repeat match goal with
    | H : is_ok (cell_float ?cs ?i) = true |- _ =>
        destruct (cell_float cs i); [clear H | discriminate H]
    end.
  simpl. eexists. split; reflexivity.
Qed.

(** X9: the period key of a scraped snapshot.  The history merge files the
    snapshot written for a page under the text of the first cell of the
    first valid row of the monthly table, stripped, and under the run date
    when the monthly extractor found nothing; that text is not checked when
    it is scraped, so a label that is not in the form [%b-%y] makes the
    merge fail on any store. *)
Theorem scraped_month_key (soup : node) (last_updated scraped_at : string)
  (now : datetime) :
  let latest_data := JDict (stamped (parse_tables soup) last_updated
                              scraped_at) in
  (extract_p2p_p2m_data soup = [] ->
   current_month_of latest_data now = Ok (strftime_b_y now))
  /\ (forall table row c,
        table_locator p2p_marker (find_all "table" soup) = Some table ->
        find p2p_valid (find_all "tr" table) = Some row ->
        getitem (cell_texts row) 0 = Ok c ->
        current_month_of latest_data now = Ok (strip c)
        /\ (is_ok (strptime_b_y (strip c)) = false ->
            forall historical_data,
              process_and_update_dashboard latest_data historical_data now
              = mk_run [] false)).
Proof.
  intros latest_data.
  assert (G : dict_get (stamped (parse_tables soup) last_updated scraped_at)
                "month"
              = dict_get (extract_p2p_p2m_data soup) "month").
  { rewrite stamped_get. simpl.
    apply (merged_value_is_own soup Monthly "month"). simpl. auto. }
  split.
  - intros E. unfold latest_data. simpl. rewrite G, E. reflexivity.
  - intros table row c L F Hc.
    apply find_some in F as F'. destruct F' as [_ V].
    destruct (p2p_row_month row c V Hc) as [d [Hd Hm]].
    assert (C : current_month_of latest_data now = Ok (strip c)).
    { unfold latest_data. simpl. rewrite G.
      rewrite (p2p_located soup table L), F, Hd, Hm. reflexivity. }
    split; [exact C|].
    intros P historical_data.
    unfold process_and_update_dashboard, merge_history.
    rewrite C. cbn [bind].
    pose proof (keep_recent_fails
                  (dict_set historical_data (strip c) latest_data) (strip c)
                  (dict_set_has_key _ _ _) P) as X.
    destruct (keep_recent _); [discriminate | reflexivity].
Qed.

Lemma scraped_month_key_witness :
  current_month_of (JDict (stamped (parse_tables fx_p2p_page) "t1" "t2"))
    fx_now
  = Ok "Feb-24"
  /\ current_month_of (JDict (stamped (parse_tables fx_apps_page) "t1" "t2"))
       fx_now
     = Ok "Feb-26".
Proof.
  split.
  - apply (proj2 (scraped_month_key fx_p2p_page "t1" "t2" fx_now)
             fx_p2p_table
             (tr_of "td" ["Feb-24"; "12,100.5"; "18,200"; "5,100"; "13,100";
                          "7,000.5"; "5,100"])
             "Feb-24"); reflexivity.
  - apply (proj1 (scraped_month_key fx_apps_page "t1" "t2" fx_now)).
    reflexivity.
Defined.

(** ** The order of file names *)

Lemma ascii_compare_refl (a : ascii) : Ascii.compare a a = Eq.
Proof. unfold Ascii.compare. apply N.compare_refl. Qed.

Lemma str_compare_refl (s : string) : String.compare s s = Eq.
Proof.
  induction s as [|a s IH]; simpl; [reflexivity|].
  now rewrite ascii_compare_refl.
Qed.

Lemma str_compare_lt_trans (a b c : string) :
  String.compare a b = Lt -> String.compare b c = Lt ->
  String.compare a c = Lt.
Proof.
  revert b c. induction a as [|x a IH]; intros [|y b] [|z c]; simpl;
    try discriminate; try reflexivity.
  unfold Ascii.compare.
  destruct (N.compare_spec (N_of_ascii x) (N_of_ascii y)) as [E1|L1|G1];
    destruct (N.compare_spec (N_of_ascii y) (N_of_ascii z)) as [E2|L2|G2];
    try discriminate; intros H1 H2.
  - rewrite E1, E2, N.compare_refl. eapply IH; eauto.
  - rewrite E1. now apply N.compare_lt_iff in L2 as ->.
  - rewrite <- E2. now apply N.compare_lt_iff in L1 as ->.
  - assert (L : (N_of_ascii x < N_of_ascii z)%N) by lia.
    now apply N.compare_lt_iff in L as ->.
Qed.

(** [a >= b] on strings. *)
Lemma str_ge_trans (a b c : string) :
  String.ltb a b = false -> String.ltb b c = false -> String.ltb a c = false.
Proof.
  unfold String.ltb. intros H1 H2.
  destruct (String.compare a c) eqn:E; try reflexivity.
  exfalso.
  destruct (String.compare a b) eqn:E1; try discriminate.
  - apply String.compare_eq_iff in E1. subst b. now rewrite E in H2.
  - assert (Lba : String.compare b a = Lt).
    { rewrite String.compare_antisym, E1. reflexivity. }
    pose proof (str_compare_lt_trans _ _ _ Lba E) as X.
    now rewrite X in H2.
Qed.

Lemma str_ltb_asym (a b : string) :
  String.ltb a b = true -> String.ltb b a = false.
Proof.
  unfold String.ltb. rewrite (String.compare_antisym a b).
  destruct (String.compare b a); simpl; try discriminate. reflexivity.
Qed.

Lemma insert_desc_str_perm (x : string) (l : list string) :
  Permutation (insert_desc_str x l) (x :: l).
Proof.
  induction l as [|y l IH]; simpl; [reflexivity|].
  destruct (String.ltb x y); [|reflexivity].
  rewrite IH. apply perm_swap.
Qed.

Lemma sort_desc_str_perm (l : list string) :
  Permutation (sort_desc_str l) l.
Proof.
  induction l as [|x l IH]; simpl; [reflexivity|].
  rewrite insert_desc_str_perm. now constructor.
Qed.

Lemma insert_desc_str_sorted (x : string) (l : list string) :
  StronglySorted (fun a b => String.ltb a b = false) l ->
  StronglySorted (fun a b => String.ltb a b = false) (insert_desc_str x l).
Proof.
  induction 1 as [|y l S IH F]; simpl.
  - repeat constructor.
  - destruct (String.ltb x y) eqn:E.
    + constructor; [exact IH|].
      apply Forall_forall. intros z Hz.
      apply (Permutation_in _ (insert_desc_str_perm x l)) in Hz.
      destruct Hz as [<- | Hz].
      * now apply str_ltb_asym.
      * rewrite Forall_forall in F. now apply F.
    + constructor; [now constructor|].
      constructor; [exact E|].
      apply Forall_forall. intros z Hz.
      rewrite Forall_forall in F. specialize (F z Hz).
      now apply str_ge_trans with (b := y).
Qed.

Lemma sort_desc_str_sorted (l : list string) :
  StronglySorted (fun a b => String.ltb a b = false) (sort_desc_str l).
Proof.
  induction l as [|x l IH]; simpl; [constructor|].
  now apply insert_desc_str_sorted.
Qed.

Lemma remove_files_all (can_remove : string -> bool) (files : list string) :
  (forall f, In f files -> can_remove f = true) ->
  remove_files can_remove files = files.
Proof.
  induction files as [|f files IH]; simpl; intros H; [reflexivity|].
  rewrite (H f) by now left. f_equal. apply IH. intros g Hg. apply H.
  now right.
Qed.

(** X10: what [cleanup_old_files] removes when every removal goes through.
    The files split into those kept and those removed; ten are kept, or all
    of them when there are fewer; no removed name sorts after a kept one. *)
Theorem cleanup_keeps_ten_greatest (historical_files : list string)
  (can_remove : string -> bool) :
  (forall f, In f historical_files -> can_remove f = true) ->
  exists kept,
    Permutation (kept ++ cleanup_old_files historical_files can_remove)
      historical_files
    /\ List.length kept = Nat.min 10 (List.length historical_files)
    /\ List.length (cleanup_old_files historical_files can_remove)
       = List.length historical_files - 10
    /\ (forall k r,
          In k kept ->
          In r (cleanup_old_files historical_files can_remove) ->
          String.ltb k r = false).
Proof.
  intros H. unfold cleanup_old_files.
  set (sorted := sort_desc_str historical_files).
  assert (P : Permutation sorted historical_files)
    by apply sort_desc_str_perm.
  rewrite remove_files_all.
  2:{ intros f Hf. apply H. apply (Permutation_in _ P).
      rewrite <- (firstn_skipn 10 sorted). apply in_or_app. now right. }
  exists (firstn 10 sorted).
  split; [now rewrite firstn_skipn|].
  split; [now rewrite length_firstn, (Permutation_length P)|].
  split; [now rewrite length_skipn, (Permutation_length P)|].
  pose proof (sort_desc_str_sorted historical_files) as S. fold sorted in S.
  rewrite <- (firstn_skipn 10 sorted) in S.
  destruct (sorted_app_inv _ _ _ S) as [_ [_ O]].
  intros k r Hk Hr. now apply O.
Qed.

Lemma cleanup_keeps_ten_greatest_witness :
  exists kept : list string,
    List.length kept = 10
    /\ List.length
         (cleanup_old_files
            ["h_03"; "h_11"; "h_01"; "h_07"; "h_05"; "h_09"; "h_02"; "h_12";
             "h_04"; "h_10"; "h_06"; "h_08"]
            (fun _ => true))
       = 2.
Proof.
  destruct (cleanup_keeps_ten_greatest
              ["h_03"; "h_11"; "h_01"; "h_07"; "h_05"; "h_09"; "h_02";
               "h_12"; "h_04"; "h_10"; "h_06"; "h_08"]
              (fun _ => true) (fun _ _ => eq_refl)) as [kept [_ [L [R _]]]].
  exists kept. split; [exact L | exact R].
Defined.

(** X11: a removal that fails ends the clean-up: the files that sort after
    the one that could not be removed stay, whether they could be removed
    or not. *)
Theorem cleanup_stops_at_first_failure (historical_files : list string)
  (can_remove : string -> bool) (kept before after : list string)
  (stuck : string) :
  sort_desc_str historical_files = kept ++ before ++ stuck :: after ->
  List.length kept = 10 ->
  (forall f, In f before -> can_remove f = true) ->
  can_remove stuck = false ->
  cleanup_old_files historical_files can_remove = before.
Proof.
  intros S L B F. unfold cleanup_old_files. rewrite S.
  rewrite skipn_app, L, Nat.sub_diag, skipn_all2 by lia. simpl.
  clear S. induction before as [|f before IH]; simpl.
  - now rewrite F.
  - rewrite (B f) by now left. f_equal. apply IH.
    intros g Hg. apply B. now right.
Qed.

Lemma cleanup_stops_witness :
  cleanup_old_files
    ["h_03"; "h_11"; "h_01"; "h_07"; "h_05"; "h_09"; "h_02"; "h_12";
     "h_04"; "h_10"; "h_06"; "h_08"]
    (fun f => negb (String.eqb f "h_02"))
  = [].
Proof.
  apply (cleanup_stops_at_first_failure _ _
           ["h_12"; "h_11"; "h_10"; "h_09"; "h_08"; "h_07"; "h_06"; "h_05";
            "h_04"; "h_03"] [] ["h_01"] "h_02");
    [reflexivity | reflexivity | intros f [] | reflexivity].
Defined.

Lemma digit_char_compare (x y : nat) :
  x < 10 -> y < 10 ->
  Ascii.compare (digit_char x) (digit_char y) = Nat.compare x y.
Proof.
  intros Hx Hy.
  do 10 (destruct x as [|x];
         [do 10 (destruct y as [|y]; [reflexivity|]); lia|]).
  lia.
Qed.

Lemma str_compare_cons (c d : ascii) (s t : string) :
  String.compare (String c s) (String d t)
  = match Ascii.compare c d with
    | Eq => String.compare s t
    | Lt => Lt
    | Gt => Gt
    end.
Proof. reflexivity. Qed.

Lemma digits2_compare (a b : nat) (s t : string) :
  a < 100 -> b < 100 ->
  String.compare (digits2 a s) (digits2 b t)
  = match Nat.compare a b with
    | Eq => String.compare s t
    | c => c
    end.
Proof.
  intros Ha Hb. unfold digits2. rewrite !str_compare_cons.
  rewrite !digit_char_compare
    by (try apply Nat.mod_upper_bound; try apply Nat.Div0.div_lt_upper_bound;
        lia).
  pose proof (Nat.div_mod_eq a 10) as Da.
  pose proof (Nat.div_mod_eq b 10) as Db.
  pose proof (Nat.mod_upper_bound a 10 ltac:(lia)) as Ma.
  pose proof (Nat.mod_upper_bound b 10 ltac:(lia)) as Mb.
  destruct (Nat.compare_spec (a / 10) (b / 10));
    destruct (Nat.compare_spec (a mod 10) (b mod 10));
    destruct (Nat.compare_spec a b); try reflexivity; lia.
Qed.

Lemma year_compare (y y' : nat) (X : comparison) :
  match Nat.compare (y / 100) (y' / 100) with
  | Eq => match Nat.compare (y mod 100) (y' mod 100) with
          | Eq => X
          | c => c
          end
  | c => c
  end
  = match Nat.compare y y' with
    | Eq => X
    | c => c
    end.
Proof.
  pose proof (Nat.div_mod_eq y 100) as Da.
  pose proof (Nat.div_mod_eq y' 100) as Db.
  pose proof (Nat.mod_upper_bound y 100 ltac:(lia)) as Ma.
  pose proof (Nat.mod_upper_bound y' 100 ltac:(lia)) as Mb.
  destruct (Nat.compare_spec (y / 100) (y' / 100));
    destruct (Nat.compare_spec (y mod 100) (y' mod 100));
    destruct (Nat.compare_spec y y'); try reflexivity; lia.
Qed.

Lemma str_compare_app_prefix (p a b : string) :
  String.compare (p ++ a) (p ++ b) = String.compare a b.
Proof.
  induction p as [|c p IH]; simpl; [reflexivity|].
  now rewrite ascii_compare_refl.
Qed.

Lemma digits2_app (a : nat) (rest suffix : string) :
  (digits2 a rest ++ suffix)%string = digits2 a (rest ++ suffix).
Proof. reflexivity. Qed.

(** X12: the names of the timestamped snapshot files sort as the times they
    were written: for two run times with a four-digit year, the paths
    [docs/data/historical_%Y%m%d_%H%M%S.json] compare as strings exactly as
    the times compare, so the ten names that sort last are the ten newest
    snapshots and two runs share a file only within the same second. *)
Theorem snapshot_names_sort_by_time (t1 t2 : timestamp) :
  ts_in_range t1 -> ts_in_range t2 ->
  String.compare (historical_path t1) (historical_path t2)
  = ts_compare t1 t2
  /\ String.ltb (historical_path t1) (historical_path t2)
     = match ts_compare t1 t2 with Lt => true | _ => false end
  /\ (historical_path t1 = historical_path t2 -> ts_compare t1 t2 = Eq).
Proof.
  intros [Y1 [M1 [D1 [H1 [Mi1 S1]]]]] [Y2 [M2 [D2 [H2 [Mi2 S2]]]]].
  assert (C : String.compare (historical_path t1) (historical_path t2)
              = ts_compare t1 t2).
  { unfold historical_path, strftime_stamp.
    rewrite str_compare_app_prefix.
    rewrite !digits2_app.
    change (String "_" (digits2 (ts_hour t1)
              (digits2 (ts_minute t1) (digits2 (ts_second t1) "")))
            ++ ".json")%string
      with (String "_" (digits2 (ts_hour t1)
              (digits2 (ts_minute t1) (digits2 (ts_second t1) ""))
            ++ ".json"))%string.
    change (String "_" (digits2 (ts_hour t2)
              (digits2 (ts_minute t2) (digits2 (ts_second t2) "")))
            ++ ".json")%string
      with (String "_" (digits2 (ts_hour t2)
              (digits2 (ts_minute t2) (digits2 (ts_second t2) ""))
            ++ ".json"))%string.
    rewrite !digits2_app.
    assert (R1 : ts_year t1 mod 100 < 100)
      by (apply Nat.mod_upper_bound; lia).
    assert (R2 : ts_year t2 mod 100 < 100)
      by (apply Nat.mod_upper_bound; lia).
    rewrite (digits2_compare (ts_year t1 / 100) (ts_year t2 / 100)) by lia.
    rewrite (digits2_compare (ts_year t1 mod 100) (ts_year t2 mod 100))
      by lia.
    rewrite (digits2_compare (ts_month t1) (ts_month t2)) by lia.
    rewrite (digits2_compare (ts_day t1) (ts_day t2)) by lia.
    rewrite str_compare_cons.
    change (Ascii.compare "_" "_") with Eq. cbv iota.
    rewrite (digits2_compare (ts_hour t1) (ts_hour t2)) by lia.
    rewrite (digits2_compare (ts_minute t1) (ts_minute t2)) by lia.
    rewrite (digits2_compare (ts_second t1) (ts_second t2)) by lia.
    rewrite year_compare.
    rewrite str_compare_refl.
    unfold ts_compare, ts_fields. cbn [compare_fields].
    repeat match goal with
      | |- context [Nat.compare ?a ?b] => destruct (Nat.compare a b)
      end; reflexivity. }
  split; [exact C|]. split.
  - unfold String.ltb. now rewrite C.
  - intros E. rewrite <- C, E. apply str_compare_refl.
Qed.

Lemma snapshot_names_witness :
  String.ltb
    (historical_path (mk_timestamp 2025 12 31 23 59 59))
    (historical_path (mk_timestamp 2026 1 1 0 0 0))
  = true.
Proof.
  assert (R1 : ts_in_range (mk_timestamp 2025 12 31 23 59 59)).
  { unfold ts_in_range. simpl. repeat split; lia. }
  assert (R2 : ts_in_range (mk_timestamp 2026 1 1 0 0 0)).
  { unfold ts_in_range. simpl. repeat split; lia. }
  rewrite (proj1 (proj2 (snapshot_names_sort_by_time _ _ R1 R2))).
  reflexivity.
Defined.

(** ** The historical store as a script *)

Lemma str_length_app (a b : string) :
  String.length (a ++ b) = String.length a + String.length b.
Proof. induction a as [|c a IH]; simpl; [reflexivity | now rewrite IH]. Qed.

Lemma str_app_assoc (a b c : string) :
  ((a ++ b) ++ c)%string = (a ++ (b ++ c))%string.
Proof. induction a as [|x a IH]; simpl; [reflexivity | now rewrite IH]. Qed.

Lemma str_app_nil_r (a : string) : (a ++ "")%string = a.
Proof. induction a as [|x a IH]; simpl; [reflexivity | now rewrite IH]. Qed.

Lemma has_char_app (c : ascii) (a b : string) :
  has_char c (a ++ b) = has_char c a || has_char c b.
Proof.
  unfold has_char. induction a as [|x a IH]; simpl; [reflexivity|].
  now rewrite IH, orb_assoc.
Qed.

Lemma has_char_cons (c x : ascii) (s : string) :
  has_char c (String x s) = Ascii.eqb c x || has_char c s.
Proof. reflexivity. Qed.

Lemma substring_zero (s : string) : substring 0 0 s = EmptyString.
Proof. now destruct s. Qed.

Lemma substring_prefix (b c : string) :
  substring 0 (String.length b) (b ++ c) = b.
Proof.
  induction b as [|x b IH]; simpl; [apply substring_zero | now rewrite IH].
Qed.

Lemma substring_middle (a b c : string) :
  substring (String.length a) (String.length b) (a ++ b ++ c) = b.
Proof.
  induction a as [|x a IH]; simpl; [apply substring_prefix | exact IH].
Qed.

Lemma py_find_from_first (c : ascii) (pre s : string) (i : Z) :
  has_char c pre = false ->
  py_find_from c (pre ++ String c s) i = (i + Z.of_nat (String.length pre))%Z.
Proof.
  revert i. induction pre as [|x pre IH]; intros i H; simpl.
  - rewrite Ascii.eqb_refl. lia.
  - rewrite has_char_cons in H. apply orb_false_iff in H as [H1 H2].
    rewrite Ascii.eqb_sym, H1. rewrite IH by exact H2. lia.
Qed.

Lemma py_find_from_none (c : ascii) (s : string) (i : Z) :
  has_char c s = false -> py_find_from c s i = (-1)%Z.
Proof.
  revert i. induction s as [|x s IH]; intros i H; simpl; [reflexivity|].
  rewrite has_char_cons in H. apply orb_false_iff in H as [H1 H2].
  rewrite Ascii.eqb_sym, H1. now apply IH.
Qed.

Lemma py_rfind_from_none (c : ascii) (s : string) (i : Z) :
  has_char c s = false -> py_rfind_from c s i = (-1)%Z.
Proof.
  revert i. induction s as [|x s IH]; intros i H; simpl; [reflexivity|].
  rewrite has_char_cons in H. apply orb_false_iff in H as [H1 H2].
  rewrite IH by exact H2. simpl. now rewrite Ascii.eqb_sym, H1.
Qed.

Lemma py_rfind_from_last (c : ascii) (s post : string) (i : Z) :
  (0 <= i)%Z -> has_char c post = false ->
  py_rfind_from c (s ++ String c post) i
  = (i + Z.of_nat (String.length s))%Z.
Proof.
  revert i. induction s as [|x s IH]; intros i Hi H; simpl.
  - rewrite py_rfind_from_none by exact H. simpl.
    rewrite Ascii.eqb_refl. lia.
  - rewrite IH by (try lia; exact H).
    destruct (0 <=? i + 1 + Z.of_nat (String.length s))%Z eqn:E;
      [lia | apply Z.leb_gt in E; lia].
Qed.

(** Where [rfind] points there is the character. *)
Lemma py_rfind_from_char (c : ascii) (s : string) (i r : Z) :
  (0 <= i)%Z -> py_rfind_from c s i = r -> (0 <= r)%Z ->
  exists k, r = (i + Z.of_nat k)%Z /\ k < String.length s
            /\ substring k 1 s = String c EmptyString.
Proof.
  revert i r. induction s as [|x s IH]; intros i r Hi H Hr; simpl in H.
  - lia.
  - destruct (0 <=? py_rfind_from c s (i + 1))%Z eqn:E.
    + apply Z.leb_le in E.
      destruct (IH (i + 1)%Z r ltac:(lia) H Hr) as [k [Hk [Lk Sk]]].
      exists (S k). simpl. repeat split; [lia | lia | exact Sk].
    + destruct (Ascii.eqb x c) eqn:Ex; [|lia].
      apply Ascii.eqb_eq in Ex. subst x.
      exists 0. simpl. rewrite substring_zero. repeat split; lia.
Qed.

Lemma py_rfind_from_bound (c : ascii) (s : string) (i : Z) :
  (0 <= i)%Z ->
  (py_rfind_from c s i < i + Z.of_nat (String.length s))%Z
  \/ (py_rfind_from c s i = -1)%Z.
Proof.
  revert i. induction s as [|x s IH]; intros i Hi; [now right|].
  simpl py_rfind_from.
  destruct (0 <=? py_rfind_from c s (i + 1))%Z eqn:E.
  - apply Z.leb_le in E. left.
    destruct (IH (i + 1)%Z ltac:(lia)) as [H | H];
      [simpl String.length; lia | lia].
  - destruct (Ascii.eqb x c); [left; simpl String.length; lia | now right].
Qed.

Lemma substring_last (s : string) (k : nat) (c : ascii) :
  S k = String.length s -> substring k 1 s = String c EmptyString ->
  substring k (String.length s - k) s = String c EmptyString.
Proof.
  intros H E. replace (String.length s - k) with 1 by lia. exact E.
Qed.

Lemma slice_index_in_range (len i : Z) :
  (0 <= i <= len)%Z -> slice_index len i = i.
Proof.
  intros H. unfold slice_index.
  destruct (i <? 0)%Z eqn:E; [apply Z.ltb_lt in E; lia|].
  rewrite E. destruct (len <? i)%Z eqn:E'; [apply Z.ltb_lt in E'; lia|].
  reflexivity.
Qed.

Lemma json_str_span (pre mid post : string) :
  has_char "{" pre = false -> has_char "}" post = false ->
  json_str_of (pre ++ String "{" (mid ++ String "}" post))
  = String "{" (mid ++ String "}" EmptyString).
Proof.
  intros Hpre Hpost. unfold json_str_of, py_find, py_rfind.
  rewrite py_find_from_first by exact Hpre.
  replace (pre ++ String "{" (mid ++ String "}" post))%string
    with ((pre ++ String "{" mid) ++ String "}" post)%string
    by (rewrite str_app_assoc; reflexivity).
  rewrite py_rfind_from_last by (try lia; exact Hpost).
  unfold py_slice.
  rewrite !str_length_app. simpl String.length.
  set (p := String.length pre). set (m := String.length mid).
  set (q := String.length post).
  rewrite !slice_index_in_range by lia.
  replace (Z.to_nat (0 + Z.of_nat p)) with p by lia.
  replace (Z.to_nat (0 + Z.of_nat (p + S m) + 1 - (0 + Z.of_nat p)))
    with (S (m + 1)) by lia.
  rewrite str_app_assoc.
  replace (String "{" mid ++ String "}" post)%string
    with (String "{" (mid ++ String "}" EmptyString) ++ post)%string
    by (simpl; rewrite str_app_assoc; reflexivity).
  replace (S (m + 1))
    with (String.length (String "{" (mid ++ String "}" EmptyString)))
    by (simpl; rewrite str_length_app; simpl; unfold m; lia).
  apply substring_middle.
Qed.

(** X13: what [load_historical_data] hands to the JSON parser.  For a file
    with an opening brace and a closing brace after it, that is the text
    from the first opening brace to the last closing brace, both included,
    whatever stands before, between and after; the store is what the parser
    makes of that text, and the empty dictionary when the parser raises. *)
Theorem load_reads_first_to_last_brace (json_loads : string -> exc json)
  (pre mid post : string) :
  has_char "{" pre = false -> has_char "}" post = false ->
  json_str_of (pre ++ String "{" (mid ++ String "}" post))
  = String "{" (mid ++ String "}" EmptyString)
  /\ load_historical_data json_loads
       (Some (pre ++ String "{" (mid ++ String "}" post))%string)
     = except_exception
         (json_loads (String "{" (mid ++ String "}" EmptyString)))
         (JDict []).
Proof.
  intros Hpre Hpost. split; [now apply json_str_span|].
  unfold load_historical_data. now rewrite json_str_span.
Qed.

Lemma load_reads_witness :
  json_str_of "const data = {'a': {'b': 1}}; // end"
  = "{'a': {'b': 1}}".
Proof.
  apply (proj1 (load_reads_first_to_last_brace (fun _ => Raise ValueError)
                  "const data = " "'a': {'b': 1}" "; // end"
                  eq_refl eq_refl)).
Defined.

Lemma script_tail_ends_with_brace :
  exists init, script_tail = (init ++ String "}" EmptyString)%string
               /\ init <> EmptyString.
Proof.
  eexists. split.
  - unfold script_tail.
    repeat rewrite <- str_app_assoc. reflexivity.
  - unfold nl. simpl. discriminate.
Qed.

(** X14: reading back what [save_historical_data] wrote.  The script ends
    with the closing brace of its export block, so for a dumped object and a
    timestamp without brace the text handed to the JSON parser is the dumped
    object followed by the rest of the script, from the semicolon to that
    last brace, and not the dumped object alone. *)
Theorem load_of_saved_script (json_loads : string -> exc json)
  (now_iso rest : string) :
  has_char "{" now_iso = false ->
  let dumped := String "{" rest in
  json_str_of (js_content now_iso dumped) = (dumped ++ script_tail)%string
  /\ load_historical_data json_loads (Some (js_content now_iso dumped))
     = except_exception (json_loads (dumped ++ script_tail)%string)
         (JDict [])
  /\ json_str_of (js_content now_iso dumped) <> dumped.
Proof.
  intros Hiso dumped.
  destruct script_tail_ends_with_brace as [init [Ht Hi]].
  assert (E : json_str_of (js_content now_iso dumped)
              = (dumped ++ script_tail)%string).
  { unfold js_content, dumped.
    set (pre := ("// Auto-generated historical UPI data" ++ nl
                 ++ "// Last updated: " ++ now_iso ++ nl ++ nl
                 ++ "const historicalUPIData = ")%string).
    replace ("// Auto-generated historical UPI data" ++ nl
             ++ "// Last updated: " ++ now_iso ++ nl ++ nl
             ++ "const historicalUPIData = " ++ String "{" rest
             ++ script_tail)%string
      with (pre ++ String "{" ((rest ++ init) ++ String "}" EmptyString))%string.
    2:{ unfold pre. rewrite Ht. rewrite !str_app_assoc. simpl.
        rewrite ?str_app_assoc. reflexivity. }
    rewrite json_str_span.
    - rewrite Ht. simpl. now rewrite str_app_assoc.
    - unfold pre. rewrite !has_char_app, Hiso. reflexivity.
    - reflexivity. }
  split; [exact E|]. split.
  - unfold load_historical_data. now rewrite E.
  - rewrite E. intros H.
    assert (L : String.length (dumped ++ script_tail)
                = String.length dumped) by now rewrite H.
    rewrite str_length_app in L.
    assert (0 < String.length script_tail) by (vm_compute; lia).
    lia.
Qed.

Lemma load_of_saved_script_witness :
  json_str_of (js_content "2026-02-01T10:00:00.000001" "{}")
  = ("{}" ++ script_tail)%string.
Proof.
  apply (proj1 (load_of_saved_script (fun _ => Raise ValueError)
                  "2026-02-01T10:00:00.000001" "}" eq_refl)).
Defined.

Lemma slice_index_minus_one (len : Z) :
  (0 <= len)%Z -> slice_index len (-1) = Z.max 0 (len - 1).
Proof.
  intros H. unfold slice_index.
  change (-1 <? 0)%Z with true. cbv iota.
  destruct (Z.ltb_spec (-1 + len) 0); [lia|].
  destruct (Z.ltb_spec len (-1 + len)); lia.
Qed.

Lemma py_rfind_from_lower (c : ascii) (s : string) (i : Z) :
  (0 <= i)%Z -> (-1 <= py_rfind_from c s i)%Z.
Proof.
  revert i. induction s as [|x s IH]; intros i Hi; simpl; [lia|].
  destruct (0 <=? py_rfind_from c s (i + 1))%Z eqn:E.
  - apply Z.leb_le in E. lia.
  - destruct (Ascii.eqb x c); lia.
Qed.

Lemma substring_empty (n : nat) (s : string) :
  substring n 0 s = EmptyString.
Proof.
  revert s. induction n as [|n IH]; intros [|c s]; simpl; auto.
Qed.

(** X15: a file without any opening brace.  The text handed to the JSON
    parser is then empty, or the single closing brace that ends the file. *)
Theorem load_without_opening_brace (content : string) :
  has_char "{" content = false ->
  json_str_of content = EmptyString
  \/ json_str_of content = String "}" EmptyString.
Proof.
  intros H. unfold json_str_of, py_find, py_rfind.
  rewrite py_find_from_none by exact H.
  unfold py_slice.
  set (len := String.length content).
  set (r := py_rfind_from "}" content 0).
  assert (A : slice_index (Z.of_nat len) (-1)
              = Z.max 0 (Z.of_nat len - 1)).
  { apply slice_index_minus_one. lia. }
  assert (R : (-1 <= r)%Z /\ ((r < Z.of_nat len)%Z \/ r = (-1)%Z)).
  { unfold r, len. split.
    - apply py_rfind_from_lower. lia.
    - apply (py_rfind_from_bound "}" content 0). lia. }
  assert (Bq : slice_index (Z.of_nat len) (r + 1) = (r + 1)%Z)
    by (apply slice_index_in_range; lia).
  rewrite A, Bq.
  destruct (Z.eq_dec r (Z.of_nat len - 1)) as [E | E].
  - destruct (Z.ltb_spec r 0) as [Hr | Hr].
    + left. replace (Z.to_nat (r + 1 - Z.max 0 (Z.of_nat len - 1))) with 0
        by lia.
      apply substring_empty.
    + right.
      destruct (py_rfind_from_char "}" content 0 r ltac:(lia) eq_refl Hr)
        as [k [Hk [Lk Sk]]].
      replace (Z.to_nat (Z.max 0 (Z.of_nat len - 1))) with k by lia.
      replace (Z.to_nat (r + 1 - Z.max 0 (Z.of_nat len - 1))) with 1 by lia.
      exact Sk.
  - left. replace (Z.to_nat (r + 1 - Z.max 0 (Z.of_nat len - 1))) with 0
      by lia.
    apply substring_empty.
Qed.

Lemma load_without_opening_brace_witness :
  json_str_of "var x = 1; }" = "}".
Proof.
  destruct (load_without_opening_brace "var x = 1; }" eq_refl) as [H | H].
  - vm_compute in H. discriminate.
  - exact H.
Defined.

(** ** Two keys for one period *)

(** X16: period keys are told apart as strings and compared as dates only
    in the sort.  A snapshot whose key spells a period already in the store
    differently (another letter case of the month) does not overwrite that
    entry: as long as there is room, the saved store holds both keys, and
    the old entry with its old value. *)
Theorem same_period_second_entry (latest_data : json)
  (historical_data : pydict) (now : datetime) (month old_key : string)
  (old_value : json) :
  current_month_of latest_data now = Ok month ->
  NoDup (keys historical_data) ->
  (forall k, In k (keys historical_data) -> is_ok (strptime_b_y k) = true) ->
  In (old_key, old_value) historical_data ->
  strptime_b_y month = strptime_b_y old_key ->
  month <> old_key ->
  ~ In month (keys historical_data) ->
  List.length historical_data < 24 ->
  exists recent,
    merge_history latest_data historical_data now = Ok recent
    /\ List.length recent = S (List.length historical_data)
    /\ In (month, latest_data) recent
    /\ In (old_key, old_value) recent.
Proof.
  intros Hm N P Hold Same Hne Hnew L.
  pose proof (dict_set_new historical_data month latest_data Hnew) as E.
  assert (Ns : NoDup (keys (dict_set historical_data month latest_data)))
    by now apply dict_set_keys_nodup.
  assert (Pm : is_ok (strptime_b_y month) = true).
  { rewrite Same. apply P. unfold keys.
    change old_key with (fst (old_key, old_value)). now apply in_map. }
  destruct (keep_recent_small _ Ns) as [recent [KR [Lr [_ I]]]].
  - intros k Hk. apply dict_set_keys in Hk as [-> | Hk]; auto.
  - rewrite E, length_app. simpl. lia.
  - exists recent. split; [|split; [|split]].
    + unfold merge_history. rewrite Hm. cbn [bind]. exact KR.
    + rewrite Lr, E, length_app. simpl. lia.
    + apply I. rewrite E. apply in_or_app. right. now left.
    + apply I. rewrite E. apply in_or_app. now left.
Qed.

Lemma same_period_second_entry_witness :
  exists recent,
    merge_history (JDict [("month", JStr "JAN-24")]) (firstn 3 fx_store)
      fx_now
    = Ok recent
    /\ List.length recent = 4.
Proof.
  assert (D : forall (k : string) (ks : list string),
             forallb (fun k' => negb (String.eqb k k')) ks = true ->
             ~ In k ks).
  { intros k ks H Hin. rewrite forallb_forall in H.
    specialize (H k Hin). now rewrite String.eqb_refl in H. }
  assert (N : NoDup (keys (firstn 3 fx_store))).
  { repeat (constructor; [apply D; reflexivity|]). constructor. }
  assert (P : forall k, In k (keys (firstn 3 fx_store)) ->
                        is_ok (strptime_b_y k) = true).
  { assert (F : forallb (fun k => is_ok (strptime_b_y k))
                  (keys (firstn 3 fx_store)) = true) by reflexivity.
    rewrite forallb_forall in F. exact F. }
  destruct (same_period_second_entry (JDict [("month", JStr "JAN-24")])
              (firstn 3 fx_store) fx_now "JAN-24" "Jan-24"
              (JDict [("month", JStr "Jan-24"); ("topApps", JList [])])
              eq_refl N P (or_introl eq_refl) eq_refl)
    as [recent [H1 [H2 _]]].
  - discriminate.
  - apply D. reflexivity.
  - simpl. lia.
  - exists recent. split; [exact H1 | exact H2].
Defined.
